(** * Krzys Comm: the persistence core of [app.py]

    A shallow embedding of the state store and the history log of
    [app.py] (FastAPI handlers over an SQLite file), and the properties of
    the specification stated and proved over it.

    Conventions of the embedding:
    - Python values ([dict], [list], [str], [int], [float], [None]) are
      terms of [pyval]; a [dict] is an association list in insertion
      order, because [json.dumps] writes the keys in that order.
    - The SQLite file is a value of type [db]: the two tables of [init_db]
      (each absent until created) with typed rows, and the AUTOINCREMENT
      counter of [history].
    - A connection is a pair of the committed database and the view of the
      open transaction; [commit] publishes the view, an exception leaves
      the committed database as it was.
    - The wall clock is an input: every operation that calls
      [datetime.utcnow()] takes the reading as its argument [now].
    - Text of floating-point numbers ([float.__repr__] and [float(...)]) is
      not computed here; both conversions are variables of the section, and
      so is the number of containers that [json] can nest before the
      interpreter raises [RecursionError].
    - A [str] is modelled by the bytes of its UTF-8 form, a lone surrogate
      (which a [str] can hold and UTF-8 cannot) by the three bytes of the
      generalised form; a TEXT value of the file is the bytes that SQLite
      holds.  [utf8_ok] tells the two apart: [sqlite3] binds a [str] only
      if it has no lone surrogate, and returns a TEXT value only if it
      decodes. *)

From Stdlib Require Import ZArith List String Ascii Bool Lia DecimalString.
From Stdlib Require DecimalFacts DecimalPos.
From Stdlib Require Import Sorting.Sorted.
From Stdlib Require Import Floats.PrimFloat.
Import ListNotations.

Set Warnings "-register-all".

Open Scope string_scope.
Open Scope Z_scope.

(** ** Text helpers *)

(** [str(n)] for a Python [int]. *)
Definition int_repr (z : Z) : string := NilZero.string_of_int (Z.to_int z).

(** [s.rjust(width, "0")] for the [%0Nd] fields of [isoformat]. *)
Fixpoint zeros (n : nat) : string :=
  match n with
  | O => ""
  | S n' => String "0" (zeros n')
  end.

Definition zfill (width : nat) (z : Z) : string :=
  let s := int_repr z in
  zeros (width - String.length s) ++ s.

(** [sep.join(parts)]. *)
Fixpoint join (sep : string) (parts : list string) : string :=
  match parts with
  | [] => ""
  | [p] => p
  | p :: rest => p ++ sep ++ join sep rest
  end.

(** ** The clock: [datetime.utcnow().isoformat() + "Z"] *)

Record datetime := mk_datetime {
  year : Z; month : Z; day : Z;
  hour : Z; minute : Z; second : Z; microsecond : Z
}.

(** [datetime.isoformat()] of a naive datetime: the fraction is printed only
    when [microsecond] is not zero. *)
Definition isoformat (d : datetime) : string :=
  zfill 4 (year d) ++ "-" ++ zfill 2 (month d) ++ "-" ++ zfill 2 (day d)
  ++ "T" ++ zfill 2 (hour d) ++ ":" ++ zfill 2 (minute d) ++ ":"
  ++ zfill 2 (second d)
  ++ (if microsecond d =? 0 then "" else "." ++ zfill 6 (microsecond d)).

(** The stamp that [init_db], [update_state_in_db] and
    [append_history_record] compute. *)
Definition utc_stamp (now : datetime) : string := isoformat now ++ "Z".

(** ** Python values *)

Inductive pyval : Type :=
| PNone
| PBool (b : bool)
| PInt (z : Z)
| PFloat (f : float)
| PStr (s : string)
| PList (l : list pyval)
| PDict (d : list (string * pyval)).

Definition dict := list (string * pyval).

(** [d[k]]; [None] stands for [KeyError]. *)
Fixpoint dict_get (d : dict) (k : string) : option pyval :=
  match d with
  | [] => None
  | (k', v) :: rest => if String.eqb k' k then Some v else dict_get rest k
  end.

(** [d[k] = v]: an existing key keeps its position, a new key goes last. *)
Fixpoint dict_set (d : dict) (k : string) (v : pyval) : dict :=
  match d with
  | [] => [(k, v)]
  | (k', v') :: rest =>
      if String.eqb k' k then (k', v) :: rest else (k', v') :: dict_set rest k v
  end.

(** [d.update(other)]. *)
Definition dict_update (d other : dict) : dict :=
  fold_left (fun acc kv => dict_set acc (fst kv) (snd kv)) other d.

Definition dict_keys (d : dict) : list string := map fst d.

(** [dict(pairs)], as [json.loads] builds an object. *)
Definition dict_of_pairs (pairs : list (string * pyval)) : dict :=
  dict_update [] pairs.

(** ** [json.dumps(obj, ensure_ascii=False)] and [json.loads(text)] *)

Definition code (c : ascii) : Z := Z.of_N (N_of_ascii c).
Definition chr (z : Z) : ascii := ascii_of_N (Z.to_N z).

Definition dquote : ascii := chr 34.
Definition backslash : ascii := chr 92.

(** *** Valid UTF-8

    The strict decoder of CPython: no continuation byte out of place, no
    overlong form, no surrogate, nothing above U+10FFFF. *)

Definition is_cont (c : ascii) : bool := (128 <=? code c) && (code c <=? 191).

(** The second byte after the lead byte [x] of a three-byte form. *)
Definition second_of_three (x : Z) (c : ascii) : bool :=
  if x =? 224 then (160 <=? code c) && (code c <=? 191)
  else if x =? 237 then (128 <=? code c) && (code c <=? 159)
  else is_cont c.

(** The second byte after the lead byte [x] of a four-byte form. *)
Definition second_of_four (x : Z) (c : ascii) : bool :=
  if x =? 240 then (144 <=? code c) && (code c <=? 191)
  else if x =? 244 then (128 <=? code c) && (code c <=? 143)
  else is_cont c.

Fixpoint utf8_ok (s : string) : bool :=
  match s with
  | "" => true
  | String a r1 =>
      let x := code a in
      if x <? 128 then utf8_ok r1
      else
        match r1 with
        | "" => false
        | String b r2 =>
            if (194 <=? x) && (x <=? 223) then is_cont b && utf8_ok r2
            else
              match r2 with
              | "" => false
              | String c r3 =>
                  if (224 <=? x) && (x <=? 239) then
                    second_of_three x b && is_cont c && utf8_ok r3
                  else
                    match r3 with
                    | "" => false
                    | String d r4 =>
                        (240 <=? x) && (x <=? 244) && second_of_four x b
                        && is_cont c && is_cont d && utf8_ok r4
                    end
              end
        end
  end.

Fixpoint is_ascii (s : string) : bool :=
  match s with
  | "" => true
  | String c rest => (code c <? 128) && is_ascii rest
  end.

Definition hex_digit (z : Z) : ascii :=
  if z <? 10 then chr (48 + z) else chr (87 + z).

(** The replacement table [ESCAPE_DCT] of [json.encoder]: the quote, the
    backslash and the control characters are escaped, every other character
    is written as it is ([ensure_ascii=False]). *)
Definition escape_char (c : ascii) : string :=
  let n := code c in
  if n =? 34 then String backslash (String dquote "")
  else if n =? 92 then String backslash (String backslash "")
  else if n =? 10 then String backslash "n"
  else if n =? 13 then String backslash "r"
  else if n =? 9 then String backslash "t"
  else if n =? 12 then String backslash "f"
  else if n =? 8 then String backslash "b"
  else if n <? 32 then
    String backslash
      ("u00" ++ String (hex_digit (n / 16)) (String (hex_digit (n mod 16)) ""))
  else String c "".

Fixpoint escape_chars (s : string) : string :=
  match s with
  | "" => ""
  | String c rest => escape_char c ++ escape_chars rest
  end.

Definition encode_basestring (s : string) : string :=
  String dquote (escape_chars s ++ String dquote "").

(** ** Float text of the examples

    The text of a float is not computed by this model (see [FloatText]
    below).  The closed examples at the end of the file run the model with
    the two tables that follow; they agree with Python on the floats and
    on the literals that occur in those examples. *)
Definition example_float_repr (f : float) : string :=
  if PrimFloat.eqb f (-5.5)%float then "-5.5"
  else if PrimFloat.eqb f 36.5%float then "36.5"
  else "0.0".

Definition example_float_of_literal (text : string) : float :=
  if String.eqb text "-5.5" then (-5.5)%float
  else if String.eqb text "36.5" then 36.5%float
  else 0%float.

Section FloatText.

(** [float.__repr__], used by [json.dumps] for a finite float. *)
Variable float_repr : float -> string.
(** [float(text)], used by [json.loads] for a number with a fraction or an
    exponent. *)
Variable float_of_literal : string -> float.
(** How many containers (lists and dicts) inside one another [json.dumps]
    and [json.loads] can enter before the interpreter raises
    [RecursionError].  It depends on the recursion limit of the interpreter
    and on the depth of the call stack; the two functions are called at the
    same depth below a handler. *)
Variable nesting_limit : nat.

(** [floatstr] of [json.encoder]. *)
Definition floatstr (f : float) : string :=
  if PrimFloat.is_nan f then "NaN"
  else if PrimFloat.is_infinity f then
    (if PrimFloat.ltb f PrimFloat.zero then "-Infinity" else "Infinity")
  else float_repr f.

Fixpoint json_dumps (v : pyval) : string :=
  match v with
  | PNone => "null"
  | PBool true => "true"
  | PBool false => "false"
  | PInt z => int_repr z
  | PFloat f => floatstr f
  | PStr s => encode_basestring s
  | PList l => "[" ++ join ", " (map json_dumps l) ++ "]"
  | PDict d =>
      "{" ++ join ", "
               (map (fun kv => encode_basestring (fst kv) ++ ": "
                               ++ json_dumps (snd kv)) d)
      ++ "}"
  end.

(** *** The decoder *)

Definition is_ws (c : ascii) : bool :=
  let n := code c in (n =? 32) || (n =? 9) || (n =? 10) || (n =? 13).

Fixpoint skip_ws (s : string) : string :=
  match s with
  | String c rest => if is_ws c then skip_ws rest else s
  | "" => ""
  end.

Definition is_digit (c : ascii) : bool := (48 <=? code c) && (code c <=? 57).

Definition hex_val (c : ascii) : option Z :=
  let n := code c in
  if (48 <=? n) && (n <=? 57) then Some (n - 48)
  else if (65 <=? n) && (n <=? 70) then Some (n - 55)
  else if (97 <=? n) && (n <=? 102) then Some (n - 87)
  else None.

(** The four hexadecimal digits after [\u]. *)
Definition hex4 (a b c d : ascii) : option Z :=
  match hex_val a, hex_val b, hex_val c, hex_val d with
  | Some x, Some y, Some z, Some w => Some (((x * 16 + y) * 16 + z) * 16 + w)
  | _, _, _, _ => None
  end.

(** A code point as the bytes of its UTF-8 form (a lone surrogate takes the
    three-byte form). *)
Definition utf8 (u : Z) : string :=
  if u <? 128 then String (chr u) ""
  else if u <? 2048 then
    String (chr (192 + u / 64)) (String (chr (128 + u mod 64)) "")
  else if u <? 65536 then
    String (chr (224 + u / 4096))
      (String (chr (128 + (u / 64) mod 64)) (String (chr (128 + u mod 64)) ""))
  else
    String (chr (240 + u / 262144))
      (String (chr (128 + (u / 4096) mod 64))
         (String (chr (128 + (u / 64) mod 64))
            (String (chr (128 + u mod 64)) ""))).

Definition simple_escape (c : ascii) : option ascii :=
  let n := code c in
  if (n =? 34) || (n =? 92) || (n =? 47) then Some c
  else if n =? 98 then Some (chr 8)
  else if n =? 102 then Some (chr 12)
  else if n =? 110 then Some (chr 10)
  else if n =? 114 then Some (chr 13)
  else if n =? 116 then Some (chr 9)
  else None.

Definition is_high_surrogate (u : Z) : bool := (55296 <=? u) && (u <=? 56319).
Definition is_low_surrogate (u : Z) : bool := (56320 <=? u) && (u <=? 57343).

Definition prepend (pre : string) (r : option (string * string))
  : option (string * string) :=
  match r with
  | Some (body, tail) => Some (pre ++ body, tail)
  | None => None
  end.

(** [scanstring] (strict): reads the text after the opening quote up to the
    closing quote; returns the decoded string and what follows the quote. *)
Fixpoint scanstring (s : string) : option (string * string) :=
  match s with
  | "" => None
  | String c rest =>
      let n := code c in
      if n =? 34 then Some ("", rest)
      else if n <? 32 then None
      else if n =? 92 then
        match rest with
        | "" => None
        | String e rest1 =>
            if code e =? 117 then
              match rest1 with
              | String a (String b (String c' (String d rest2))) =>
                  match hex4 a b c' d with
                  | None => None
                  | Some u =>
                      match rest2 with
                      | String b1 (String e1 (String a1 (String b2
                          (String c1 (String d1 rest3))))) =>
                          match (if is_high_surrogate u && (code b1 =? 92)
                                    && (code e1 =? 117)
                                 then hex4 a1 b2 c1 d1 else None) with
                          | Some u2 =>
                              if is_low_surrogate u2 then
                                prepend
                                  (utf8 (65536 + (u - 55296) * 1024
                                         + (u2 - 56320)))
                                  (scanstring rest3)
                              else prepend (utf8 u) (scanstring rest2)
                          | None => prepend (utf8 u) (scanstring rest2)
                          end
                      | _ => prepend (utf8 u) (scanstring rest2)
                      end
                  end
              | _ => None
              end
            else
              match simple_escape e with
              | Some d => prepend (String d "") (scanstring rest1)
              | None => None
              end
        end
      else prepend (String c "") (scanstring rest)
  end.

(** *** Numbers

    An optional minus sign, then a single zero or a nonzero digit followed
    by digits, then optionally a point with at least one digit, then
    optionally an exponent with at least one digit ([NUMBER_RE]). *)

Fixpoint span_digits (s : string) : string * string :=
  match s with
  | String c rest =>
      if is_digit c then
        let (ds, tail) := span_digits rest in (String c ds, tail)
      else ("", s)
  | "" => ("", "")
  end.

Fixpoint digits_value (acc : Z) (s : string) : Z :=
  match s with
  | String c rest => digits_value (acc * 10 + (code c - 48)) rest
  | "" => acc
  end.

Definition scan_int_part (s : string) : option (string * string) :=
  match s with
  | String c rest =>
      if code c =? 48 then Some ("0", rest)
      else if is_digit c then
        let (ds, tail) := span_digits rest in Some (String c ds, tail)
      else None
  | "" => None
  end.

Definition scan_frac (s : string) : string * string :=
  match s with
  | String c rest =>
      if code c =? 46 then
        match span_digits rest with
        | ("", _) => ("", s)
        | (ds, tail) => (String c ds, tail)
        end
      else ("", s)
  | "" => ("", "")
  end.

Definition scan_exp (s : string) : string * string :=
  match s with
  | String c rest =>
      if (code c =? 101) || (code c =? 69) then
        let (sign, rest1) :=
          match rest with
          | String g rest' =>
              if (code g =? 43) || (code g =? 45) then (String g "", rest')
              else ("", rest)
          | "" => ("", rest)
          end in
        match span_digits rest1 with
        | ("", _) => ("", s)
        | (ds, tail) => (String c (sign ++ ds), tail)
        end
      else ("", s)
  | "" => ("", "")
  end.

(** [sys.get_int_max_str_digits()]: the largest number of digits that
    [int(text)] and [str(n)] accept (the default of CPython). *)
Definition int_max_str_digits : Z := 4300.

(** [str(n)] returns: [n] has no more digits than the limit. *)
Definition int_str_ok (z : Z) : bool :=
  Z.of_nat (String.length (int_repr (Z.abs z))) <=? int_max_str_digits.

(** [int(text)] without fraction and exponent, which raises [ValueError]
    beyond the limit of digits; [float(text)] otherwise. *)
Definition scan_number (s : string) : option (pyval * string) :=
  let (sign, s1) :=
    match s with
    | String c rest => if code c =? 45 then (true, rest) else (false, s)
    | "" => (false, s)
    end in
  match scan_int_part s1 with
  | None => None
  | Some (ip, s2) =>
      let (fp, s3) := scan_frac s2 in
      let (ep, s4) := scan_exp s3 in
      match fp, ep with
      | "", "" =>
          if int_max_str_digits <? Z.of_nat (String.length ip) then None
          else
            Some (PInt (if sign then - digits_value 0 ip
                        else digits_value 0 ip),
                  s4)
      | _, _ =>
          Some (PFloat (float_of_literal
                          ((if sign then "-" else "") ++ ip ++ fp ++ ep)), s4)
      end
  end.

(** [s.startswith(p)], returning what follows [p]. *)
Fixpoint strip_prefix (p s : string) : option string :=
  match p, s with
  | "", _ => Some s
  | String a p', String b s' =>
      if Ascii.eqb a b then strip_prefix p' s' else None
  | String _ _, "" => None
  end.

Definition scan_constant (s : string) : option (pyval * string) :=
  match strip_prefix "null" s with
  | Some r => Some (PNone, r)
  | None =>
  match strip_prefix "true" s with
  | Some r => Some (PBool true, r)
  | None =>
  match strip_prefix "false" s with
  | Some r => Some (PBool false, r)
  | None =>
  match strip_prefix "NaN" s with
  | Some r => Some (PFloat PrimFloat.nan, r)
  | None =>
  match strip_prefix "Infinity" s with
  | Some r => Some (PFloat PrimFloat.infinity, r)
  | None =>
  match strip_prefix "-Infinity" s with
  | Some r => Some (PFloat PrimFloat.neg_infinity, r)
  | None => scan_number s
  end end end end end end.

(** [scan_once]: one value at the head of [s].  [fuel] bounds the length
    of the run; [json_loads] supplies more than the text can use.  [room] is
    the number of containers that may still be entered: opening one more
    raises [RecursionError]. *)
Fixpoint scan_once (fuel room : nat) (s : string) : option (pyval * string) :=
  match fuel with
  | O => None
  | S f =>
      match s with
      | "" => None
      | String c rest =>
          let n := code c in
          if n =? 34 then
            match scanstring rest with
            | Some (str, tail) => Some (PStr str, tail)
            | None => None
            end
          else if n =? 123 then
            match room with
            | O => None
            | S inner =>
                let r := skip_ws rest in
                match r with
                | String c1 r1 =>
                    if code c1 =? 125 then Some (PDict [], r1)
                    else scan_members f inner r []
                | "" => None
                end
            end
          else if n =? 91 then
            match room with
            | O => None
            | S inner =>
                let r := skip_ws rest in
                match r with
                | String c1 r1 =>
                    if code c1 =? 93 then Some (PList [], r1)
                    else scan_elements f inner r []
                | "" => None
                end
            end
          else scan_constant s
      end
  end

with scan_elements (fuel room : nat) (s : string) (acc : list pyval)
  : option (pyval * string) :=
  match fuel with
  | O => None
  | S f =>
      match scan_once f room s with
      | None => None
      | Some (v, tail) =>
          match skip_ws tail with
          | String c r =>
              if code c =? 93 then Some (PList (rev (v :: acc)), r)
              else if code c =? 44 then
                scan_elements f room (skip_ws r) (v :: acc)
              else None
          | "" => None
          end
      end
  end

with scan_members (fuel room : nat) (s : string)
    (acc : list (string * pyval)) : option (pyval * string) :=
  match fuel with
  | O => None
  | S f =>
      match s with
      | String q rest =>
          if code q =? 34 then
            match scanstring rest with
            | None => None
            | Some (key, tail) =>
                match skip_ws tail with
                | String c r =>
                    if code c =? 58 then
                      match scan_once f room (skip_ws r) with
                      | None => None
                      | Some (v, tail') =>
                          match skip_ws tail' with
                          | String c' r' =>
                              if code c' =? 125 then
                                Some (PDict (dict_of_pairs
                                               (rev ((key, v) :: acc))), r')
                              else if code c' =? 44 then
                                scan_members f room (skip_ws r')
                                  ((key, v) :: acc)
                              else None
                          | "" => None
                          end
                      end
                    else None
                | "" => None
                end
            end
          else None
      | "" => None
      end
  end.

(** [json.loads(text)]; [None] stands for any exception it raises: the
    [JSONDecodeError] of a text that is not JSON, the [ValueError] of an
    integer of too many digits, the [RecursionError] of containers nested
    too deep. *)
Definition json_loads (text : string) : option pyval :=
  match scan_once (2 * String.length text + 2) nesting_limit
          (skip_ws text) with
  | Some (v, tail) =>
      match skip_ws tail with
      | "" => Some v
      | String _ _ => None
      end
  | None => None
  end.

(** ** Exceptions *)

Inductive exn : Type :=
| HTTPException (status_code : Z) (detail : string)
    (* raised by the handlers *)
| RequestValidationError (fields : list string)
    (* pydantic rejects the request body; the offending fields *)
| RuntimeError (msg : string)
| RecursionError (msg : string)
    (* json: containers nested deeper than the interpreter allows *)
| ValueError (msg : string)
    (* json: an int of more digits than [str] converts *)
| UnicodeEncodeError (msg : string)
    (* sqlite3: a str with a lone surrogate has no UTF-8 form *)
| KeyError (key : string)
| OverflowError (msg : string)
    (* sqlite3: a Python int outside the 64-bit INTEGER range *)
| InterfaceError (msg : string)
    (* sqlite3: a parameter of an unsupported type (ProgrammingError in
       recent versions of the module) *)
| OperationalError (msg : string)
    (* sqlite3: no such table; no rowid left; a TEXT value that does not
       decode *)
| IntegrityError (msg : string)
    (* sqlite3: NOT NULL or PRIMARY KEY constraint failed *)
| Unmodelled (what : string).
    (* a value whose storage class differs from the declared type of its
       column: SQLite would apply the column affinity, which this model
       does not follow; no call made by the handlers reaches it *)

(** The status code the framework answers with: the code of an
    [HTTPException], 422 for a body that fails validation, 500 for any
    exception the handler lets through. *)
Definition http_status (e : exn) : Z :=
  match e with
  | HTTPException status_code _ => status_code
  | RequestValidationError _ => 422
  | _ => 500
  end.

Definition is_client_error (e : exn) : bool :=
  (400 <=? http_status e) && (http_status e <? 500).

(** ** What [json.dumps] raises *)

Definition int_too_long : exn :=
  ValueError
    ("Exceeds the limit (4300 digits) for integer string conversion; "
     ++ "use sys.set_int_max_str_digits() to increase the limit").

Definition too_deep : exn :=
  RecursionError "maximum recursion depth exceeded while encoding a JSON object".

(** The first exception that the encoder meets on its way through [v],
    with [room] containers still to enter. *)
Fixpoint dumps_error (room : nat) (v : pyval) {struct v} : option exn :=
  match v with
  | PInt z => if int_str_ok z then None else Some int_too_long
  | PList l =>
      match room with
      | O => Some too_deep
      | S inner =>
          (fix elems (l : list pyval) : option exn :=
             match l with
             | [] => None
             | x :: rest =>
                 match dumps_error inner x with
                 | Some e => Some e
                 | None => elems rest
                 end
             end) l
      end
  | PDict d =>
      match room with
      | O => Some too_deep
      | S inner =>
          (fix members (d : list (string * pyval)) : option exn :=
             match d with
             | [] => None
             | kv :: rest =>
                 match dumps_error inner (snd kv) with
                 | Some e => Some e
                 | None => members rest
                 end
             end) d
      end
  | PNone | PBool _ | PFloat _ | PStr _ => None
  end.

(** The same search through the elements of a list and through the
    members of a dict. *)
Fixpoint elems_error (room : nat) (l : list pyval) : option exn :=
  match l with
  | [] => None
  | x :: rest =>
      match dumps_error room x with
      | Some e => Some e
      | None => elems_error room rest
      end
  end.

Fixpoint members_error (room : nat) (d : list (string * pyval))
  : option exn :=
  match d with
  | [] => None
  | kv :: rest =>
      match dumps_error room (snd kv) with
      | Some e => Some e
      | None => members_error room rest
      end
  end.

(** [json.dumps(obj, ensure_ascii=False)] as a call: the text, or the
    exception. *)
Definition json_dumps_call (v : pyval) : exn + string :=
  match dumps_error nesting_limit v with
  | Some e => inl e
  | None => inr (json_dumps v)
  end.

(** ** The database file *)

Record state_row := mk_state_row {
  st_id : Z;
  st_energy : Z;
  st_heart_rate : Z;
  st_temperature : float;
  st_mood : string;
  st_last_updated : string
}.

Record history_row := mk_history_row {
  h_id : Z;
  h_type : string;
  h_who : option string;
  h_content : string;
  h_ts : string
}.

(** A table is [None] until [CREATE TABLE] has run.  [history_seq] is the
    AUTOINCREMENT counter of [history] (the largest id ever assigned). *)
Record db := mk_db {
  state_table : option (list state_row);
  history_table : option (list history_row);
  history_seq : Z
}.

(** The file before the first start of the service. *)
Definition fresh_db : db :=
  {| state_table := None; history_table := None; history_seq := 0 |}.

(** ** Connections: an exception and state monad *)

Record conn := mk_conn {
  disk : db;   (* what is committed *)
  view : db    (* what the open transaction sees *)
}.

Definition M (A : Type) : Type := conn -> (exn + A) * conn.

Definition ret {A} (a : A) : M A := fun c => (inr a, c).
Definition raise {A} (e : exn) : M A := fun c => (inl e, c).
Definition bind {A B} (m : M A) (k : A -> M B) : M B :=
  fun c =>
    match m c with
    | (inr a, c') => k a c'
    | (inl e, c') => (inl e, c')
    end.

Notation "x <- m ;; k" := (bind m (fun x => k))
  (at level 61, m at next level, right associativity).
Notation "m ;; k" := (bind m (fun _ => k))
  (at level 61, right associativity).

Definition lift {A} (r : exn + A) : M A := fun c => (r, c).

Definition get_view : M db := fun c => (inr (view c), c).
Definition put_view (d : db) : M unit :=
  fun c => (inr tt, {| disk := disk c; view := d |}).

(** [conn.commit()]. *)
Definition commit : M unit :=
  fun c => (inr tt, {| disk := view c; view := view c |}).

(** [conn.close()]: what was not committed is lost. *)
Definition close : M unit :=
  fun c => (inr tt, {| disk := disk c; view := disk c |}).

(** An operation of the store: from the file to a result or an exception,
    and the file afterwards. *)
Definition Op (A : Type) : Type := db -> (exn + A) * db.

(** [with LOCK: conn = _conn(); ...]: the body runs alone on a new
    connection; when it raises, the connection is dropped with whatever was
    not committed. *)
Definition with_conn {A} (body : M A) : Op A :=
  fun d =>
    let (r, c) := body {| disk := d; view := d |} in (r, disk c).

(** ** Parameters and columns *)

Inductive sqlval : Type :=
| SNull
| SInteger (z : Z)
| SReal (f : float)
| SText (s : string).

Definition int64_min : Z := - 2 ^ 63.
Definition int64_max : Z := 2 ^ 63 - 1.
Definition in_int64 (z : Z) : bool := (int64_min <=? z) && (z <=? int64_max).

(** The message of Python goes on to name the character and its position. *)
Definition surrogates_not_allowed : exn :=
  UnicodeEncodeError "'utf-8' codec can't encode character: surrogates not allowed".

(** How [sqlite3] binds a Python value to a [?]: an [int] must fit in 64
    bits, a NaN becomes NULL, a [str] is encoded to UTF-8. *)
Definition bind_param (v : pyval) : exn + sqlval :=
  match v with
  | PNone => inr SNull
  | PBool b => inr (SInteger (if b then 1 else 0))
  | PInt z =>
      if in_int64 z then inr (SInteger z)
      else inl (OverflowError "Python int too large to convert to SQLite INTEGER")
  | PFloat f => inr (if PrimFloat.is_nan f then SNull else SReal f)
  | PStr s => if utf8_ok s then inr (SText s) else inl surrogates_not_allowed
  | PList _ | PDict _ =>
      inl (InterfaceError "Error binding parameter - probably unsupported type.")
  end.

Definition not_null_failed (column : string) : exn :=
  IntegrityError ("NOT NULL constraint failed: " ++ column).

(** A value stored in an [INTEGER NOT NULL] column. *)
Definition col_integer (column : string) (v : sqlval) : exn + Z :=
  match v with
  | SInteger z => inr z
  | SNull => inl (not_null_failed column)
  | _ => inl (Unmodelled column)
  end.

(** What a REAL column holds after [f] was written to it: SQLite keeps a
    float without fraction as an integer, so the sign of a zero is lost. *)
Definition stored_real (f : float) : float :=
  if PrimFloat.eqb f PrimFloat.zero then PrimFloat.zero else f.

(** A value stored in a [REAL NOT NULL] column. *)
Definition col_real (column : string) (v : sqlval) : exn + float :=
  match v with
  | SReal f => inr (stored_real f)
  | SNull => inl (not_null_failed column)
  | _ => inl (Unmodelled column)
  end.

(** A value stored in a [TEXT NOT NULL] column. *)
Definition col_text (column : string) (v : sqlval) : exn + string :=
  match v with
  | SText s => inr s
  | SNull => inl (not_null_failed column)
  | _ => inl (Unmodelled column)
  end.

(** A value stored in a [TEXT] column that may be NULL. *)
Definition col_text_null (column : string) (v : sqlval) : exn + option string :=
  match v with
  | SText s => inr (Some s)
  | SNull => inr None
  | _ => inl (Unmodelled column)
  end.

(** ** The statements of [app.py] *)

Definition no_such_table (name : string) : exn :=
  OperationalError ("no such table: " ++ name).

Definition set_state_table (d : db) (rows : list state_row) : db :=
  {| state_table := Some rows;
     history_table := history_table d;
     history_seq := history_seq d |}.

Definition set_history_table (d : db) (rows : list history_row) (seq : Z) : db :=
  {| state_table := state_table d;
     history_table := Some rows;
     history_seq := seq |}.

(** [CREATE TABLE IF NOT EXISTS state (...)]. *)
Definition sql_create_state : M unit :=
  d <- get_view ;;
  match state_table d with
  | Some _ => ret tt
  | None => put_view (set_state_table d [])
  end.

(** [CREATE TABLE IF NOT EXISTS history (...)]. *)
Definition sql_create_history : M unit :=
  d <- get_view ;;
  match history_table d with
  | Some _ => ret tt
  | None => put_view (set_history_table d [] (history_seq d))
  end.

(** [SELECT COUNT( * ) as c FROM state], then [fetchone()["c"]]. *)
Definition sql_count_state : M Z :=
  d <- get_view ;;
  match state_table d with
  | None => raise (no_such_table "state")
  | Some rows => ret (Z.of_nat (List.length rows))
  end.

Definition is_row_1 (r : state_row) : bool := st_id r =? 1.

(** [INSERT INTO state(id, energy, heart_rate, temperature, mood,
    last_updated) VALUES (1, ?, ?, ?, ?, ?)]. *)
Definition sql_insert_state
    (energy heart_rate temperature mood last_updated : pyval) : M unit :=
  d <- get_view ;;
  match state_table d with
  | None => raise (no_such_table "state")
  | Some rows =>
      e <- lift (bind_param energy) ;;
      h <- lift (bind_param heart_rate) ;;
      t <- lift (bind_param temperature) ;;
      m <- lift (bind_param mood) ;;
      u <- lift (bind_param last_updated) ;;
      e <- lift (col_integer "state.energy" e) ;;
      h <- lift (col_integer "state.heart_rate" h) ;;
      t <- lift (col_real "state.temperature" t) ;;
      m <- lift (col_text "state.mood" m) ;;
      u <- lift (col_text "state.last_updated" u) ;;
      if existsb is_row_1 rows then
        raise (IntegrityError "UNIQUE constraint failed: state.id")
      else
        put_view (set_state_table d
                    (rows ++ [mk_state_row 1 e h t m u])%list)
  end.

(** [sqlite3] returns a TEXT value as a [str]: the bytes must decode.  The
    message goes on with the text, undecodable bytes replaced. *)
Definition decode_failed (column : string) : exn :=
  OperationalError ("Could not decode to UTF-8 column '" ++ column ++ "'").

(** The TEXT columns of a state row decode; [last_updated] counts only when
    it is selected. *)
Definition state_row_decodes (with_last_updated : bool) (r : state_row)
  : bool :=
  utf8_ok (st_mood r)
  && (negb with_last_updated || utf8_ok (st_last_updated r)).

(** [SELECT energy, heart_rate, temperature, mood FROM state WHERE id = 1],
    with [last_updated] as a fifth column in [get_state_from_db], then
    [fetchone()]. *)
Definition sql_select_state (with_last_updated : bool)
  : M (option state_row) :=
  d <- get_view ;;
  match state_table d with
  | None => raise (no_such_table "state")
  | Some rows =>
      match find is_row_1 rows with
      | None => ret None
      | Some row =>
          if negb (utf8_ok (st_mood row)) then raise (decode_failed "mood")
          else if with_last_updated && negb (utf8_ok (st_last_updated row))
          then raise (decode_failed "last_updated")
          else ret (Some row)
      end
  end.

(** [UPDATE state SET energy = ?, heart_rate = ?, temperature = ?, mood = ?,
    last_updated = ? WHERE id = 1]. *)
Definition sql_update_state
    (energy heart_rate temperature mood last_updated : pyval) : M unit :=
  d <- get_view ;;
  match state_table d with
  | None => raise (no_such_table "state")
  | Some rows =>
      e <- lift (bind_param energy) ;;
      h <- lift (bind_param heart_rate) ;;
      t <- lift (bind_param temperature) ;;
      m <- lift (bind_param mood) ;;
      u <- lift (bind_param last_updated) ;;
      if existsb is_row_1 rows then
        e <- lift (col_integer "state.energy" e) ;;
        h <- lift (col_integer "state.heart_rate" h) ;;
        t <- lift (col_real "state.temperature" t) ;;
        m <- lift (col_text "state.mood" m) ;;
        u <- lift (col_text "state.last_updated" u) ;;
        put_view (set_state_table d
                    (map (fun r => if is_row_1 r
                                   then mk_state_row (st_id r) e h t m u
                                   else r) rows))
      else ret tt
  end.

Definition max_id (rows : list history_row) : Z :=
  fold_right Z.max 0 (map h_id rows).

(** AUTOINCREMENT: the next id is one more than the largest id ever
    assigned. *)
Definition next_id (d : db) (rows : list history_row) : Z :=
  Z.max (history_seq d) (max_id rows) + 1.

(** A rowid is a 64-bit integer: once the largest has been assigned, no
    AUTOINCREMENT id is left. *)
Definition id_left (d : db) (rows : list history_row) : bool :=
  Z.max (history_seq d) (max_id rows) <? int64_max.

Definition database_full : exn := OperationalError "database or disk is full".

(** [INSERT INTO history (type, who, content, ts) VALUES (?, ?, ?, ?)]. *)
Definition sql_insert_history (type who content ts : pyval) : M unit :=
  d <- get_view ;;
  match history_table d with
  | None => raise (no_such_table "history")
  | Some rows =>
      ty <- lift (bind_param type) ;;
      w <- lift (bind_param who) ;;
      c <- lift (bind_param content) ;;
      t <- lift (bind_param ts) ;;
      ty <- lift (col_text "history.type" ty) ;;
      w <- lift (col_text_null "history.who" w) ;;
      c <- lift (col_text "history.content" c) ;;
      t <- lift (col_text "history.ts" t) ;;
      if id_left d rows then
        let id := next_id d rows in
        put_view (set_history_table d
                    (rows ++ [mk_history_row id ty w c t])%list id)
      else raise database_full
  end.

(** [ORDER BY id DESC]. *)
Fixpoint insert_desc (r : history_row) (rows : list history_row)
  : list history_row :=
  match rows with
  | [] => [r]
  | r' :: rest =>
      if h_id r' <=? h_id r then r :: rows else r' :: insert_desc r rest
  end.

Definition order_by_id_desc (rows : list history_row) : list history_row :=
  fold_right insert_desc [] rows.

(** [WHERE type IN (?, ..., ?)]. *)
Definition type_in (types : list string) (r : history_row) : bool :=
  existsb (String.eqb (h_type r)) types.

(** [LIMIT ?]: a negative bound is no bound. *)
Definition sql_limit (n : Z) (rows : list history_row) : list history_row :=
  if n <? 0 then rows else firstn (Z.to_nat n) rows.

(** The TEXT columns of a history row decode. *)
Definition row_decodes (r : history_row) : bool :=
  utf8_ok (h_type r)
  && match h_who r with Some w => utf8_ok w | None => true end
  && utf8_ok (h_content r)
  && utf8_ok (h_ts r).

(** One row of the result as [sqlite3] returns it, column by column. *)
Definition fetch_row (r : history_row) : exn + history_row :=
  if negb (utf8_ok (h_type r)) then inl (decode_failed "type")
  else if negb match h_who r with Some w => utf8_ok w | None => true end
  then inl (decode_failed "who")
  else if negb (utf8_ok (h_content r)) then inl (decode_failed "content")
  else if negb (utf8_ok (h_ts r)) then inl (decode_failed "ts")
  else inr r.

(** [fetchall()]: the rows in the order of the result; the first value that
    does not decode raises. *)
Fixpoint fetchall (rows : list history_row) : exn + list history_row :=
  match rows with
  | [] => inr []
  | r :: rest =>
      match fetch_row r with
      | inl e => inl e
      | inr r' =>
          match fetchall rest with
          | inl e => inl e
          | inr rest' => inr (r' :: rest')
          end
      end
  end.

(** The parameters of [WHERE type IN (?, ..., ?)], bound in order. *)
Fixpoint bind_types (types : list string) : exn + unit :=
  match types with
  | [] => inr tt
  | t :: rest =>
      match bind_param (PStr t) with
      | inl e => inl e
      | inr _ => bind_types rest
      end
  end.

(** [SELECT id, type, who, content, ts FROM history] with the optional
    [WHERE] and [LIMIT] clauses that [read_history] appends, then
    [fetchall()]. *)
Definition sql_select_history (where_types : option (list string))
    (limit : option Z) : M (list history_row) :=
  d <- get_view ;;
  match history_table d with
  | None => raise (no_such_table "history")
  | Some rows =>
      match where_types with
      | Some types => lift (bind_types types)
      | None => ret tt
      end ;;
      n <- match limit with
           | Some n =>
               v <- lift (bind_param (PInt n)) ;;
               ret (Some n)
           | None => ret None
           end ;;
      let rows := match where_types with
                  | Some types => filter (type_in types) rows
                  | None => rows
                  end in
      let rows := order_by_id_desc rows in
      lift (fetchall (match n with
                      | Some n => sql_limit n rows
                      | None => rows
                      end))
  end.

(** ** The functions of [app.py] *)

(** [d[k]], raising [KeyError]. *)
Definition getitem (d : dict) (k : string) : M pyval :=
  match dict_get d k with
  | Some v => ret v
  | None => raise (KeyError k)
  end.

(** [init_db()]; [now] is read only when the state table is empty. *)
Definition init_db (now : datetime) : Op unit :=
  with_conn (
    sql_create_state ;;
    sql_create_history ;;
    c <- sql_count_state ;;
    (if c =? 0 then
       sql_insert_state (PInt 100) (PInt 2) (PFloat (-5.5)%float)
                        (PStr "neutral") (PStr (utc_stamp now)) ;;
       commit
     else ret tt) ;;
    commit ;;
    close).

(** [get_state_from_db()]. *)
Definition get_state_from_db : Op dict :=
  with_conn (
    row <- sql_select_state true ;;
    close ;;
    match row with
    | None => raise (RuntimeError "State missing")
    | Some row =>
        ret [("energy", PInt (st_energy row));
             ("heart_rate", PInt (st_heart_rate row));
             ("temperature", PFloat (st_temperature row));
             ("mood", PStr (st_mood row));
             ("updated_at", PStr (st_last_updated row))]
    end).

(** [update_state_in_db(changed)]. *)
Definition update_state_in_db (now : datetime) (changed : dict) : Op dict :=
  with_conn (
    row <- sql_select_state false ;;
    match row with
    | None => close ;; raise (RuntimeError "State missing")
    | Some row =>
        let state := [("energy", PInt (st_energy row));
                      ("heart_rate", PInt (st_heart_rate row));
                      ("temperature", PFloat (st_temperature row));
                      ("mood", PStr (st_mood row))] in
        let state := dict_update state changed in
        let ts := utc_stamp now in
        energy <- getitem state "energy" ;;
        heart_rate <- getitem state "heart_rate" ;;
        temperature <- getitem state "temperature" ;;
        mood <- getitem state "mood" ;;
        sql_update_state energy heart_rate temperature mood (PStr ts) ;;
        let rec_content := [("changed", PDict changed);
                            ("state", PDict state)] in
        content <- lift (json_dumps_call (PDict rec_content)) ;;
        sql_insert_history (PStr "state") PNone (PStr content) (PStr ts) ;;
        commit ;;
        close ;;
        ret (dict_set state "updated_at" (PStr ts))
    end).

Definition opt_str (s : option string) : pyval :=
  match s with
  | Some s => PStr s
  | None => PNone
  end.

(** [append_history_record(rec_type, who, content)]. *)
Definition append_history_record (now : datetime) (rec_type : string)
    (who : option string) (content : dict) : Op string :=
  let ts := utc_stamp now in
  fun d =>
    match with_conn (
            text <- lift (json_dumps_call (PDict content)) ;;
            sql_insert_history (PStr rec_type) (opt_str who) (PStr text)
                               (PStr ts) ;;
            commit ;;
            close) d with
    | (inr _, d') => (inr ts, d')
    | (inl e, d') => (inl e, d')
    end.

(** The body of the loop of [read_history]: one row as a [dict]. *)
Definition history_item (r : history_row) : dict :=
  let content :=
    match json_loads (h_content r) with
    | Some v => v
    | None => PDict [("raw", PStr (h_content r))]
    end in
  [("id", PInt (h_id r));
   ("type", PStr (h_type r));
   ("who", opt_str (h_who r));
   ("content", content);
   ("ts", PStr (h_ts r))].

(** [read_history(limit, types)]: [if types:] and [if limit:] skip an empty
    list and a zero. *)
Definition read_history (limit : option Z) (types : option (list string))
  : Op (list dict) :=
  fun d =>
    let where_types :=
      match types with
      | Some (t :: ts) => Some (t :: ts)
      | Some [] | None => None
      end in
    let limit_param :=
      match limit with
      | Some n => if n =? 0 then None else Some n
      | None => None
      end in
    match with_conn (
            rows <- sql_select_history where_types limit_param ;;
            close ;;
            ret rows) d with
    | (inr rows, d') => (inr (map history_item rows), d')
    | (inl e, d') => (inl e, d')
    end.

(** ** Request models and handlers *)

(** [class StateUpdate(BaseModel)]: the fields of the request body after
    their conversion to the annotated types; [None] is an absent (or null)
    field. *)
Record StateUpdate := mk_StateUpdate {
  energy : option Z;
  heart_rate : option Z;
  temperature : option float;
  mood : option string
}.

Definition energy_ok (p : StateUpdate) : bool :=
  match energy p with
  | Some e => (0 <=? e) && (e <=? 100)     (* Field(None, ge=0, le=100) *)
  | None => true
  end.

Definition heart_rate_ok (p : StateUpdate) : bool :=
  match heart_rate p with
  | Some h => 0 <=? h                      (* Field(None, ge=0) *)
  | None => true
  end.

(** The validation of the body against the [Field] constraints. *)
Definition StateUpdate_validate (body : StateUpdate) : exn + StateUpdate :=
  let errors :=
    ((if energy_ok body then [] else ["energy"])
     ++ (if heart_rate_ok body then [] else ["heart_rate"]))%list in
  match errors with
  | [] => inr body
  | _ :: _ => inl (RequestValidationError errors)
  end.

Definition field {A} (name : string) (inj : A -> pyval) (v : option A) : dict :=
  match v with
  | Some a => [(name, inj a)]
  | None => []
  end.

(** [payload.dict(exclude_none=True)]. *)
Definition StateUpdate_dict (p : StateUpdate) : dict :=
  (field "energy" PInt (energy p)
   ++ field "heart_rate" PInt (heart_rate p)
   ++ field "temperature" PFloat (temperature p)
   ++ field "mood" PStr (mood p))%list.

(** [GET /state]. *)
Definition get_state : Op dict := get_state_from_db.

(** [POST /state], the handler proper. *)
Definition update_state (now : datetime) (payload : StateUpdate) : Op dict :=
  let changed := StateUpdate_dict payload in
  match changed with
  | [] => fun d =>
      (inl (HTTPException 400 "Brak pól do zaktualizowania"), d)
  | _ :: _ => update_state_in_db now changed
  end.

(** [POST /state] as a request: the body is validated, then handled. *)
Definition post_state (now : datetime) (body : StateUpdate) : Op dict :=
  match StateUpdate_validate body with
  | inl e => fun d => (inl e, d)
  | inr payload => update_state now payload
  end.

(** [class CommRequest(BaseModel)]. *)
Record CommRequest := mk_CommRequest { message : string }.

(** [POST /comm], the handler proper. *)
Definition comm (now : datetime) (req : CommRequest) (who : Z) : Op dict :=
  if negb ((who =? 0) || (who =? 1)) then
    fun d =>
      (inl (HTTPException 400 "Parametr who musi byc 0 (krzys) lub 1 (user)"),
       d)
  else
    let who_str := if who =? 0 then "krzys" else "user" in
    fun d =>
      match append_history_record now "comm" (Some who_str)
              [("message", PStr (message req))] d with
      | (inr ts, d') =>
          (inr [("status", PStr "saved"); ("who", PStr who_str);
                ("ts", PStr ts)], d')
      | (inl e, d') => (inl e, d')
      end.

(** [POST /comm] as a request: the query parameter [who: int = 1]. *)
Definition post_comm (now : datetime) (req : CommRequest) (who : option Z)
  : Op dict :=
  comm now req (match who with Some w => w | None => 1 end).

(** [GET /history]. *)
Definition history (limit : option Z) (kind : option string) : Op dict :=
  let checked :=
    match kind with
    | Some k =>
        if String.eqb k "" then inr None
        else if negb (String.eqb k "state" || String.eqb k "comm") then
          inl (HTTPException 400 "kind musi być 'state' lub 'comm'")
        else inr (Some [k])
    | None => inr None
    end in
  match checked with
  | inl e => fun d => (inl e, d)
  | inr types => fun d =>
      match read_history limit types d with
      | (inr items, d') =>
          (inr [("count", PInt (Z.of_nat (List.length items)));
                ("items", PList (map PDict items))], d')
      | (inl e, d') => (inl e, d')
      end
  end.

(** ** The schema as an invariant *)

(** What the declarations of [init_db] guarantee of a stored state row: the
    [CHECK (id = 1)], INTEGER columns that hold 64-bit integers and a REAL
    column that is [NOT NULL] (SQLite stores a NaN as NULL). *)
Definition state_row_ok (r : state_row) : bool :=
  (st_id r =? 1) && in_int64 (st_energy r) && in_int64 (st_heart_rate r)
  && negb (PrimFloat.is_nan (st_temperature r)).

Fixpoint distinct (ids : list Z) : bool :=
  match ids with
  | [] => true
  | i :: rest => negb (existsb (Z.eqb i) rest) && distinct rest
  end.

(** [id INTEGER PRIMARY KEY] on both tables. *)
Definition wf_db (d : db) : bool :=
  match state_table d with
  | Some rows =>
      distinct (map st_id rows) && forallb state_row_ok rows
  | None => true
  end
  &&
  match history_table d with
  | Some rows => distinct (map h_id rows)
  | None => true
  end.

(** The row that [init_db] inserts. *)
Definition default_row (now : datetime) : state_row :=
  mk_state_row 1 100 2 (-5.5)%float "neutral" (utc_stamp now).

(** ** Vocabulary of the properties *)

(** Every TEXT value of the file decodes: what [sqlite3] has written into
    it does, since it binds a [str] by encoding it. *)
Definition db_text_ok (d : db) : bool :=
  match state_table d with
  | Some rows => forallb (state_row_decodes true) rows
  | None => true
  end
  &&
  match history_table d with
  | Some rows => forallb row_decodes rows
  | None => true
  end.

(** What [read_history] makes of the rows of the result: their items, or
    the exception of the first value that does not decode. *)
Definition fetched (sel : list history_row) : exn + list dict :=
  match fetchall sel with
  | inr rows => inr (map history_item rows)
  | inl e => inl e
  end.

(** The types of a query can be bound. *)
Definition types_ok (types : option (list string)) : bool :=
  match types with
  | Some ts => forallb utf8_ok ts
  | None => true
  end.

(** What [read_history] returns when the query selects [sel]. *)
Definition query_result (types : option (list string))
    (sel : list history_row) : exn + list dict :=
  if types_ok types then fetched sel else inl surrogates_not_allowed.

(** The first exception of the [INSERT] of a history entry, on a history
    table that holds [rows]: a [str] that cannot be bound, or no id left. *)
Definition insert_error (rec_type : string) (who : option string)
    (text : string) (d : db) (rows : list history_row) : option exn :=
  if negb (utf8_ok rec_type) then Some surrogates_not_allowed
  else if negb match who with Some w => utf8_ok w | None => true end
  then Some surrogates_not_allowed
  else if negb (utf8_ok text) then Some surrogates_not_allowed
  else if negb (id_left d rows) then Some database_full
  else None.

(** The rows that the query of [read_history] selects. *)
Definition selected (limit : option Z) (types : option (list string))
    (rows : list history_row) : list history_row :=
  let matching :=
    match types with
    | Some (t :: ts) => filter (type_in (t :: ts)) rows
    | Some [] | None => rows
    end in
  match limit with
  | Some n =>
      if n =? 0 then order_by_id_desc matching
      else sql_limit n (order_by_id_desc matching)
  | None => order_by_id_desc matching
  end.

(** A limit that [sqlite3] can bind. *)
Definition limit_ok (limit : option Z) : bool :=
  match limit with
  | Some n => in_int64 n
  | None => true
  end.

Definition desc (a b : history_row) : Prop := h_id b < h_id a.

(** The rows that match the filter of a query. *)
Definition matches (types : option (list string)) (r : history_row) : bool :=
  match types with
  | Some (t :: ts) => type_in (t :: ts) r
  | Some [] | None => true
  end.

Definition item_ids (items : list dict) : list (option pyval) :=
  map (fun item => dict_get item "id") items.

(** Five entries with ids 1..5, of which 2 and 4 are of type comm and 1, 3
    and 5 of type state, whatever their other columns. *)
Definition five_entries (who : Z -> option string) (content ts : Z -> string)
  : list history_row :=
  map (fun it => mk_history_row (fst it) (snd it) (who (fst it))
                   (content (fst it)) (ts (fst it)))
      [(1, "state"); (2, "comm"); (3, "state"); (4, "comm"); (5, "state")].


(** The [state] dict that [update_state_in_db] builds from the row. *)
Definition state_of_row (row : state_row) : dict :=
  [("energy", PInt (st_energy row));
   ("heart_rate", PInt (st_heart_rate row));
   ("temperature", PFloat (st_temperature row));
   ("mood", PStr (st_mood row))].

Definition or_else {A} (o : option A) (a : A) : A :=
  match o with
  | Some x => x
  | None => a
  end.

(** The [state] dict after [state.update(changed)], for the dict of a
    request body. *)
Definition merged (u : StateUpdate) (row : state_row) : dict :=
  [("energy", PInt (or_else (energy u) (st_energy row)));
   ("heart_rate", PInt (or_else (heart_rate u) (st_heart_rate row)));
   ("temperature", PFloat (or_else (temperature u) (st_temperature row)));
   ("mood", PStr (or_else (mood u) (st_mood row)))].

(** The same record as [GET /state] returns it once it is stored: SQLite
    has kept the temperature as [stored_real] does. *)
Definition merged_stored (u : StateUpdate) (row : state_row) : dict :=
  [("energy", PInt (or_else (energy u) (st_energy row)));
   ("heart_rate", PInt (or_else (heart_rate u) (st_heart_rate row)));
   ("temperature",
    PFloat (stored_real (or_else (temperature u) (st_temperature row))));
   ("mood", PStr (or_else (mood u) (st_mood row)))].

(** The content of the history entry of an update. *)
Definition entry_content (u : StateUpdate) (row : state_row) : pyval :=
  PDict [("changed", PDict (StateUpdate_dict u));
         ("state", PDict (merged u row))].

(** The first exception of the [UPDATE] of the state row: the parameters
    are bound in order, then the statement runs. *)
Definition update_error (e h : Z) (t : float) (m : string) : option exn :=
  if negb (in_int64 e) || negb (in_int64 h) then
    Some (OverflowError "Python int too large to convert to SQLite INTEGER")
  else if negb (utf8_ok m) then Some surrogates_not_allowed
  else if PrimFloat.is_nan t then Some (not_null_failed "state.temperature")
  else None.

(** The row with id 1 rewritten by the [UPDATE]. *)
Definition updated_rows (rows : list state_row) (e h : Z) (t : float)
    (m ts : string) : list state_row :=
  map (fun r => if is_row_1 r then mk_state_row (st_id r) e h t m ts else r)
      rows.

(** Exceptions that this model raises where the code raises them, that is
    all but [Unmodelled]. *)
Definition modelled (e : exn) : bool :=
  match e with
  | Unmodelled _ => false
  | _ => true
  end.

(** The outcome of an operation stays within the model. *)
Definition within_model {A} (r : (exn + A) * db) : Prop :=
  match fst r with
  | inl e => modelled e = true
  | inr _ => True
  end.

(** ** The service as a whole *)

(** A request to one of the four routes over the store. *)
Inductive request : Type :=
| GetState
| PostState (now : datetime) (body : StateUpdate)
| PostComm (now : datetime) (req : CommRequest) (who : option Z)
| GetHistory (limit : option Z) (kind : option string).

Definition serve (r : request) : Op dict :=
  match r with
  | GetState => get_state
  | PostState now body => post_state now body
  | PostComm now req who => post_comm now req who
  | GetHistory limit kind => history limit kind
  end.

(** The file after a sequence of requests; the lock admits them one at a
    time. *)
Fixpoint serve_all (rs : list request) (d : db) : db :=
  match rs with
  | [] => d
  | r :: rest => serve_all rest (snd (serve r d))
  end.

(** The file once the module is loaded: [init_db()] runs before any request
    is served. *)
Definition started (now : datetime) (d : db) : db := snd (init_db now d).

(** The list of types that [history] passes to [read_history]. *)
Definition kind_types (kind : option string) : option (list string) :=
  match kind with
  | Some k => if String.eqb k "" then None else Some [k]
  | None => None
  end.

(** The tables exist, the state table holds its one row and every TEXT
    value decodes. *)
Definition ready (d : db) : Prop :=
  wf_db d = true
  /\ db_text_ok d = true
  /\ (exists r, state_table d = Some [r])
  /\ (exists rows, history_table d = Some rows).

(** The exceptions that a started service can still raise: the 400 of a
    handler, the validation error of a body, an integer beyond 64 bits, a
    NaN temperature, a [str] with a lone surrogate, containers that the
    interpreter cannot nest, and a history whose ids are used up. *)
Definition expected_error (e : exn) : Prop :=
  (exists detail, e = HTTPException 400 detail)
  \/ (exists fields, e = RequestValidationError fields)
  \/ e = OverflowError "Python int too large to convert to SQLite INTEGER"
  \/ e = IntegrityError "NOT NULL constraint failed: state.temperature"
  \/ e = surrogates_not_allowed
  \/ e = too_deep
  \/ e = database_full.

(** A history entry as the handlers write it: an update with who NULL, or a
    message with one of the two labels. *)
Definition entry_ok (r : history_row) : bool :=
  (String.eqb (h_type r) "state"
   && match h_who r with None => true | Some _ => false end)
  || (String.eqb (h_type r) "comm"
      && match h_who r with
         | Some w => String.eqb w "krzys" || String.eqb w "user"
         | None => false
         end).

(** The ids 1, ..., n. *)
Definition ids_upto (n : nat) : list Z := map Z.of_nat (seq 1 n).

(** The log of a service that started on a new file: the ids are 1, ..., n
    in the order of insertion, and every entry is as the handlers write
    it. *)
Definition log_ok (d : db) : Prop :=
  exists rows,
    history_table d = Some rows
    /\ map h_id rows = ids_upto (List.length rows)
    /\ history_seq d = Z.of_nat (List.length rows)
    /\ forallb entry_ok rows = true
    /\ forallb row_decodes rows = true.

(** A request that writes an entry: a [POST] that is answered without an
    exception. *)
Definition saved (r : request) (d : db) : bool :=
  match r, fst (serve r d) with
  | PostState _ _, inr _ => true
  | PostComm _ _ _, inr _ => true
  | _, _ => false
  end.

Fixpoint saves (rs : list request) (d : db) : nat :=
  match rs with
  | [] => O
  | r :: rest =>
      ((if saved r d then 1 else 0) + saves rest (snd (serve r d)))%nat
  end.

(** The ts of the newest entry of type state, if there is one. *)
Definition latest_state_ts (rows : list history_row) : option string :=
  match find (fun r => String.eqb (h_type r) "state") (rev rows) with
  | Some r => Some (h_ts r)
  | None => None
  end.

(** [later] laid over [earlier]: the fields that [later] supplies, and
    those of [earlier] elsewhere. *)
Definition StateUpdate_over (later earlier : StateUpdate) : StateUpdate :=
  {| energy := match energy later with
               | Some e => Some e
               | None => energy earlier
               end;
     heart_rate := match heart_rate later with
                   | Some h => Some h
                   | None => heart_rate earlier
                   end;
     temperature := match temperature later with
                    | Some t => Some t
                    | None => temperature earlier
                    end;
     mood := match mood later with
             | Some m => Some m
             | None => mood earlier
             end |}.

(** The stamp of the state row is the ts of the newest entry of type
    state, or [seed] while there is none. *)
Definition stamp_ok (seed : string) (d : db) : Prop :=
  exists r rows,
    state_table d = Some [r]
    /\ history_table d = Some rows
    /\ st_last_updated r = or_else (latest_state_ts rows) seed.

(** ** Text that reads back

    What may follow a number in a JSON text without becoming part of it:
    the end of the text, or a character that is no digit, point or exponent
    mark. *)
Definition tail_ok (rest : string) : bool :=
  match rest with
  | "" => true
  | String c _ =>
      negb (is_digit c || (code c =? 46) || (code c =? 101) || (code c =? 69))
  end.

(** The text of the float [f] reads back as [f].  Python's [repr] of a
    float has this property; here it is a condition on the two
    conversions of the section. *)
Definition float_text_ok (f : float) : Prop :=
  forall rest, tail_ok rest = true ->
               scan_constant (floatstr f ++ rest) = Some (PFloat f, rest).

(** A value that [json.dumps] writes as it is: its floats read back and no
    dict in it has a key twice (a Python [dict] never has). *)
Fixpoint json_ok (v : pyval) : Prop :=
  match v with
  | PFloat f => float_text_ok f
  | PList l =>
      (fix all (l : list pyval) : Prop :=
         match l with
         | [] => True
         | x :: rest => json_ok x /\ all rest
         end) l
  | PDict d =>
      NoDup (map fst d)
      /\ (fix all (d : list (string * pyval)) : Prop :=
            match d with
            | [] => True
            | kv :: rest => json_ok (snd kv) /\ all rest
            end) d
  | PNone | PBool _ | PInt _ | PStr _ => True
  end.

(** The fuel that [scan_once] uses on the text of a value. *)
Fixpoint need (v : pyval) : nat :=
  match v with
  | PList l =>
      S ((fix elems (l : list pyval) : nat :=
            match l with
            | [] => O
            | x :: rest => S (Nat.max (need x) (elems rest))
            end) l)
  | PDict d =>
      S ((fix members (d : list (string * pyval)) : nat :=
            match d with
            | [] => O
            | kv :: rest => S (Nat.max (need (snd kv)) (members rest))
            end) d)
  | PNone | PBool _ | PInt _ | PFloat _ | PStr _ => 1%nat
  end.

Fixpoint need_elems (l : list pyval) : nat :=
  match l with
  | [] => O
  | x :: rest => S (Nat.max (need x) (need_elems rest))
  end.

Fixpoint need_members (d : list (string * pyval)) : nat :=
  match d with
  | [] => O
  | kv :: rest => S (Nat.max (need (snd kv)) (need_members rest))
  end.

(** The text of one member of an object. *)
Definition member_text (kv : string * pyval) : string :=
  encode_basestring (fst kv) ++ ": " ++ json_dumps (snd kv).

(** The text of [v] reads back as [v], whatever follows it, with the room
    that the encoder needed. *)
Definition reads_back (v : pyval) : Prop :=
  forall rest fuel room,
    tail_ok rest = true -> (need v <= fuel)%nat ->
    dumps_error room v = None ->
    scan_once fuel room (json_dumps v ++ rest) = Some (v, rest).

(** [repr] of a float is ASCII text; here a condition on the conversion of
    the section. *)
Definition float_repr_ascii : Prop :=
  forall f, is_ascii (float_repr f) = true.

(** Every [str] in [v], keys included, has a UTF-8 form. *)
Fixpoint strs_ok (v : pyval) : bool :=
  match v with
  | PStr s => utf8_ok s
  | PList l =>
      (fix all (l : list pyval) : bool :=
         match l with
         | [] => true
         | x :: rest => strs_ok x && all rest
         end) l
  | PDict d =>
      (fix all (d : list (string * pyval)) : bool :=
         match d with
         | [] => true
         | kv :: rest => utf8_ok (fst kv) && strs_ok (snd kv) && all rest
         end) d
  | PNone | PBool _ | PInt _ | PFloat _ => true
  end.

(** ** Inputs of the closed examples *)

(** Room for a hundred containers inside one another. *)
Definition example_nesting_limit : nat := 100.

Definition clock_0 : datetime := mk_datetime 2025 1 1 0 0 0 0.
Definition clock_0_000001 : datetime := mk_datetime 2025 1 1 0 0 0 1.
Definition clock_1 : datetime := mk_datetime 2025 1 1 0 0 1 0.

(** The file after the first start at [now]. *)
Definition db_seeded (now : datetime) : db :=
  {| state_table := Some [default_row now];
     history_table := Some [];
     history_seq := 0 |}.

(** The state table without its row. *)
Definition db_without_row : db :=
  {| state_table := Some []; history_table := Some []; history_seq := 0 |}.

(** The stored content of a message entry. *)
Definition comm_content (id : Z) : string :=
  "{" ++ encode_basestring "message" ++ ": "
  ++ encode_basestring ("message " ++ int_repr id) ++ "}".

(** A history of five entries; the content of entry 3 is not JSON. *)
Definition db_five : db :=
  {| state_table := Some [default_row clock_0];
     history_table :=
       Some (five_entries
               (fun id => if id =? 2 then Some "krzys"
                          else if id =? 4 then Some "user" else None)
               (fun id => if id =? 3 then "{not json" else comm_content id)
               (fun id => utc_stamp clock_0));
     history_seq := 5 |}.

(** The [str] of the one code point U+D800, a lone surrogate, as three
    bytes in the pattern of UTF-8. *)
Definition lone_surrogate : string :=
  String (chr 237) (String (chr 160) (String (chr 128) "")).


Definition mood_happy : StateUpdate := mk_StateUpdate None None None (Some "happy").

Definition energy_50 : StateUpdate := mk_StateUpdate (Some 50) None None None.

Definition temperature_36_5 : StateUpdate :=
  mk_StateUpdate None None (Some 36.5%float) None.

(** A message with quotes, a line feed and a backslash. *)
Definition say_hi : CommRequest :=
  mk_CommRequest
    ("say " ++ String dquote ("hi" ++ String dquote (String (chr 10) "\"))).

(** Requests of every kind; the third and the last are refused. *)
Definition session : list request :=
  [PostComm clock_1 say_hi None;
   GetState;
   GetHistory (Some 0) (Some "other");
   PostState clock_1 mood_happy;
   PostState clock_1 (mk_StateUpdate (Some 101) None None None)].

(** * Properties *)

(** ** Text *)

Lemma append_assoc (a b c : string) : (a ++ b) ++ c = a ++ (b ++ c).
Proof. induction a as [|x a IH]; cbn; [reflexivity | now rewrite IH]. Qed.

Lemma append_empty (a : string) : a ++ "" = a.
Proof. induction a as [|c a IH]; cbn; [reflexivity | now rewrite IH]. Qed.

Lemma length_append (a b : string) :
  String.length (a ++ b) = (String.length a + String.length b)%nat.
Proof. induction a as [|c a IH]; cbn; [reflexivity | now rewrite IH]. Qed.

Lemma is_ascii_app a b : is_ascii (a ++ b) = is_ascii a && is_ascii b.
Proof.
  induction a as [|c a IH]; cbn; [reflexivity|].
  now rewrite IH, andb_assoc.
Qed.

Lemma utf8_ok_ascii_app a b : is_ascii a = true -> utf8_ok (a ++ b) = utf8_ok b.
Proof.
  induction a as [|c a IH]; cbn; [reflexivity|]. intros H.
  apply andb_true_iff in H as [Hc Ha]. rewrite Hc. now apply IH.
Qed.

Lemma utf8_ok_ascii a : is_ascii a = true -> utf8_ok a = true.
Proof.
  intros H. rewrite <- (append_empty a). now rewrite utf8_ok_ascii_app.
Qed.

(** Valid text followed by any text is valid exactly when that text is. *)
Lemma utf8_ok_app a b : utf8_ok a = true -> utf8_ok (a ++ b) = utf8_ok b.
Proof.
  remember (String.length a) as n eqn:Hn. revert a Hn.
  induction n as [n IH] using lt_wf_ind. intros a Hn.
  destruct a as [|x r1]; [reflexivity|].
  cbn [utf8_ok String.append].
  destruct (code x <? 128).
  { apply (IH (String.length r1)); [subst n; cbn; lia | reflexivity]. }
  destruct r1 as [|y r2]; [discriminate|]. cbn [String.append].
  destruct ((194 <=? code x) && (code x <=? 223)).
  { intros H. apply andb_true_iff in H as [-> H]. cbn [andb].
    apply (IH (String.length r2)); [subst n; cbn; lia | reflexivity | exact H]. }
  destruct r2 as [|z r3]; [discriminate|]. cbn [String.append].
  destruct ((224 <=? code x) && (code x <=? 239)).
  { intros H. apply andb_true_iff in H as [H Hr].
    rewrite H. cbn [andb].
    apply (IH (String.length r3)); [subst n; cbn; lia | reflexivity | exact Hr]. }
  destruct r3 as [|w r4]; [discriminate|]. cbn [String.append].
  intros H. apply andb_true_iff in H as [H Hr].
  rewrite H. cbn [andb].
  apply (IH (String.length r4)); [subst n; cbn; lia | reflexivity | exact Hr].
Qed.

Lemma utf8_ok_append a b :
  utf8_ok a = true -> utf8_ok b = true -> utf8_ok (a ++ b) = true.
Proof. intros Ha Hb. now rewrite utf8_ok_app. Qed.

(** *** Decimal text *)

Lemma is_ascii_uint d : is_ascii (NilEmpty.string_of_uint d) = true.
Proof. induction d; cbn; auto. Qed.

Lemma is_ascii_int_repr z : is_ascii (int_repr z) = true.
Proof.
  unfold int_repr, NilZero.string_of_int, NilZero.string_of_uint.
  destruct (Z.to_int z) as [d|d]; destruct d; cbn; auto using is_ascii_uint.
Qed.

Lemma is_ascii_zeros n : is_ascii (zeros n) = true.
Proof. induction n; cbn; auto. Qed.

Lemma is_ascii_zfill w z : is_ascii (zfill w z) = true.
Proof.
  unfold zfill. now rewrite is_ascii_app, is_ascii_zeros, is_ascii_int_repr.
Qed.

Lemma is_ascii_utc_stamp now : is_ascii (utc_stamp now) = true.
Proof.
  unfold utc_stamp, isoformat.
  destruct (microsecond now =? 0);
    repeat (rewrite is_ascii_app || rewrite is_ascii_zfill); reflexivity.
Qed.

(** The stamp can always be bound. *)
Lemma utf8_ok_utc_stamp now : utf8_ok (utc_stamp now) = true.
Proof. apply utf8_ok_ascii, is_ascii_utc_stamp. Qed.

Lemma length_string_of_uint d :
  String.length (NilEmpty.string_of_uint d) = Decimal.nb_digits d.
Proof. induction d; cbn; auto. Qed.

Lemma nb_digits_double d :
  (Decimal.nb_digits (Decimal.Little.double d) <= S (Decimal.nb_digits d))%nat
  /\ (Decimal.nb_digits (Decimal.Little.succ_double d)
      <= S (Decimal.nb_digits d))%nat.
Proof.
  induction d as [|d [IH1 IH2]|d [IH1 IH2]|d [IH1 IH2]|d [IH1 IH2]
                  |d [IH1 IH2]|d [IH1 IH2]|d [IH1 IH2]|d [IH1 IH2]
                  |d [IH1 IH2]|d [IH1 IH2]]; cbn; lia.
Qed.

Lemma nb_digits_to_little_uint p :
  (Decimal.nb_digits (Pos.to_little_uint p) <= Pos.size_nat p)%nat.
Proof.
  induction p as [p IH|p IH|]; cbn; [| |lia].
  - pose proof (proj2 (nb_digits_double (Pos.to_little_uint p))). lia.
  - pose proof (proj1 (nb_digits_double (Pos.to_little_uint p))). lia.
Qed.

Lemma size_nat_pow p : 2 ^ (Z.of_nat (Pos.size_nat p) - 1) <= Z.pos p.
Proof.
  induction p as [p IH|p IH|]; cbn [Pos.size_nat]; [| |cbn; lia].
  - replace (Z.of_nat (S (Pos.size_nat p)) - 1)
      with (Z.succ (Z.of_nat (Pos.size_nat p) - 1)) by lia.
    assert (1 <= Pos.size_nat p)%nat by (destruct p; cbn; lia).
    rewrite Z.pow_succ_r by lia. lia.
  - replace (Z.of_nat (S (Pos.size_nat p)) - 1)
      with (Z.succ (Z.of_nat (Pos.size_nat p) - 1)) by lia.
    assert (1 <= Pos.size_nat p)%nat by (destruct p; cbn; lia).
    rewrite Z.pow_succ_r by lia. lia.
Qed.

(** A 64-bit integer has far fewer digits than [str] converts. *)
Lemma in_int64_str_ok z : in_int64 z = true -> int_str_ok z = true.
Proof.
  unfold in_int64, int64_min, int64_max, int_str_ok, int_max_str_digits.
  intros H. apply andb_true_iff in H as [Hlo Hhi].
  apply Z.leb_le in Hlo, Hhi. apply Z.leb_le.
  assert (Hp : forall p, Z.pos p <= 2 ^ 63 ->
                         Z.of_nat (String.length (int_repr (Z.pos p))) <= 4300).
  { intros p Hle. unfold int_repr. cbn [Z.to_int NilZero.string_of_int].
    unfold NilZero.string_of_uint.
    pose proof (DecimalPos.Unsigned.to_uint_nonnil p) as Hnil.
    destruct (Pos.to_uint p) eqn:E; [contradiction| ..]; rewrite <- E;
      rewrite length_string_of_uint; unfold Pos.to_uint;
      rewrite DecimalFacts.nb_digits_rev;
      pose proof (nb_digits_to_little_uint p) as Hd;
      pose proof (size_nat_pow p) as Hs;
      (assert (Pos.size_nat p <= 64)%nat;
       [|lia]);
      (destruct (le_lt_dec (Pos.size_nat p) 64) as [Hok|Hbig]; [exact Hok|]);
      exfalso;
      (assert (2 ^ 64 <= 2 ^ (Z.of_nat (Pos.size_nat p) - 1))
         by (apply Z.pow_le_mono_r; lia));
      (assert (2 ^ 63 < 2 ^ 64) by (apply Z.pow_lt_mono_r; lia));
      lia. }
  destruct z as [|p|p]; cbn [Z.abs].
  - cbn. lia.
  - apply Hp. lia.
  - apply Hp. lia.
Qed.

(** *** What SQLite keeps of a float *)

Lemma stored_real_not_nan f :
  PrimFloat.is_nan f = false -> PrimFloat.is_nan (stored_real f) = false.
Proof.
  intros H. unfold stored_real.
  destruct (PrimFloat.eqb f PrimFloat.zero); [reflexivity | exact H].
Qed.

Lemma stored_real_twice f : stored_real (stored_real f) = stored_real f.
Proof.
  unfold stored_real.
  destruct (PrimFloat.eqb f PrimFloat.zero) eqn:E; [reflexivity|].
  now rewrite E.
Qed.

(** The float that is stored equals the float that was given, as numbers. *)
Lemma stored_real_eqb f :
  PrimFloat.is_nan f = false -> PrimFloat.eqb f (stored_real f) = true.
Proof.
  intros H. unfold stored_real.
  destruct (PrimFloat.eqb f PrimFloat.zero) eqn:E; [exact E|].
  unfold PrimFloat.is_nan in H. now apply negb_false_iff in H.
Qed.

(** ** JSON text that reads back *)

(** One character, escaped by the encoder and read by the decoder. *)
Lemma scanstring_escape_char c rest :
  scanstring (escape_char c ++ rest) = prepend (String c "") (scanstring rest).
Proof.
  destruct c as [[] [] [] [] [] [] [] []];
    first
      [ reflexivity
      | destruct rest as [|b1 [|e1 [|a1 [|b2 [|c1 [|d1 rest3]]]]]];
        reflexivity ].
Qed.

Lemma scanstring_escape_chars s rest :
  scanstring (escape_chars s ++ String dquote rest) = Some (s, rest).
Proof.
  induction s as [|c s IH].
  - reflexivity.
  - cbn [escape_chars]. rewrite append_assoc, scanstring_escape_char, IH.
    reflexivity.
Qed.

(** *** Integers *)

Lemma span_digits_uint d rest :
  tail_ok rest = true ->
  span_digits (NilEmpty.string_of_uint d ++ rest)
  = (NilEmpty.string_of_uint d, rest).
Proof.
  intros Ht. induction d; cbn -[is_digit];
    try (change (is_digit _) with true; cbv iota; now rewrite IHd).
  destruct rest as [|c rest]; [reflexivity|].
  cbn -[is_digit] in *. apply negb_true_iff in Ht.
  apply orb_false_iff in Ht as [Ht _]. apply orb_false_iff in Ht as [Ht _].
  apply orb_false_iff in Ht as [Ht _]. now rewrite Ht.
Qed.

Lemma digits_value_acc d p :
  digits_value (Z.pos p) (NilEmpty.string_of_uint d)
  = Z.pos (Pos.of_uint_acc d p).
Proof.
  revert p. induction d; intros p; cbn [NilEmpty.string_of_uint digits_value
                                        Pos.of_uint_acc];
    [reflexivity|..];
    match goal with
    | |- digits_value ?a _ = Z.pos (Pos.of_uint_acc _ ?q) =>
        replace a with (Z.pos q)
          by (cbn -[Z.mul Z.add Pos.mul Pos.add]; lia)
    end; apply IHd.
Qed.

Lemma digits_value_uint d :
  digits_value 0 (NilEmpty.string_of_uint d) = Z.of_N (Pos.of_uint d).
Proof.
  induction d; cbn [NilEmpty.string_of_uint digits_value Pos.of_uint];
    [reflexivity | exact IHd |..];
    match goal with
    | |- digits_value ?a _ = Z.of_N (N.pos (Pos.of_uint_acc _ ?q)) =>
        change a with (Z.pos q)
    end; apply digits_value_acc.
Qed.

Lemma to_uint_head p :
  Decimal.nzhead (Pos.to_uint p) = Pos.to_uint p.
Proof.
  assert (Decimal.unorm (Pos.to_uint p) = Pos.to_uint p) as Hn.
  { rewrite <- DecimalPos.Unsigned.to_of, DecimalPos.Unsigned.of_to.
    reflexivity. }
  rewrite <- Hn at 2. symmetry. apply DecimalFacts.unorm_nzhead.
  intros Hnil. apply DecimalFacts.unorm_0 in Hnil. rewrite Hn in Hnil.
  now apply (DecimalPos.Unsigned.to_uint_nonzero p).
Qed.

Lemma scan_frac_tail rest : tail_ok rest = true -> scan_frac rest = ("", rest).
Proof.
  destruct rest as [|c rest]; [reflexivity|]. cbn -[is_digit code].
  intros Ht. apply negb_true_iff in Ht.
  apply orb_false_iff in Ht as [Ht _]. apply orb_false_iff in Ht as [Ht _].
  apply orb_false_iff in Ht as [_ Ht]. now rewrite Ht.
Qed.

Lemma scan_exp_tail rest : tail_ok rest = true -> scan_exp rest = ("", rest).
Proof.
  destruct rest as [|c rest]; [reflexivity|]. cbn -[is_digit code].
  intros Ht. apply negb_true_iff in Ht.
  apply orb_false_iff in Ht as [Ht He]. apply orb_false_iff in Ht as [_ Ht].
  now rewrite Ht, He.
Qed.

(** The digits of a positive number, read as the integer part of a JSON
    number. *)
Lemma scan_digits_pos p rest (neg : bool) :
  tail_ok rest = true ->
  let text := NilEmpty.string_of_uint (Pos.to_uint p) in
  Z.of_nat (String.length text) <= int_max_str_digits ->
  scan_constant ((if neg then String "-" text else text) ++ rest)
  = Some (PInt (if neg then Z.neg p else Z.pos p), rest).
Proof.
  intros Ht text Hlen.
  pose proof (digits_value_uint (Pos.to_uint p)) as Hv.
  rewrite DecimalPos.Unsigned.of_to in Hv. fold text in Hv.
  pose proof (to_uint_head p) as Hhead.
  pose proof (DecimalPos.Unsigned.to_uint_nonnil p) as Hnil.
  apply Z.ltb_ge in Hlen.
  subst text. destruct (Pos.to_uint p) as [|d|d|d|d|d|d|d|d|d|d] eqn:E;
    [now contradiction Hnil
    | exfalso; cbn in Hhead; now apply (DecimalFacts.nzhead_nonzero d d)
    |..];
    destruct neg;
    cbn [NilEmpty.string_of_uint String.append];
    unfold scan_constant, scan_number;
    cbn -[span_digits digits_value scan_frac scan_exp NilEmpty.string_of_uint
          String.append String.length Z.of_nat int_max_str_digits Z.ltb];
    rewrite (span_digits_uint d rest Ht);
    rewrite (scan_frac_tail rest Ht), (scan_exp_tail rest Ht);
    cbn [NilEmpty.string_of_uint] in Hv, Hlen; rewrite Hlen, Hv; reflexivity.
Qed.

Lemma scan_constant_int z rest :
  tail_ok rest = true -> int_str_ok z = true ->
  scan_constant (int_repr z ++ rest) = Some (PInt z, rest).
Proof.
  intros Ht Hz. unfold int_str_ok in Hz. apply Z.leb_le in Hz.
  unfold int_repr in *. destruct z as [|p|p].
  - unfold scan_constant, scan_number.
    cbn -[scan_frac scan_exp].
    now rewrite (scan_frac_tail rest Ht), (scan_exp_tail rest Ht).
  - cbn [Z.to_int NilZero.string_of_int Z.abs] in *.
    pose proof (DecimalPos.Unsigned.to_uint_nonnil p) as Hnil.
    pose proof (scan_digits_pos p rest false Ht) as H. cbv zeta in H.
    unfold NilZero.string_of_uint in *.
    destruct (Pos.to_uint p); [now contradiction Hnil | exact (H Hz) ..].
  - cbn [Z.to_int NilZero.string_of_int Z.abs] in *.
    pose proof (DecimalPos.Unsigned.to_uint_nonnil p) as Hnil.
    pose proof (scan_digits_pos p rest true Ht) as H. cbv zeta in H.
    unfold NilZero.string_of_uint in *.
    destruct (Pos.to_uint p); [now contradiction Hnil | exact (H Hz) ..].
Qed.

(** *** Values *)

Lemma pyval_nested_ind (P : pyval -> Prop) :
  P PNone -> (forall b, P (PBool b)) -> (forall z, P (PInt z)) ->
  (forall f, P (PFloat f)) -> (forall s, P (PStr s)) ->
  (forall l, Forall P l -> P (PList l)) ->
  (forall d, Forall (fun kv => P (snd kv)) d -> P (PDict d)) ->
  forall v, P v.
Proof.
  intros HN HB HI HF HS HL HD.
  fix IH 1. intros [| b | z | f | s | l | d];
    [exact HN | apply HB | apply HI | apply HF | apply HS | apply HL
    | apply HD].
  - induction l as [|x l IHl]; constructor; [apply IH | exact IHl].
  - induction d as [|[k x] d IHd]; constructor; [apply IH | exact IHd].
Qed.

Lemma json_dumps_list l :
  json_dumps (PList l) = "[" ++ join ", " (map json_dumps l) ++ "]".
Proof. reflexivity. Qed.

Lemma json_dumps_dict d :
  json_dumps (PDict d) = "{" ++ join ", " (map member_text d) ++ "}".
Proof. reflexivity. Qed.

Lemma json_ok_list l : json_ok (PList l) <-> Forall json_ok l.
Proof.
  induction l as [|x l IH]; cbn.
  - split; [constructor | trivial].
  - split.
    + intros [Hx Hl]. constructor; [exact Hx | now apply IH].
    + intros H. inversion H; subst. split; [assumption | now apply IH].
Qed.

Lemma json_ok_dict d :
  json_ok (PDict d) <->
  NoDup (map fst d) /\ Forall (fun kv => json_ok (snd kv)) d.
Proof.
  cbn. apply and_iff_compat_l.
  induction d as [|kv d IH]; cbn.
  - split; [constructor | trivial].
  - split.
    + intros [Hx Hl]. constructor; [exact Hx | now apply IH].
    + intros H. inversion H; subst. split; [assumption | now apply IH].
Qed.

Lemma need_list l : need (PList l) = S (need_elems l).
Proof.
  reflexivity.
Qed.

Lemma need_dict d : need (PDict d) = S (need_members d).
Proof.
  reflexivity.
Qed.

(** *** Dicts without a repeated key *)

Lemma dict_set_fresh (d : dict) k v :
  ~ In k (map fst d) -> dict_set d k v = (d ++ [(k, v)])%list.
Proof.
  induction d as [|[k' v'] d IH]; cbn -[String.eqb]; intros H.
  - reflexivity.
  - destruct (String.eqb_spec k' k) as [->|_];
      [contradiction H; now left|].
    rewrite IH by (intros Hin; apply H; now right). reflexivity.
Qed.

Lemma dict_update_fresh (d acc : dict) :
  NoDup (map fst (acc ++ d)%list) -> dict_update acc d = (acc ++ d)%list.
Proof.
  revert acc. induction d as [|[k v] d IH]; intros acc H.
  - now rewrite app_nil_r.
  - unfold dict_update in *. cbn [fold_left fst snd].
    assert (E : (acc ++ (k, v) :: d = (acc ++ [(k, v)]) ++ d)%list)
      by now rewrite <- app_assoc.
    rewrite E in H |- *.
    rewrite dict_set_fresh.
    + now apply IH.
    + rewrite map_app in H. apply NoDup_app_remove_r in H.
      rewrite map_app in H. cbn in H.
      apply NoDup_remove_2 in H. now rewrite app_nil_r in H.
Qed.

Lemma dict_of_pairs_NoDup (d : dict) :
  NoDup (map fst d) -> dict_of_pairs d = d.
Proof. intros H. unfold dict_of_pairs. now rewrite dict_update_fresh. Qed.

Lemma dumps_error_list room l :
  dumps_error room (PList l)
  = match room with
    | O => Some too_deep
    | S inner => elems_error inner l
    end.
Proof.
  destruct room as [|inner]; [reflexivity|].
  induction l as [|x l IH]; [reflexivity|].
  change (dumps_error (S inner) (PList (x :: l)))
    with (match dumps_error inner x with
          | Some e => Some e
          | None => dumps_error (S inner) (PList l)
          end).
  cbn [elems_error]. now rewrite IH.
Qed.

Lemma dumps_error_dict room d :
  dumps_error room (PDict d)
  = match room with
    | O => Some too_deep
    | S inner => members_error inner d
    end.
Proof.
  destruct room as [|inner]; [reflexivity|].
  induction d as [|kv d IH]; [reflexivity|].
  change (dumps_error (S inner) (PDict (kv :: d)))
    with (match dumps_error inner (snd kv) with
          | Some e => Some e
          | None => dumps_error (S inner) (PDict d)
          end).
  cbn [members_error]. now rewrite IH.
Qed.

(** *** The head of a text that reads *)

Lemma scan_once_head fuel room s r :
  scan_once fuel room s = Some r ->
  exists c s', s = String c s' /\ is_ws c = false /\ (code c =? 93) = false.
Proof.
  destruct fuel as [|f]; [discriminate|].
  destruct s as [|c s']; [discriminate|].
  intros H. exists c, s'. split; [reflexivity|]. revert H.
  destruct c as [[] [] [] [] [] [] [] []];
    first [ intros _; split; reflexivity | cbn; discriminate ].
Qed.

Lemma scan_once_constant f room s r :
  scan_constant s = Some r -> scan_once (S f) room s = Some r.
Proof.
  destruct s as [|c s']; [discriminate|].
  destruct c as [[] [] [] [] [] [] [] []]; intros H;
    first [ exact H | cbn in H; discriminate ].
Qed.

Lemma dumps_head (v : pyval) :
  json_ok v ->
  exists c s', json_dumps v = String c s'
               /\ is_ws c = false /\ (code c =? 93) = false.
Proof.
  destruct v as [| b | z | f | s | l | d]; intros Hok.
  - eexists _, _. repeat split.
  - destruct b; eexists _, _; repeat split.
  - change (json_dumps (PInt z)) with (int_repr z). unfold int_repr.
    destruct z as [|p|p]; cbn [Z.to_int NilZero.string_of_int];
      [eexists _, _; repeat split | | eexists _, _; repeat split].
    pose proof (DecimalPos.Unsigned.to_uint_nonnil p) as Hnil.
    unfold NilZero.string_of_uint.
    destruct (Pos.to_uint p); [now contradiction Hnil | ..];
      eexists _, _; repeat split.
  - specialize (Hok "" eq_refl).
    apply (scan_once_constant O O) in Hok.
    apply scan_once_head in Hok as (c & s' & E & W & B).
    change (json_dumps (PFloat f)) with (floatstr f).
    destruct (floatstr f) as [|c0 s0]; [discriminate|].
    cbn in E. injection E as -> _. eauto.
  - eexists _, _. repeat split.
  - eexists _, _. rewrite json_dumps_list. repeat split.
  - eexists _, _. rewrite json_dumps_dict. repeat split.
Qed.

Lemma skip_ws_dumps v rest :
  json_ok v -> skip_ws (json_dumps v ++ rest) = json_dumps v ++ rest.
Proof.
  intros H. destruct (dumps_head v H) as (c & s' & -> & W & _).
  cbn [String.append skip_ws]. now rewrite W.
Qed.

Lemma skip_ws_elements x l rest :
  json_ok x ->
  skip_ws (join ", " (map json_dumps (x :: l)) ++ rest)
  = join ", " (map json_dumps (x :: l)) ++ rest.
Proof.
  intros H. destruct l as [|y l]; cbn [map join].
  - now apply skip_ws_dumps.
  - rewrite append_assoc. now apply skip_ws_dumps.
Qed.

(** *** Arrays *)

Lemma scan_elements_S f room s acc :
  scan_elements (S f) room s acc
  = match scan_once f room s with
    | None => None
    | Some (v, tail) =>
        match skip_ws tail with
        | String c r =>
            if code c =? 93 then Some (PList (rev (v :: acc)), r)
            else if code c =? 44 then
              scan_elements f room (skip_ws r) (v :: acc)
            else None
        | "" => None
        end
    end.
Proof. reflexivity. Qed.

Lemma scan_elements_dumps l :
  l <> [] -> Forall reads_back l -> Forall json_ok l ->
  forall acc rest fuel room,
    (need_elems l <= fuel)%nat ->
    elems_error room l = None ->
    scan_elements fuel room
      (join ", " (map json_dumps l) ++ String "]" rest) acc
    = Some (PList (rev acc ++ l), rest).
Proof.
  induction l as [|x l IH]; [congruence|].
  intros _ HF HJ acc rest fuel room Hfuel Hroom.
  inversion HF as [|? ? Hx Hl]; subst.
  inversion HJ as [|? ? Jx Jl]; subst.
  cbn [need_elems] in Hfuel. destruct fuel as [|f]; [lia|].
  assert (Hfx : (need x <= f)%nat) by lia.
  assert (Hfl : (need_elems l <= f)%nat) by lia.
  cbn [elems_error] in Hroom.
  destruct (dumps_error room x) eqn:Hrx; [discriminate|].
  rewrite scan_elements_S.
  destruct l as [|y l'].
  - cbn [map join]. rewrite (Hx (String "]" rest) f room eq_refl Hfx Hrx).
    reflexivity.
  - remember (y :: l') as l eqn:El.
    replace (join ", " (map json_dumps (x :: l)) ++ String "]" rest)
      with (json_dumps x
            ++ String "," (String " "
                 (join ", " (map json_dumps l) ++ String "]" rest))).
    2:{ subst l. cbn [map join]. now rewrite append_assoc. }
    rewrite Hx by first [reflexivity | exact Hfx | exact Hrx].
    change (skip_ws (String "," ?t)) with (String "," t).
    cbv beta iota.
    change (code "," =? 93) with false. change (code "," =? 44) with true.
    cbv beta iota.
    change (skip_ws (String " " ?t)) with (skip_ws t).
    subst l. inversion Jl; subst.
    rewrite skip_ws_elements by assumption.
    rewrite IH by (assumption || discriminate || (constructor; assumption)).
    cbn [rev]. now rewrite <- app_assoc.
Qed.

(** *** Objects *)

Lemma scan_members_S f room q rest acc :
  scan_members (S f) room (String q rest) acc
  = if code q =? 34 then
      match scanstring rest with
      | None => None
      | Some (key, tail) =>
          match skip_ws tail with
          | String c r =>
              if code c =? 58 then
                match scan_once f room (skip_ws r) with
                | None => None
                | Some (v, tail') =>
                    match skip_ws tail' with
                    | String c' r' =>
                        if code c' =? 125 then
                          Some (PDict (dict_of_pairs (rev ((key, v) :: acc))),
                                r')
                        else if code c' =? 44 then
                          scan_members f room (skip_ws r') ((key, v) :: acc)
                        else None
                    | "" => None
                    end
                end
              else None
          | "" => None
          end
      end
    else None.
Proof. reflexivity. Qed.

Lemma member_text_app kv rest :
  member_text kv ++ rest
  = String dquote
      (escape_chars (fst kv)
       ++ String dquote
            (String ":" (String " " (json_dumps (snd kv) ++ rest)))).
Proof.
  unfold member_text, encode_basestring.
  cbn [String.append]. now rewrite !append_assoc.
Qed.

Lemma members_text_app kv d rest :
  join ", " (map member_text (kv :: d)) ++ rest
  = member_text kv
    ++ match d with
       | [] => rest
       | _ :: _ =>
           String "," (String " " (join ", " (map member_text d) ++ rest))
       end.
Proof.
  destruct d as [|kv' d]; cbn [map join]; [reflexivity|].
  now rewrite append_assoc.
Qed.

Lemma scan_members_dumps d :
  d <> [] -> Forall (fun kv => reads_back (snd kv)) d ->
  Forall (fun kv => json_ok (snd kv)) d ->
  forall acc rest fuel room,
    (need_members d <= fuel)%nat ->
    members_error room d = None ->
    scan_members fuel room
      (join ", " (map member_text d) ++ String "}" rest) acc
    = Some (PDict (dict_of_pairs (rev acc ++ d)), rest).
Proof.
  induction d as [|[k x] d IH]; [congruence|].
  intros _ HF HJ acc rest fuel room Hfuel Hroom.
  inversion HF as [|? ? Hx Hd]; subst. cbn [snd] in Hx.
  inversion HJ as [|? ? Jx Jd]; subst. cbn [snd] in Jx.
  cbn [need_members snd] in Hfuel. destruct fuel as [|f]; [lia|].
  assert (Hfx : (need x <= f)%nat) by lia.
  assert (Hfd : (need_members d <= f)%nat) by lia.
  cbn [members_error snd] in Hroom.
  destruct (dumps_error room x) eqn:Hrx; [discriminate|].
  rewrite members_text_app, member_text_app. cbn [fst snd].
  rewrite scan_members_S.
  change (code dquote =? 34) with true. cbv beta iota.
  rewrite scanstring_escape_chars.
  change (skip_ws (String ":" ?t)) with (String ":" t).
  cbv beta iota.
  change (code ":" =? 58) with true. cbv beta iota.
  change (skip_ws (String " " ?t)) with (skip_ws t).
  rewrite skip_ws_dumps by assumption.
  destruct d as [|kv' d'].
  - rewrite Hx by first [reflexivity | exact Hfx | exact Hrx]. reflexivity.
  - remember (kv' :: d') as d eqn:Ed.
    rewrite Hx by first [reflexivity | exact Hfx | exact Hrx].
    change (skip_ws (String "," ?t)) with (String "," t).
    cbv beta iota.
    change (code "," =? 125) with false. change (code "," =? 44) with true.
    cbv beta iota.
    change (skip_ws (String " " ?t)) with (skip_ws t).
    assert (Hq : skip_ws (join ", " (map member_text d) ++ String "}" rest)
                 = join ", " (map member_text d) ++ String "}" rest).
    { subst d. rewrite members_text_app, member_text_app. reflexivity. }
    rewrite Hq, IH by (assumption || (subst d; discriminate)).
    cbn [rev]. now rewrite <- app_assoc.
Qed.

(** *** Every value *)

Lemma reads_back_all v : json_ok v -> reads_back v.
Proof.
  induction v as [| b | z | f | s | l IHl | d IHd] using pyval_nested_ind;
    intros Hok rest fuel room Hrest Hfuel Hroom.
  - destruct fuel as [|n]; [cbn in Hfuel; lia|]. reflexivity.
  - destruct fuel as [|n]; [cbn in Hfuel; lia|]. now destruct b.
  - destruct fuel as [|n]; [cbn in Hfuel; lia|].
    apply scan_once_constant. apply scan_constant_int; [assumption|].
    change (dumps_error room (PInt z))
      with (if int_str_ok z then None else Some int_too_long) in Hroom.
    destruct (int_str_ok z); [reflexivity | discriminate Hroom].
  - destruct fuel as [|n]; [cbn in Hfuel; lia|].
    apply scan_once_constant. now apply Hok.
  - destruct fuel as [|n]; [cbn in Hfuel; lia|].
    change (json_dumps (PStr s)) with (encode_basestring s).
    unfold encode_basestring. cbn [String.append].
    rewrite append_assoc. cbn [String.append scan_once].
    change (code dquote =? 34) with true. cbv beta iota.
    now rewrite scanstring_escape_chars.
  - rewrite need_list in Hfuel. destruct fuel as [|n]; [lia|].
    rewrite dumps_error_list in Hroom.
    destruct room as [|inner]; [discriminate|].
    apply json_ok_list in Hok.
    assert (HF : Forall reads_back l).
    { clear Hfuel Hroom.
      induction IHl; inversion Hok; subst; constructor; auto. }
    rewrite json_dumps_list. destruct l as [|x l'].
    + reflexivity.
    + remember (x :: l') as l eqn:El.
      cbn [String.append]. rewrite append_assoc. cbn [String.append scan_once].
      change (code "[" =? 34) with false. change (code "[" =? 123) with false.
      change (code "[" =? 91) with true. cbv beta iota zeta.
      assert (Hq : skip_ws (join ", " (map json_dumps l) ++ String "]" rest)
                   = join ", " (map json_dumps l) ++ String "]" rest).
      { subst l. inversion Hok; subst. now apply skip_ws_elements. }
      rewrite Hq.
      assert (Hh : exists c s',
                 join ", " (map json_dumps l) ++ String "]" rest = String c s'
                 /\ (code c =? 93) = false).
      { subst l. inversion Hok as [|? ? Hx _]; subst.
        destruct (dumps_head x Hx) as (c & s' & E & _ & B).
        destruct l' as [|y l'']; cbn [map join];
          [|rewrite append_assoc]; rewrite E; cbn [String.append]; eauto. }
      destruct Hh as (c & s' & E & B).
      rewrite E, B, <- E.
      apply scan_elements_dumps;
        [subst l; discriminate | assumption | assumption | lia | assumption].
  - rewrite need_dict in Hfuel. destruct fuel as [|n]; [lia|].
    rewrite dumps_error_dict in Hroom.
    destruct room as [|inner]; [discriminate|].
    apply json_ok_dict in Hok. destruct Hok as [Hkeys Hok].
    assert (HF : Forall (fun kv => reads_back (snd kv)) d).
    { clear Hfuel Hkeys Hroom.
      induction IHd; inversion Hok; subst; constructor; auto. }
    rewrite json_dumps_dict. destruct d as [|kv d'].
    + reflexivity.
    + remember (kv :: d') as d eqn:Ed.
      cbn [String.append]. rewrite append_assoc. cbn [String.append scan_once].
      change (code "{" =? 34) with false. change (code "{" =? 123) with true.
      cbv beta iota zeta.
      assert (Hh : exists s',
                 join ", " (map member_text d) ++ String "}" rest
                 = String dquote s').
      { subst d. rewrite members_text_app, member_text_app. eauto. }
      destruct Hh as (s' & E).
      rewrite E. change (skip_ws (String dquote s')) with (String dquote s').
      cbv beta iota. change (code dquote =? 125) with false.
      cbv beta iota. rewrite <- E.
      rewrite scan_members_dumps
        by (assumption || lia || (subst d; discriminate)).
      cbn [rev app]. now rewrite dict_of_pairs_NoDup.
Qed.

(** *** The fuel of [json_loads] is enough *)

Lemma need_length v : json_ok v -> (need v <= String.length (json_dumps v))%nat.
Proof.
  induction v as [| b | z | f | s | l IHl | d IHd] using pyval_nested_ind;
    intros Hok.
  1-5: destruct (dumps_head _ Hok) as (c & s' & -> & _); cbn; lia.
  - apply json_ok_list in Hok.
    rewrite need_list, json_dumps_list, !length_append.
    cbn [String.length].
    enough (need_elems l <= String.length (join ", " (map json_dumps l)) + 1)%nat
      by lia.
    induction IHl as [|x l Hx _ IH]; [cbn; lia|].
    inversion Hok; subst. specialize (Hx ltac:(assumption)).
    specialize (IH ltac:(assumption)).
    cbn [need_elems]. destruct l as [|y l'].
    + cbn. lia.
    + remember (y :: l') as l eqn:El.
      replace (join ", " (map json_dumps (x :: l)))
        with (json_dumps x ++ ", " ++ join ", " (map json_dumps l))
        by now subst l.
      rewrite !length_append. cbn [String.length]. lia.
  - apply json_ok_dict in Hok. destruct Hok as [_ Hok].
    rewrite need_dict, json_dumps_dict, !length_append.
    cbn [String.length].
    enough (need_members d <= String.length (join ", " (map member_text d)) + 1)%nat
      by lia.
    induction IHd as [|kv d Hx _ IH]; [cbn; lia|].
    inversion Hok; subst. specialize (Hx ltac:(assumption)).
    specialize (IH ltac:(assumption)).
    assert (Hm : (need (snd kv) <= String.length (member_text kv))%nat).
    { unfold member_text. rewrite !length_append. lia. }
    cbn [need_members]. destruct d as [|kv' d'].
    + cbn [map join need_members]. lia.
    + remember (kv' :: d') as d eqn:Ed.
      replace (join ", " (map member_text (kv :: d)))
        with (member_text kv ++ ", " ++ join ", " (map member_text d))
        by now subst d.
      rewrite !length_append. cbn [String.length]. lia.
Qed.

(** [json.loads] inverts [json.dumps] on a value that [json.dumps]
    accepts, whose floats read back and whose dicts have no key twice. *)
Lemma json_loads_dumps v :
  json_ok v -> dumps_error nesting_limit v = None ->
  json_loads (json_dumps v) = Some v.
Proof.
  intros Hok Hroom. pose proof (reads_back_all v Hok) as Hv.
  pose proof (need_length v Hok) as Hn.
  unfold json_loads.
  rewrite <- (append_empty (json_dumps v)) at 2.
  rewrite skip_ws_dumps by assumption.
  rewrite Hv by (reflexivity || lia || assumption). reflexivity.
Qed.

(** ** JSON text that can be bound *)

Lemma escape_char_ascii c : is_ascii (escape_char c) = (code c <? 128).
Proof. destruct c as [[] [] [] [] [] [] [] []]; reflexivity. Qed.

Lemma escape_char_high c :
  escape_char c = if code c <? 128 then escape_char c else String c "".
Proof. destruct c as [[] [] [] [] [] [] [] []]; reflexivity. Qed.

Lemma is_cont_high c : is_cont c = true -> (code c <? 128) = false.
Proof.
  unfold is_cont. intros H. apply andb_true_iff in H as [H _].
  apply Z.leb_le in H. apply Z.ltb_ge. lia.
Qed.

Lemma second_of_three_high x c :
  second_of_three x c = true -> (code c <? 128) = false.
Proof.
  unfold second_of_three.
  destruct (x =? 224); [|destruct (x =? 237); [|apply is_cont_high]];
    intros H; apply andb_true_iff in H as [H _];
    apply Z.leb_le in H; apply Z.ltb_ge; lia.
Qed.

Lemma second_of_four_high x c :
  second_of_four x c = true -> (code c <? 128) = false.
Proof.
  unfold second_of_four.
  destruct (x =? 240); [|destruct (x =? 244); [|apply is_cont_high]];
    intros H; apply andb_true_iff in H as [H _];
    apply Z.leb_le in H; apply Z.ltb_ge; lia.
Qed.

Lemma escape_chars_high c s :
  (code c <? 128) = false ->
  escape_chars (String c s) = String c (escape_chars s).
Proof.
  intros H. cbn [escape_chars]. rewrite escape_char_high, H. reflexivity.
Qed.

(** Escaping leaves valid text valid: only ASCII characters are replaced,
    and by ASCII text. *)
Lemma utf8_ok_escape_chars s t :
  utf8_ok s = true -> utf8_ok (escape_chars s ++ t) = utf8_ok t.
Proof.
  remember (String.length s) as n eqn:Hn. revert s Hn.
  induction n as [n IH] using lt_wf_ind. intros s Hn.
  destruct s as [|x r1]; [reflexivity|].
  cbn [utf8_ok]. destruct (code x <? 128) eqn:Hx.
  { intros H. cbn [escape_chars]. rewrite append_assoc.
    rewrite utf8_ok_ascii_app by now rewrite escape_char_ascii.
    apply (IH (String.length r1)); [subst n; cbn; lia | reflexivity | exact H]. }
  rewrite (escape_chars_high x r1 Hx).
  destruct r1 as [|y r2]; [discriminate|].
  destruct ((194 <=? code x) && (code x <=? 223)) eqn:H2.
  { intros H. apply andb_true_iff in H as [Hy H].
    rewrite (escape_chars_high y r2 (is_cont_high y Hy)).
    cbn [String.append utf8_ok]. rewrite Hx, H2, Hy. cbn [andb].
    apply (IH (String.length r2)); [subst n; cbn; lia | reflexivity | exact H]. }
  destruct r2 as [|z r3]; [discriminate|].
  destruct ((224 <=? code x) && (code x <=? 239)) eqn:H3.
  { intros H. apply andb_true_iff in H as [H Hr].
    apply andb_true_iff in H as [Hy Hz].
    rewrite (escape_chars_high y _ (second_of_three_high _ y Hy)).
    rewrite (escape_chars_high z r3 (is_cont_high z Hz)).
    cbn [String.append utf8_ok]. rewrite Hx, H2, H3, Hy, Hz. cbn [andb].
    apply (IH (String.length r3)); [subst n; cbn; lia | reflexivity | exact Hr]. }
  destruct r3 as [|w r4]; [discriminate|].
  intros H. apply andb_true_iff in H as [H Hr].
  apply andb_true_iff in H as [H Hw].
  apply andb_true_iff in H as [H Hz].
  apply andb_true_iff in H as [H4 Hy].
  rewrite (escape_chars_high y _ (second_of_four_high _ y Hy)).
  rewrite (escape_chars_high z _ (is_cont_high z Hz)).
  rewrite (escape_chars_high w r4 (is_cont_high w Hw)).
  cbn [String.append utf8_ok]. rewrite Hx, H2, H3, H4, Hy, Hz, Hw.
  cbn [andb].
  apply (IH (String.length r4)); [subst n; cbn; lia | reflexivity | exact Hr].
Qed.

Lemma utf8_ok_encode_basestring s t :
  utf8_ok s = true -> utf8_ok (encode_basestring s ++ t) = utf8_ok t.
Proof.
  intros H. unfold encode_basestring. cbn [String.append utf8_ok].
  change (code dquote <? 128) with true. cbv iota.
  rewrite append_assoc, utf8_ok_escape_chars by exact H. reflexivity.
Qed.

Lemma is_ascii_floatstr f : float_repr_ascii -> is_ascii (floatstr f) = true.
Proof.
  intros H. unfold floatstr.
  destruct (PrimFloat.is_nan f); [reflexivity|].
  destruct (PrimFloat.is_infinity f); [now destruct (PrimFloat.ltb _ _)|].
  apply H.
Qed.

Lemma strs_ok_list l : strs_ok (PList l) = forallb strs_ok l.
Proof.
  induction l as [|x l IH]; [reflexivity|].
  change (strs_ok (PList (x :: l))) with (strs_ok x && strs_ok (PList l)).
  now rewrite IH.
Qed.

Lemma strs_ok_dict d :
  strs_ok (PDict d)
  = forallb (fun kv => utf8_ok (fst kv) && strs_ok (snd kv)) d.
Proof.
  induction d as [|kv d IH]; [reflexivity|].
  change (strs_ok (PDict (kv :: d)))
    with (utf8_ok (fst kv) && strs_ok (snd kv) && strs_ok (PDict d)).
  now rewrite IH.
Qed.

(** The text of a value whose strings can be bound can be bound. *)
Lemma utf8_ok_json_dumps v :
  float_repr_ascii -> strs_ok v = true ->
  forall t, utf8_ok (json_dumps v ++ t) = utf8_ok t.
Proof.
  intros Hf.
  induction v as [| b | z | f | s | l IHl | d IHd] using pyval_nested_ind;
    intros Hs t.
  - reflexivity.
  - now destruct b.
  - apply utf8_ok_ascii_app, is_ascii_int_repr.
  - apply utf8_ok_ascii_app, is_ascii_floatstr, Hf.
  - now apply utf8_ok_encode_basestring.
  - rewrite strs_ok_list in Hs. rewrite json_dumps_list.
    cbn [String.append utf8_ok]. change (code "[" <? 128) with true.
    cbv iota. rewrite append_assoc.
    revert Hs. induction IHl as [|x l Hx _ IH]; intros Hs; [reflexivity|].
    cbn [forallb] in Hs. apply andb_true_iff in Hs as [Hsx Hsl].
    destruct l as [|y l'].
    + cbn [map join]. now rewrite Hx.
    + remember (y :: l') as l eqn:El.
      replace (join ", " (map json_dumps (x :: l)))
        with (json_dumps x ++ ", " ++ join ", " (map json_dumps l))
        by now subst l.
      rewrite !append_assoc, Hx by exact Hsx.
      cbn [String.append utf8_ok]. change (code "," <? 128) with true.
      change (code " " <? 128) with true. cbv iota.
      now apply IH.
  - rewrite strs_ok_dict in Hs. rewrite json_dumps_dict.
    cbn [String.append utf8_ok]. change (code "{" <? 128) with true.
    cbv iota. rewrite append_assoc.
    revert Hs. induction IHd as [|kv d Hx _ IH]; intros Hs; [reflexivity|].
    cbn [forallb] in Hs. apply andb_true_iff in Hs as [Hsx Hsl].
    apply andb_true_iff in Hsx as [Hk Hsx].
    assert (Hm : forall u, utf8_ok (member_text kv ++ u) = utf8_ok u).
    { intros u. unfold member_text.
      rewrite !append_assoc, utf8_ok_encode_basestring by exact Hk.
      cbn [String.append utf8_ok]. change (code ":" <? 128) with true.
      change (code " " <? 128) with true. cbv iota. now apply Hx. }
    destruct d as [|kv' d'].
    + cbn [map join]. now rewrite Hm.
    + remember (kv' :: d') as d eqn:Ed.
      replace (join ", " (map member_text (kv :: d)))
        with (member_text kv ++ ", " ++ join ", " (map member_text d))
        by now subst d.
      rewrite !append_assoc, Hm.
      cbn [String.append utf8_ok]. change (code "," <? 128) with true.
      change (code " " <? 128) with true. cbv iota.
      now apply IH.
Qed.

Lemma utf8_ok_dumps v :
  float_repr_ascii -> strs_ok v = true -> utf8_ok (json_dumps v) = true.
Proof.
  intros Hf Hs. rewrite <- (append_empty (json_dumps v)).
  now rewrite utf8_ok_json_dumps.
Qed.

(** ** Bookkeeping lemmas *)

(** Case analysis on the comparisons of the literal keys of a dict with the
    key [k]. *)
Ltac case_keys k :=
  repeat match goal with
  | |- context [String.eqb ?a k] =>
      destruct (String.eqb_spec a k) as [<-|?]
  end;
  cbn.

Lemma wf_state_rows d rows :
  wf_db d = true -> state_table d = Some rows ->
  rows = [] \/ exists r, rows = [r] /\ state_row_ok r = true.
Proof.
  unfold wf_db. intros Hwf Hst. rewrite Hst in Hwf.
  apply andb_true_iff in Hwf as [Hs _].
  apply andb_true_iff in Hs as [Hd Hok].
  destruct rows as [|r [|r' rest]]; [now left | right | exfalso].
  - exists r. split; [reflexivity|]. simpl in Hok.
    now apply andb_true_iff in Hok as [Hok _].
  - simpl in Hok, Hd.
    apply andb_true_iff in Hok as [H1 Hok].
    apply andb_true_iff in Hok as [H2 _].
    unfold state_row_ok in H1, H2.
    repeat (apply andb_true_iff in H1 as [H1 ?]).
    repeat (apply andb_true_iff in H2 as [H2 ?]).
    apply Z.eqb_eq in H1, H2. rewrite H1, H2 in Hd. simpl in Hd. discriminate.
Qed.

Lemma state_row_ok_id r : state_row_ok r = true -> is_row_1 r = true.
Proof.
  unfold state_row_ok, is_row_1. intros H.
  repeat (apply andb_true_iff in H as [H ?]). exact H.
Qed.

(** ** [init_db] *)

(** What [init_db] leaves in the file: it never raises, creates the tables
    that are absent and inserts the default row when the state table has no
    row. *)
Lemma init_db_run now d :
  init_db now d =
  (inr tt,
   {| state_table := Some (match state_table d with
                           | Some (r :: rows) => r :: rows
                           | _ => [default_row now]
                           end);
      history_table := Some (match history_table d with
                             | Some rows => rows
                             | None => []
                             end);
      history_seq := history_seq d |}).
Proof.
  pose proof (utf8_ok_utc_stamp now) as Hts.
  destruct d as [[[|r rows]|] [hrows|] seq];
    unfold init_db, with_conn, bind, sql_create_state, sql_create_history,
      sql_count_state, sql_insert_state, get_view, put_view, lift, ret,
      commit, close, bind_param, default_row;
    cbn -[utc_stamp utf8_ok stored_real]; rewrite ?Hts;
    try reflexivity.
  all: destruct (Z.of_nat (List.length rows)); reflexivity.
Qed.

Lemma init_db_wf now d : wf_db d = true -> wf_db (snd (init_db now d)) = true.
Proof.
  intros Hwf. rewrite init_db_run. unfold wf_db in *. simpl.
  destruct (state_table d) as [[|r rows]|], (history_table d) as [hrows|];
    simpl in *; try reflexivity; exact Hwf.
Qed.

(** C7: [init_db] is idempotent.  On a file that satisfies the schema, the
    first call succeeds and leaves exactly one state row; a second call (at
    any later clock reading) succeeds and changes nothing; and when the state
    table was absent or empty, the row is exactly energy 100, heart_rate 2,
    temperature -5.5, mood "neutral", stamped with the clock reading of the
    first call. *)
Theorem init_db_idempotent (now1 now2 : datetime) (d : db) :
  wf_db d = true ->
  let d1 := snd (init_db now1 d) in
  fst (init_db now1 d) = inr tt
  /\ (exists r, state_table d1 = Some [r])
  /\ init_db now2 d1 = (inr tt, d1)
  /\ (state_table d = None \/ state_table d = Some [] ->
      state_table d1 =
      Some [mk_state_row 1 100 2 (-5.5)%float "neutral"
              (isoformat now1 ++ "Z")])
  /\ (forall r, state_table d = Some [r] -> state_table d1 = Some [r]).
Proof.
  intros Hwf d1. subst d1. rewrite !init_db_run. simpl.
  split; [reflexivity|]. split; [|split; [|split]].
  - destruct (state_table d) as [rows|] eqn:Hst; [|eauto].
    destruct (wf_state_rows d rows Hwf Hst) as [->|[r [-> _]]]; eauto.
  - destruct (state_table d) as [[|r rows]|], (history_table d) as [hrows|];
      reflexivity.
  - intros [->| ->]; reflexivity.
  - intros r ->. reflexivity.
Qed.


(** ** [GET /state] *)

(** Every outcome of [get_state_from_db] on a file with the state table. *)
Lemma get_state_from_db_run d rows :
  state_table d = Some rows ->
  get_state_from_db d =
  (match find is_row_1 rows with
   | Some row =>
       if negb (utf8_ok (st_mood row)) then inl (decode_failed "mood")
       else if negb (utf8_ok (st_last_updated row))
       then inl (decode_failed "last_updated")
       else
         inr [("energy", PInt (st_energy row));
              ("heart_rate", PInt (st_heart_rate row));
              ("temperature", PFloat (st_temperature row));
              ("mood", PStr (st_mood row));
              ("updated_at", PStr (st_last_updated row))]
   | None => inl (RuntimeError "State missing")
   end, d).
Proof.
  intros Hst. unfold get_state_from_db, with_conn, sql_select_state, bind.
  simpl. rewrite Hst. simpl. destruct (find is_row_1 rows) as [row|];
    [|reflexivity].
  destruct (utf8_ok (st_mood row)); [|reflexivity].
  destruct (utf8_ok (st_last_updated row)); reflexivity.
Qed.

Lemma get_state_from_db_ok d rows row :
  state_table d = Some rows -> find is_row_1 rows = Some row ->
  state_row_decodes true row = true ->
  get_state_from_db d =
  (inr [("energy", PInt (st_energy row));
        ("heart_rate", PInt (st_heart_rate row));
        ("temperature", PFloat (st_temperature row));
        ("mood", PStr (st_mood row));
        ("updated_at", PStr (st_last_updated row))], d).
Proof.
  intros Hst Hrow Hdec. rewrite (get_state_from_db_run d rows Hst), Hrow.
  unfold state_row_decodes in Hdec. apply andb_true_iff in Hdec as [-> Hu].
  cbn in Hu. now rewrite Hu.
Qed.

(** C4, as the code has it: when the state table holds no row with id 1,
    [GET /state] raises [RuntimeError("State missing")], which no handler
    turns into an [HTTPException]: the answer is a server error (500), not
    a client error, and the file is left as it was. *)
Theorem get_state_missing_row (d : db) (rows : list state_row) :
  state_table d = Some rows ->
  find is_row_1 rows = None ->
  get_state d = (inl (RuntimeError "State missing"), d)
  /\ http_status (RuntimeError "State missing") = 500
  /\ is_client_error (RuntimeError "State missing") = false.
Proof.
  intros Hst Hrow. unfold get_state.
  rewrite (get_state_from_db_run d rows Hst), Hrow. repeat split.
Qed.

(** ** The history log *)

(** Every outcome of [append_history_record] on a file with the history
    table. *)
Lemma append_history_record_run now rec_type who content d rows :
  history_table d = Some rows ->
  append_history_record now rec_type who content d =
  match dumps_error nesting_limit (PDict content) with
  | Some e => (inl e, d)
  | None =>
      match insert_error rec_type who (json_dumps (PDict content)) d rows with
      | Some e => (inl e, d)
      | None =>
          (inr (utc_stamp now),
           let id := next_id d rows in
           set_history_table d
             (rows ++ [mk_history_row id rec_type who
                         (json_dumps (PDict content)) (utc_stamp now)])%list
             id)
      end
  end.
Proof.
  intros Hh. pose proof (utf8_ok_utc_stamp now) as Hts.
  unfold append_history_record, with_conn, sql_insert_history, bind,
    json_dumps_call, insert_error, lift, get_view.
  destruct (dumps_error nesting_limit (PDict content)); [reflexivity|].
  cbn -[utc_stamp utf8_ok json_dumps id_left next_id]. rewrite Hh.
  cbn -[utc_stamp utf8_ok json_dumps id_left next_id].
  destruct (utf8_ok rec_type); [|reflexivity].
  destruct who as [w|]; cbn -[utc_stamp utf8_ok json_dumps id_left next_id].
  - destruct (utf8_ok w); [|reflexivity].
    destruct (utf8_ok (json_dumps (PDict content))); [|reflexivity].
    cbn -[utc_stamp utf8_ok json_dumps id_left next_id]. rewrite Hts.
    cbn -[utc_stamp utf8_ok json_dumps id_left next_id].
    destruct (id_left d rows); reflexivity.
  - destruct (utf8_ok (json_dumps (PDict content))); [|reflexivity].
    cbn -[utc_stamp utf8_ok json_dumps id_left next_id]. rewrite Hts.
    cbn -[utc_stamp utf8_ok json_dumps id_left next_id].
    destruct (id_left d rows); reflexivity.
Qed.

Lemma append_history_record_no_table now rec_type who content d :
  history_table d = None ->
  append_history_record now rec_type who content d =
  (inl match dumps_error nesting_limit (PDict content) with
       | Some e => e
       | None => no_such_table "history"
       end, d).
Proof.
  intros Hh.
  unfold append_history_record, with_conn, sql_insert_history, bind,
    json_dumps_call, lift, get_view.
  destruct (dumps_error nesting_limit (PDict content)); [reflexivity|].
  cbn -[utc_stamp utf8_ok json_dumps]. rewrite Hh. reflexivity.
Qed.

(** A failed [append_history_record] leaves the file as it was. *)
Lemma append_history_record_failure now rec_type who content d e d' :
  append_history_record now rec_type who content d = (inl e, d') -> d' = d.
Proof.
  destruct (history_table d) as [rows|] eqn:Hh.
  - rewrite (append_history_record_run now rec_type who content d rows Hh).
    destruct (dumps_error _ _); [intros H; now inversion H|].
    destruct (insert_error _ _ _ _ _); intros H; now inversion H.
  - rewrite (append_history_record_no_table now rec_type who content d Hh).
    intros H; now inversion H.
Qed.

Lemma fetch_row_decodes r :
  fetch_row r = inr r <-> row_decodes r = true.
Proof.
  unfold fetch_row, row_decodes.
  destruct (utf8_ok (h_type r)); cbn; [|split; discriminate].
  destruct (match h_who r with Some w => utf8_ok w | None => true end); cbn;
    [|split; discriminate].
  destruct (utf8_ok (h_content r)); cbn; [|split; discriminate].
  destruct (utf8_ok (h_ts r)); cbn; split; (reflexivity || discriminate).
Qed.

Lemma fetch_row_inr r r' : fetch_row r = inr r' -> r' = r.
Proof.
  unfold fetch_row.
  repeat match goal with
         | |- context [if ?b then _ else _] => destruct b
         end; intros H; now inversion H.
Qed.

(** [fetchall] returns the rows as they are, when they decode. *)
Lemma fetchall_decodes rows :
  forallb row_decodes rows = true -> fetchall rows = inr rows.
Proof.
  induction rows as [|r rest IH]; [reflexivity|]. cbn. intros H.
  apply andb_true_iff in H as [Hr Hrest].
  apply fetch_row_decodes in Hr. now rewrite Hr, IH.
Qed.

Lemma fetchall_inr rows rows' :
  fetchall rows = inr rows' ->
  rows' = rows /\ forallb row_decodes rows = true.
Proof.
  revert rows'. induction rows as [|r rest IH]; intros rows'; cbn.
  - intros H. inversion H. now split.
  - destruct (fetch_row r) as [e|r1] eqn:E; [discriminate|].
    destruct (fetchall rest) as [e|rest1]; [discriminate|].
    intros H. inversion H; subst rows'.
    apply fetch_row_inr in E as E'. subst r1.
    apply fetch_row_decodes in E.
    destruct (IH rest1 eq_refl) as [-> Hd]. now rewrite E, Hd.
Qed.

Lemma fetched_decodes sel :
  forallb row_decodes sel = true -> fetched sel = inr (map history_item sel).
Proof. intros H. unfold fetched. now rewrite fetchall_decodes. Qed.

Lemma fetched_inr sel items :
  fetched sel = inr items ->
  items = map history_item sel /\ forallb row_decodes sel = true.
Proof.
  unfold fetched. destruct (fetchall sel) as [e|rows] eqn:E; [discriminate|].
  apply fetchall_inr in E as [-> Hd]. intros H. inversion H. now split.
Qed.

Lemma bind_types_ok types :
  bind_types types
  = if forallb utf8_ok types then inr tt else inl surrogates_not_allowed.
Proof.
  induction types as [|t rest IH]; [reflexivity|].
  cbn. destruct (utf8_ok t); [exact IH | reflexivity].
Qed.

(** Every outcome of [read_history] on a file with the history table and
    with a limit that SQLite can bind. *)
Lemma read_history_run limit types d rows :
  history_table d = Some rows ->
  limit_ok limit = true ->
  read_history limit types d
  = (query_result types (selected limit types rows), d).
Proof.
  intros Hh Hl.
  unfold read_history, with_conn, sql_select_history, selected, bind,
    query_result, types_ok, fetched, lift, get_view.
  cbn -[fetchall bind_types]. rewrite Hh. cbn -[fetchall bind_types].
  destruct types as [[|t ts]|]; cbn -[fetchall bind_types forallb];
    rewrite ?bind_types_ok.
  - destruct limit as [n|]; cbn -[fetchall] in *;
      [destruct (n =? 0) eqn:Hn; cbn -[fetchall]; rewrite ?Hl;
       cbn -[fetchall]|];
      destruct (fetchall _); reflexivity.
  - destruct (forallb utf8_ok (t :: ts)); [|reflexivity].
    destruct limit as [n|]; cbn -[fetchall] in *;
      [destruct (n =? 0) eqn:Hn; cbn -[fetchall]; rewrite ?Hl;
       cbn -[fetchall]|];
      destruct (fetchall _); reflexivity.
  - destruct limit as [n|]; cbn -[fetchall] in *;
      [destruct (n =? 0) eqn:Hn; cbn -[fetchall]; rewrite ?Hl;
       cbn -[fetchall]|];
      destruct (fetchall _); reflexivity.
Qed.

(** With types that can be bound and rows that decode, the items of the
    selected rows. *)
Lemma read_history_ok limit types d rows :
  history_table d = Some rows ->
  limit_ok limit = true ->
  types_ok types = true ->
  forallb row_decodes (selected limit types rows) = true ->
  read_history limit types d
  = (inr (map history_item (selected limit types rows)), d).
Proof.
  intros Hh Hl Ht Hd. rewrite (read_history_run limit types d rows Hh Hl).
  unfold query_result. now rewrite Ht, fetched_decodes.
Qed.

Lemma read_history_overflow n types d rows :
  history_table d = Some rows ->
  types_ok types = true ->
  n <> 0 -> in_int64 n = false ->
  read_history (Some n) types d =
  (inl (OverflowError "Python int too large to convert to SQLite INTEGER"), d).
Proof.
  intros Hh Ht Hn Hl. apply Z.eqb_neq in Hn.
  unfold read_history, with_conn, sql_select_history, bind, lift, get_view.
  cbn -[fetchall bind_types]. rewrite Hh, Hn. cbn -[fetchall bind_types].
  destruct types as [[|t ts]|]; cbn -[fetchall bind_types forallb] in *;
    rewrite ?bind_types_ok, ?Ht, ?Hl; reflexivity.
Qed.

(** *** Ordering *)

Lemma distinct_NoDup ids : distinct ids = true <-> NoDup ids.
Proof.
  induction ids as [|i rest IH]; simpl.
  - split; [constructor | reflexivity].
  - rewrite andb_true_iff, negb_true_iff, IH. split.
    + intros [Hn Hd]. constructor; [|exact Hd].
      intros Hin. assert (existsb (Z.eqb i) rest = true) as E.
      { apply existsb_exists. exists i. split; [exact Hin | apply Z.eqb_refl]. }
      congruence.
    + intros H. inversion H as [|? ? Hn Hd]; subst. split; [|exact Hd].
      destruct (existsb (Z.eqb i) rest) eqn:E; [|reflexivity].
      apply existsb_exists in E as [x [Hin Hx]]. apply Z.eqb_eq in Hx.
      subst x. contradiction.
Qed.

Lemma insert_desc_In r rows x :
  In x (insert_desc r rows) <-> x = r \/ In x rows.
Proof.
  induction rows as [|r' rest IH]; simpl.
  - intuition.
  - destruct (h_id r' <=? h_id r); simpl; [intuition|].
    rewrite IH. intuition.
Qed.

Lemma order_by_id_desc_In rows x :
  In x (order_by_id_desc rows) <-> In x rows.
Proof.
  unfold order_by_id_desc. induction rows as [|r rest IH]; simpl.
  - reflexivity.
  - rewrite insert_desc_In, IH. intuition.
Qed.

Lemma insert_desc_length r rows :
  List.length (insert_desc r rows) = S (List.length rows).
Proof.
  induction rows as [|r' rest IH]; simpl; [reflexivity|].
  destruct (h_id r' <=? h_id r); simpl; [reflexivity | now rewrite IH].
Qed.

Lemma order_by_id_desc_length rows :
  List.length (order_by_id_desc rows) = List.length rows.
Proof.
  unfold order_by_id_desc. induction rows as [|r rest IH]; simpl;
    [reflexivity | now rewrite insert_desc_length, IH].
Qed.

Lemma insert_desc_sorted r rows :
  StronglySorted desc rows ->
  (forall x, In x rows -> h_id x <> h_id r) ->
  StronglySorted desc (insert_desc r rows).
Proof.
  induction rows as [|r' rest IH]; intros Hs Hne; simpl.
  - repeat constructor.
  - inversion Hs as [|? ? Hrest Hall]; subst.
    assert (h_id r' <> h_id r) as Hr' by (apply Hne; now left).
    destruct (h_id r' <=? h_id r) eqn:Hle.
    + apply Z.leb_le in Hle. constructor; [exact Hs|].
      constructor; [unfold desc; lia|].
      rewrite Forall_forall in Hall |- *. intros x Hx.
      specialize (Hall x Hx). unfold desc in *. lia.
    + apply Z.leb_gt in Hle. constructor.
      * apply IH; [exact Hrest|]. intros x Hx. apply Hne. now right.
      * rewrite Forall_forall in Hall |- *. intros x Hx.
        apply insert_desc_In in Hx as [->|Hx]; [exact Hle | now apply Hall].
Qed.

Lemma order_by_id_desc_sorted rows :
  NoDup (map h_id rows) ->
  StronglySorted desc (order_by_id_desc rows).
Proof.
  unfold order_by_id_desc. induction rows as [|r rest IH]; simpl; intros Hnd.
  - constructor.
  - inversion Hnd as [|? ? Hnin Hnd']; subst.
    apply insert_desc_sorted; [now apply IH|].
    intros x Hx Heq. apply Hnin. rewrite <- Heq.
    apply in_map. now apply (order_by_id_desc_In rest x).
Qed.

Lemma NoDup_map_filter {A B} (f : A -> B) (p : A -> bool) l :
  NoDup (map f l) -> NoDup (map f (filter p l)).
Proof.
  induction l as [|a l IH]; simpl; intros H; [constructor|].
  inversion H as [|? ? Hnin Hnd]; subst.
  destruct (p a); simpl; [|now apply IH].
  constructor; [|now apply IH].
  intros Hin. apply Hnin. apply in_map_iff in Hin as [x [Hx Hin]].
  apply filter_In in Hin as [Hin _]. rewrite <- Hx. now apply in_map.
Qed.

Lemma firstn_In {A} n (l : list A) x : In x (firstn n l) -> In x l.
Proof.
  revert l. induction n as [|n IH]; intros [|a l]; simpl; try tauto.
  intros [->|H]; [now left | right; now apply IH].
Qed.

Lemma StronglySorted_firstn {A} (R : A -> A -> Prop) n l :
  StronglySorted R l -> StronglySorted R (firstn n l).
Proof.
  revert l. induction n as [|n IH]; intros l Hs; simpl; [constructor|].
  destruct l as [|a l]; [constructor|].
  inversion Hs as [|? ? Hl Hall]; subst. constructor; [now apply IH|].
  rewrite Forall_forall in Hall |- *. intros x Hx. apply Hall.
  now apply (firstn_In n).
Qed.

Lemma selected_sorted limit types rows :
  NoDup (map h_id rows) -> StronglySorted desc (selected limit types rows).
Proof.
  intros Hnd. unfold selected.
  set (matching := match types with
                   | Some (t :: ts) => filter (type_in (t :: ts)) rows
                   | Some [] | None => rows
                   end).
  assert (NoDup (map h_id matching)) as Hm.
  { subst matching. destruct types as [[|t ts]|]; auto using NoDup_map_filter. }
  pose proof (order_by_id_desc_sorted matching Hm) as Hs.
  destruct limit as [n|]; [|exact Hs].
  destruct (n =? 0); [exact Hs|].
  unfold sql_limit. destruct (n <? 0); [exact Hs|].
  now apply StronglySorted_firstn.
Qed.

Lemma selected_In limit types rows r :
  In r (selected limit types rows) ->
  In r rows /\
  (forall t ts, types = Some (t :: ts) -> In (h_type r) (t :: ts)).
Proof.
  unfold selected.
  set (matching := match types with
                   | Some (t :: ts) => filter (type_in (t :: ts)) rows
                   | Some [] | None => rows
                   end).
  intros Hin.
  assert (In r matching) as Hm.
  { apply order_by_id_desc_In.
    destruct limit as [n|]; [|exact Hin].
    destruct (n =? 0); [exact Hin|].
    unfold sql_limit in Hin. destruct (n <? 0); [exact Hin|].
    now apply firstn_In in Hin. }
  subst matching. destruct types as [[|t ts]|]; try (split; [exact Hm|]; discriminate).
  apply filter_In in Hm as [Hr Ht]. split; [exact Hr|].
  intros t' ts' E. inversion E; subst t' ts'.
  unfold type_in in Ht. apply existsb_exists in Ht as [x [Hx Heq]].
  apply String.eqb_eq in Heq. now rewrite Heq.
Qed.

Lemma selected_unbounded limit types rows :
  (limit = None \/ exists n, limit = Some n /\ n <= 0) ->
  selected limit types rows = order_by_id_desc (filter (matches types) rows).
Proof.
  assert (forall l : list history_row, filter (fun _ => true) l = l) as Hid.
  { induction l as [|a l IH]; simpl; [reflexivity | now rewrite IH]. }
  assert (match types with
          | Some (t :: ts) => filter (type_in (t :: ts)) rows
          | Some [] | None => rows
          end = filter (matches types) rows) as E.
  { destruct types as [[|t ts]|]; simpl; try reflexivity; now rewrite Hid. }
  unfold selected. rewrite E. intros [->|[n [-> Hn]]]; [reflexivity|].
  destruct (n =? 0) eqn:H0; [reflexivity|].
  apply Z.eqb_neq in H0. unfold sql_limit.
  assert ((n <? 0) = true) as -> by (apply Z.ltb_lt; lia). reflexivity.
Qed.

Lemma selected_bounded n types rows :
  0 < n ->
  selected (Some n) types rows =
  firstn (Z.to_nat n) (selected None types rows).
Proof.
  intros Hn. unfold selected, sql_limit.
  assert ((n =? 0) = false) as -> by (apply Z.eqb_neq; lia).
  assert ((n <? 0) = false) as -> by (apply Z.ltb_ge; lia).
  reflexivity.
Qed.

Lemma item_ids_history_items rows :
  item_ids (map history_item rows) = map (fun r => Some (PInt (h_id r))) rows.
Proof.
  unfold item_ids. rewrite map_map. reflexivity.
Qed.

Lemma selected_decodes limit types rows :
  forallb row_decodes rows = true ->
  forallb row_decodes (selected limit types rows) = true.
Proof.
  intros H. rewrite forallb_forall in H |- *. intros r Hr.
  apply H. now apply (selected_In limit types rows r).
Qed.

(** C3, as the code has it: on a history table with distinct ids and with a
    limit that SQLite can bind (a 64-bit integer), [read_history] returns
    the items of the selected rows, which are in strictly descending order
    of id; with a non-empty list of types, only rows of one of these types;
    with a positive limit, the first [limit] of the matching rows in that
    order, so at most [limit]; and with a limit that is omitted, zero or
    negative, all the matching rows.  The call raises instead of returning
    exactly when a type of the filter is a [str] that cannot be bound or a
    selected row holds text that does not decode ([query_result]).  On
    entries 1..5 with 2 and 4 of type comm, the filter comm selects ids 4, 2
    and the limit 2 selects ids 5, 4. *)
Theorem read_history_query (limit : option Z) (types : option (list string))
    (d : db) (rows : list history_row) :
  history_table d = Some rows ->
  wf_db d = true ->
  limit_ok limit = true ->
  exists sel,
    read_history limit types d = (query_result types sel, d)
    /\ (types_ok types = true -> forallb row_decodes sel = true ->
        query_result types sel = inr (map history_item sel))
    /\ item_ids (map history_item sel) = map (fun r => Some (PInt (h_id r))) sel
    /\ StronglySorted desc sel
    /\ (forall r, In r sel -> In r rows)
    /\ (forall t ts, types = Some (t :: ts) ->
        forall r, In r sel -> In (h_type r) (t :: ts))
    /\ (forall n, limit = Some n -> 0 < n ->
        sel = firstn (Z.to_nat n) (selected None types rows)
        /\ (List.length sel <= Z.to_nat n)%nat)
    /\ ((limit = None \/ exists n, limit = Some n /\ n <= 0) ->
        sel = selected None types rows
        /\ forall r, In r sel <-> In r rows /\ matches types r = true)
    /\ (forall who content ts d5,
        history_table d5 = Some (five_entries who content ts) ->
        (exists s, fst (read_history None (Some ["comm"]) d5) = fetched s
                   /\ item_ids (map history_item s)
                      = [Some (PInt 4); Some (PInt 2)])
        /\ (exists s, fst (read_history (Some 2) None d5) = fetched s
                      /\ item_ids (map history_item s)
                         = [Some (PInt 5); Some (PInt 4)])).
Proof.
  intros Hh Hwf Hl. exists (selected limit types rows).
  assert (NoDup (map h_id rows)) as Hnd.
  { unfold wf_db in Hwf. rewrite Hh in Hwf.
    apply andb_true_iff in Hwf as [_ Hd]. now apply distinct_NoDup. }
  split; [now apply read_history_run|].
  split.
  { intros Ht Hd. unfold query_result. now rewrite Ht, fetched_decodes. }
  split; [apply item_ids_history_items|].
  split; [now apply selected_sorted|].
  split; [intros r Hr; now apply (selected_In limit types rows r)|].
  split; [intros t ts E r Hr; now apply (proj2 (selected_In limit types rows r Hr) t ts)|].
  split; [|split].
  - intros n -> Hn. rewrite (selected_bounded n types rows Hn).
    split; [reflexivity | apply firstn_le_length].
  - intros Hu. rewrite (selected_unbounded limit types rows Hu).
    rewrite (selected_unbounded None types rows (or_introl eq_refl)).
    split; [reflexivity|]. intros r.
    rewrite order_by_id_desc_In, filter_In. reflexivity.
  - intros who content ts d5 H5. split.
    + rewrite (read_history_run None (Some ["comm"]) d5 _ H5 eq_refl).
      eexists. split; reflexivity.
    + rewrite (read_history_run (Some 2) None d5 _ H5 eq_refl).
      eexists. split; reflexivity.
Qed.

(** *** Rows whose content is not JSON *)






(** *** The newest entry comes first *)

Lemma max_id_ge rows r : In r rows -> h_id r <= max_id rows.
Proof.
  unfold max_id. induction rows as [|r' rest IH]; simpl; [tauto|].
  intros [->|H]; [lia|]. specialize (IH H). lia.
Qed.

Lemma order_by_id_desc_newest rows x :
  (forall r, In r rows -> h_id r < h_id x) ->
  order_by_id_desc (rows ++ [x]) = x :: order_by_id_desc rows.
Proof.
  unfold order_by_id_desc. rewrite fold_right_app. simpl.
  induction rows as [|r rest IH]; intros Hlt; simpl; [reflexivity|].
  rewrite IH by (intros r' Hr'; apply Hlt; now right). simpl.
  assert ((h_id x <=? h_id r) = false) as ->; [|reflexivity].
  apply Z.leb_gt. apply Hlt. now left.
Qed.

Lemma next_id_fresh d rows r : In r rows -> h_id r < next_id d rows.
Proof. intros H. apply max_id_ge in H. unfold next_id. lia. Qed.

Lemma selected_newest types rows x :
  (forall r, In r rows -> h_id r < h_id x) ->
  matches types x = true ->
  selected (Some 1) types (rows ++ [x]) = [x].
Proof.
  intros Hlt Hm. rewrite selected_bounded by lia.
  rewrite (selected_unbounded None types _ (or_introl eq_refl)).
  rewrite filter_app. simpl. rewrite Hm.
  rewrite order_by_id_desc_newest; [reflexivity|].
  intros r Hr. apply filter_In in Hr as [Hr _]. now apply Hlt.
Qed.

(** The query for the newest entry, after an entry was appended. *)
Lemma read_history_newest types d rows x :
  (forall r, In r rows -> h_id r < h_id x) ->
  matches types x = true ->
  types_ok types = true ->
  row_decodes x = true ->
  read_history (Some 1) types (set_history_table d (rows ++ [x]) (h_id x))
  = (inr [history_item x], set_history_table d (rows ++ [x]) (h_id x)).
Proof.
  intros Hlt Hm Hty Hx.
  rewrite read_history_ok with (rows := (rows ++ [x])%list);
    try reflexivity; try assumption.
  - now rewrite selected_newest.
  - rewrite selected_newest by assumption. cbn. now rewrite Hx.
Qed.

(** ** [POST /comm] *)

Lemma comm_content_dumps m :
  (1 <= nesting_limit)%nat ->
  dumps_error nesting_limit (PDict [("message", PStr m)]) = None.
Proof. destruct nesting_limit; [lia | reflexivity]. Qed.

Lemma comm_content_utf8 m :
  utf8_ok m = true ->
  utf8_ok (json_dumps (PDict [("message", PStr m)])) = true.
Proof.
  intros H.
  change (json_dumps (PDict [("message", PStr m)]))
    with ("{" ++ (encode_basestring "message" ++ ": " ++ encode_basestring m)
          ++ "}").
  rewrite !append_assoc.
  change ("{" ++ encode_basestring "message" ++ ": "
          ++ encode_basestring m ++ "}")
    with (String "{" (encode_basestring "message"
                      ++ String ":" (String " " (encode_basestring m ++ "}")))).
  cbn [utf8_ok]. change (code "{" <? 128) with true. cbv iota.
  rewrite utf8_ok_encode_basestring by reflexivity.
  cbn [utf8_ok]. change (code ":" <? 128) with true.
  change (code " " <? 128) with true. cbv iota.
  now rewrite utf8_ok_encode_basestring.
Qed.

Lemma comm_content_ok m : json_ok (PDict [("message", PStr m)]).
Proof.
  apply json_ok_dict. split; [repeat constructor; cbn; tauto|].
  repeat constructor.
Qed.

(** Every outcome of [POST /comm]. *)
Lemma post_comm_cases now req who d :
  let w := match who with Some w => w | None => 1 end in
  post_comm now req who d =
  if negb ((w =? 0) || (w =? 1)) then
    (inl (HTTPException 400 "Parametr who musi byc 0 (krzys) lub 1 (user)"),
     d)
  else
    let who_str := if w =? 0 then "krzys" else "user" in
    let content := [("message", PStr (message req))] in
    match dumps_error nesting_limit (PDict content) with
    | Some e => (inl e, d)
    | None =>
        match history_table d with
        | None => (inl (no_such_table "history"), d)
        | Some rows =>
            match insert_error "comm" (Some who_str)
                    (json_dumps (PDict content)) d rows with
            | Some e => (inl e, d)
            | None =>
                (inr [("status", PStr "saved"); ("who", PStr who_str);
                      ("ts", PStr (utc_stamp now))],
                 set_history_table d
                   (rows ++ [mk_history_row (next_id d rows) "comm"
                               (Some who_str) (json_dumps (PDict content))
                               (utc_stamp now)])%list (next_id d rows))
            end
        end
    end.
Proof.
  cbv zeta. unfold post_comm, comm.
  destruct (negb _); [reflexivity|].
  destruct (history_table d) as [rows|] eqn:Hh.
  - rewrite (append_history_record_run now "comm" _ _ d rows Hh).
    destruct (dumps_error _ _); [reflexivity|].
    destruct (insert_error _ _ _ _ _); reflexivity.
  - rewrite (append_history_record_no_table now "comm" _ _ d Hh).
    destruct (dumps_error _ _); reflexivity.
Qed.

Lemma insert_error_comm who_str m d rows :
  who_str = "krzys" \/ who_str = "user" ->
  utf8_ok m = true -> id_left d rows = true ->
  insert_error "comm" (Some who_str)
    (json_dumps (PDict [("message", PStr m)])) d rows = None.
Proof.
  intros Hw Hm Hid. unfold insert_error.
  rewrite (comm_content_utf8 m Hm), Hid.
  destruct Hw as [-> | ->]; reflexivity.
Qed.

(** A message that can be bound is saved, while the history has an id
    left. *)
Lemma comm_run now req who d rows :
  history_table d = Some rows ->
  who = 0 \/ who = 1 ->
  utf8_ok (message req) = true ->
  id_left d rows = true ->
  (1 <= nesting_limit)%nat ->
  let who_str := if who =? 0 then "krzys" else "user" in
  comm now req who d =
  (inr [("status", PStr "saved"); ("who", PStr who_str);
        ("ts", PStr (utc_stamp now))],
   set_history_table d
     (rows ++ [mk_history_row (next_id d rows) "comm" (Some who_str)
                 (json_dumps (PDict [("message", PStr (message req))]))
                 (utc_stamp now)])%list (next_id d rows)).
Proof.
  intros Hh Hw Hm Hid Hn.
  pose proof (post_comm_cases now req (Some who) d) as H.
  cbv zeta in H. unfold post_comm in H. rewrite H. clear H.
  assert (negb ((who =? 0) || (who =? 1)) = false) as ->.
  { destruct Hw as [-> | ->]; reflexivity. }
  rewrite (comm_content_dumps _ Hn), Hh, insert_error_comm; try assumption.
  - reflexivity.
  - destruct Hw as [-> | ->]; [now left | now right].
Qed.

Lemma comm_bad_who now req who d :
  who <> 0 -> who <> 1 ->
  comm now req who d =
  (inl (HTTPException 400 "Parametr who musi byc 0 (krzys) lub 1 (user)"), d).
Proof.
  intros H0 H1. unfold comm.
  apply Z.eqb_neq in H0, H1. rewrite H0, H1. reflexivity.
Qed.

Lemma history_item_dumps id rec_type who content ts :
  json_ok (PDict content) ->
  dumps_error nesting_limit (PDict content) = None ->
  history_item (mk_history_row id rec_type who (json_dumps (PDict content)) ts)
  = [("id", PInt id); ("type", PStr rec_type); ("who", opt_str who);
     ("content", PDict content); ("ts", PStr ts)].
Proof.
  intros Hok Hroom. unfold history_item.
  cbn [h_id h_type h_who h_content h_ts].
  now rewrite json_loads_dumps.
Qed.

(** C8: the round trip of a message, and the [who] parameter.  On a file
    whose history table has an id left, and with room for one container in
    the interpreter: after [append_history_record("comm", "user",
    {"message": "hi"})], [read_history(limit=1, types=["comm"])] returns
    exactly one item, whose content is [{"message": "hi"}] and whose who is
    "user".  [POST /comm] with a [who] other than 0 and 1 raises
    [HTTPException(400)] and writes nothing, on any file.  With [who=0] a
    message that can be bound is recorded and answered with the label
    "krzys", with [who=1] with the label "user"; and whatever the message
    and the file, an answer to [who=0] carries the label "krzys" and an
    answer to [who=1] the label "user". *)
Theorem comm_round_trip (now : datetime) (req : CommRequest) (d : db)
    (rows : list history_row) :
  history_table d = Some rows ->
  id_left d rows = true ->
  (1 <= nesting_limit)%nat ->
  (exists ts d' item,
     append_history_record now "comm" (Some "user")
       [("message", PStr "hi")] d = (inr ts, d')
     /\ read_history (Some 1) (Some ["comm"]) d' = (inr [item], d')
     /\ dict_get item "content" = Some (PDict [("message", PStr "hi")])
     /\ dict_get item "who" = Some (PStr "user"))
  /\ (forall who d0, who <> 0 -> who <> 1 ->
      exists detail,
        post_comm now req (Some who) d0
        = (inl (HTTPException 400 detail), d0)
        /\ http_status (HTTPException 400 detail) = 400)
  /\ (utf8_ok (message req) = true ->
      exists ts d' row,
        post_comm now req (Some 0) d =
          (inr [("status", PStr "saved"); ("who", PStr "krzys");
                ("ts", PStr ts)], d')
        /\ history_table d' = Some (rows ++ [row])%list
        /\ h_type row = "comm" /\ h_who row = Some "krzys")
  /\ (utf8_ok (message req) = true ->
      exists ts d' row,
        post_comm now req (Some 1) d =
          (inr [("status", PStr "saved"); ("who", PStr "user");
                ("ts", PStr ts)], d')
        /\ history_table d' = Some (rows ++ [row])%list
        /\ h_type row = "comm" /\ h_who row = Some "user")
  /\ (forall w d0 answer d', w = 0 \/ w = 1 ->
      post_comm now req (Some w) d0 = (inr answer, d') ->
      dict_get answer "who"
      = Some (PStr (if w =? 0 then "krzys" else "user"))).
Proof.
  intros Hh Hid Hn. split; [|split; [|split; [|split]]].
  - rewrite (append_history_record_run now "comm" _ _ d rows Hh).
    rewrite (comm_content_dumps _ Hn).
    rewrite insert_error_comm by (auto; reflexivity).
    cbv zeta. eexists. eexists. eexists. split; [reflexivity|].
    set (x := mk_history_row (next_id d rows) "comm" (Some "user")
                (json_dumps (PDict [("message", PStr "hi")])) (utc_stamp now)).
    change (next_id d rows) with (h_id x).
    rewrite read_history_newest.
    + split; [reflexivity|]. unfold x.
      rewrite history_item_dumps
        by (apply comm_content_ok || now apply comm_content_dumps).
      split; reflexivity.
    + intros r Hr. now apply next_id_fresh.
    + reflexivity.
    + reflexivity.
    + unfold row_decodes, x. cbn [h_type h_who h_content h_ts].
      rewrite utf8_ok_utc_stamp, comm_content_utf8 by reflexivity.
      reflexivity.
  - intros who d0 H0 H1. eexists. unfold post_comm.
    rewrite (comm_bad_who now req who d0 H0 H1). split; reflexivity.
  - intros Hm. unfold post_comm.
    rewrite (comm_run now req 0 d rows Hh (or_introl eq_refl) Hm Hid Hn).
    eexists. eexists. eexists. split; [reflexivity|]. simpl. repeat split.
  - intros Hm. unfold post_comm.
    rewrite (comm_run now req 1 d rows Hh (or_intror eq_refl) Hm Hid Hn).
    eexists. eexists. eexists. split; [reflexivity|]. simpl. repeat split.
  - intros w d0 answer d' Hw. rewrite post_comm_cases. cbv zeta.
    assert (negb ((w =? 0) || (w =? 1)) = false) as ->
      by (destruct Hw as [-> | ->]; reflexivity).
    destruct (dumps_error _ _); [discriminate|].
    destruct (history_table d0); [|discriminate].
    destruct (insert_error _ _ _ _ _); [discriminate|].
    intros H. inversion H. reflexivity.
Qed.


(** ** [update_state_in_db] *)

(** [state.update(changed)] for the dict of a request body: each supplied
    field replaces the value read from the row, in place. *)
Lemma state_update_StateUpdate row u :
  dict_update (state_of_row row) (StateUpdate_dict u) = merged u row.
Proof.
  destruct u as [[e|] [h|] [t|] [m|]]; reflexivity.
Qed.

Lemma find_existsb {A} (p : A -> bool) l x :
  find p l = Some x -> existsb p l = true.
Proof.
  intros H. apply find_some in H as [Hin Hp].
  apply existsb_exists. now exists x.
Qed.

(** One step of a run of the model, without unfolding the text functions
    and the checks. *)
Ltac run_step :=
  cbn -[dict_update json_dumps utc_stamp StateUpdate_dict in_int64 utf8_ok
        dumps_error json_dumps_call stored_real id_left next_id
        state_of_row].

(** Every outcome of [update_state_in_db] on the dict of a request body. *)
Lemma update_state_in_db_run now u d :
  update_state_in_db now (StateUpdate_dict u) d =
  match state_table d with
  | None => (inl (no_such_table "state"), d)
  | Some rows =>
      match find is_row_1 rows with
      | None => (inl (RuntimeError "State missing"), d)
      | Some row =>
          if negb (utf8_ok (st_mood row)) then (inl (decode_failed "mood"), d)
          else
          let e := or_else (energy u) (st_energy row) in
          let h := or_else (heart_rate u) (st_heart_rate row) in
          let t := or_else (temperature u) (st_temperature row) in
          let m := or_else (mood u) (st_mood row) in
          let ts := utc_stamp now in
          match update_error e h t m with
          | Some err => (inl err, d)
          | None =>
          match dumps_error nesting_limit (entry_content u row) with
          | Some err => (inl err, d)
          | None =>
          match history_table d with
          | None => (inl (no_such_table "history"), d)
          | Some hrows =>
          match insert_error "state" None (json_dumps (entry_content u row))
                  d hrows with
          | Some err => (inl err, d)
          | None =>
              (inr (merged u row ++ [("updated_at", PStr ts)])%list,
               {| state_table :=
                    Some (updated_rows rows e h (stored_real t) m ts);
                  history_table :=
                    Some (hrows ++
                          [mk_history_row (next_id d hrows) "state" None
                             (json_dumps (entry_content u row)) ts])%list;
                  history_seq := next_id d hrows |})
          end end end end
      end
  end.
Proof.
  pose proof (utf8_ok_utc_stamp now) as Hts.
  unfold update_state_in_db, with_conn, bind, sql_select_state, get_view.
  run_step.
  destruct (state_table d) as [rows|] eqn:Hst; run_step; [|reflexivity].
  destruct (find is_row_1 rows) as [row|] eqn:Hrow; run_step; [|reflexivity].
  destruct (utf8_ok (st_mood row)) eqn:Hmood; run_step; [|reflexivity].
  fold (state_of_row row). rewrite state_update_StateUpdate.
  unfold getitem, sql_update_state, sql_insert_history, bind, get_view, lift,
    update_error, insert_error, json_dumps_call, entry_content.
  run_step.
  rewrite Hst, (find_existsb _ _ _ Hrow).
  destruct (in_int64 (or_else (energy u) (st_energy row))); run_step;
    [|reflexivity].
  destruct (in_int64 (or_else (heart_rate u) (st_heart_rate row))); run_step;
    [|reflexivity].
  destruct (utf8_ok (or_else (mood u) (st_mood row))); run_step;
    [|reflexivity].
  rewrite Hts.
  destruct (PrimFloat.is_nan (or_else (temperature u) (st_temperature row)));
    run_step; [reflexivity|].
  destruct (dumps_error nesting_limit _); run_step; [reflexivity|].
  destruct (history_table d) as [hrows|]; run_step; [|reflexivity].
  change (utf8_ok "state") with true. run_step.
  destruct (utf8_ok (json_dumps _)); run_step; [|reflexivity].
  destruct (id_left _ _); reflexivity.
Qed.

(** The [UPDATE] and the [INSERT] write to the view of the open transaction
    only: what is committed changes at [commit] and nowhere else. *)
Lemma sql_update_state_keeps_disk e h t m u c :
  disk (snd (sql_update_state e h t m u c)) = disk c.
Proof.
  unfold sql_update_state, bind, get_view, lift, put_view, ret, raise.
  cbn. destruct (state_table (view c)); [|reflexivity].
  destruct (bind_param e); [reflexivity|].
  destruct (bind_param h); [reflexivity|].
  destruct (bind_param t); [reflexivity|].
  destruct (bind_param m); [reflexivity|].
  destruct (bind_param u); [reflexivity|].
  destruct (existsb is_row_1 l); [|reflexivity].
  destruct (col_integer _ _); [reflexivity|].
  destruct (col_integer _ _); [reflexivity|].
  destruct (col_real _ _); [reflexivity|].
  destruct (col_text _ _); [reflexivity|].
  destruct (col_text _ _); reflexivity.
Qed.

Lemma sql_insert_history_keeps_disk ty w content ts c :
  disk (snd (sql_insert_history ty w content ts c)) = disk c.
Proof.
  unfold sql_insert_history, bind, get_view, lift, put_view, ret, raise.
  cbn -[id_left]. destruct (history_table (view c)); [|reflexivity].
  destruct (bind_param ty); [reflexivity|].
  destruct (bind_param w); [reflexivity|].
  destruct (bind_param content); [reflexivity|].
  destruct (bind_param ts); [reflexivity|].
  destruct (col_text _ _); [reflexivity|].
  destruct (col_text_null _ _); [reflexivity|].
  destruct (col_text _ _); [reflexivity|].
  destruct (col_text _ _); [reflexivity|].
  destruct (id_left _ _); reflexivity.
Qed.

(** A failed [update_state_in_db] leaves the file as it was. *)
Lemma update_state_in_db_failure now u d e d' :
  update_state_in_db now (StateUpdate_dict u) d = (inl e, d') -> d' = d.
Proof.
  rewrite update_state_in_db_run.
  destruct (state_table d) as [rows|];
    [|intros H; now inversion H].
  destruct (find is_row_1 rows) as [row|];
    [|intros H; now inversion H].
  destruct (negb (utf8_ok (st_mood row))); [intros H; now inversion H|].
  cbv zeta.
  destruct (update_error _ _ _ _); [intros H; now inversion H|].
  destruct (dumps_error _ _); [intros H; now inversion H|].
  destruct (history_table d) as [hrows|]; [|intros H; now inversion H].
  destruct (insert_error _ _ _ _ _); intros H; now inversion H.
Qed.

Lemma find_updated_rows rows row e h t m ts :
  find is_row_1 rows = Some row ->
  find is_row_1 (updated_rows rows e h t m ts) =
  Some (mk_state_row (st_id row) e h t m ts).
Proof.
  unfold updated_rows. induction rows as [|r rest IH]; simpl; [discriminate|].
  destruct (is_row_1 r) eqn:Hr.
  - intros H. inversion H; subst r.
    unfold is_row_1 in *. simpl. now rewrite Hr.
  - intros H. rewrite Hr. now apply IH.
Qed.

(** After an update, [GET /state] returns what the row holds. *)
Lemma get_state_after_update rows row e h t m ts hist seq :
  find is_row_1 rows = Some row ->
  utf8_ok m = true -> utf8_ok ts = true ->
  get_state {| state_table := Some (updated_rows rows e h t m ts);
               history_table := hist; history_seq := seq |} =
  (inr [("energy", PInt e); ("heart_rate", PInt h);
        ("temperature", PFloat t); ("mood", PStr m);
        ("updated_at", PStr ts)],
   {| state_table := Some (updated_rows rows e h t m ts);
      history_table := hist; history_seq := seq |}).
Proof.
  intros Hrow Hm Hts. unfold get_state.
  rewrite get_state_from_db_ok
    with (rows := updated_rows rows e h t m ts)
         (row := mk_state_row (st_id row) e h t m ts);
    [reflexivity | reflexivity | now apply find_updated_rows |].
  unfold state_row_decodes. cbn. now rewrite Hm, Hts.
Qed.

Lemma update_error_none e h t m :
  update_error e h t m = None <->
  in_int64 e = true /\ in_int64 h = true /\ utf8_ok m = true
  /\ PrimFloat.is_nan t = false.
Proof.
  unfold update_error.
  destruct (in_int64 e), (in_int64 h), (utf8_ok m), (PrimFloat.is_nan t);
    cbn; split; try discriminate; try (intros _; now repeat split);
    intros (? & ? & ? & ?); discriminate.
Qed.

Lemma insert_error_none rec_type who text d rows :
  insert_error rec_type who text d rows = None <->
  utf8_ok rec_type = true
  /\ match who with Some w => utf8_ok w | None => true end = true
  /\ utf8_ok text = true /\ id_left d rows = true.
Proof.
  unfold insert_error.
  destruct (utf8_ok rec_type),
    (match who with Some w => utf8_ok w | None => true end),
    (utf8_ok text), (id_left d rows);
    cbn; split; try discriminate; try (intros _; now repeat split);
    intros (? & ? & ? & ?); discriminate.
Qed.

(** What a successful [update_state_in_db] on the dict of a request body
    has done, and what made it succeed. *)
Lemma update_state_in_db_success now u d rec d' :
  update_state_in_db now (StateUpdate_dict u) d = (inr rec, d') ->
  exists rows row hrows,
    state_table d = Some rows /\ find is_row_1 rows = Some row
    /\ history_table d = Some hrows
    /\ let e := or_else (energy u) (st_energy row) in
       let h := or_else (heart_rate u) (st_heart_rate row) in
       let t := or_else (temperature u) (st_temperature row) in
       let m := or_else (mood u) (st_mood row) in
       utf8_ok (st_mood row) = true
       /\ (in_int64 e = true /\ in_int64 h = true /\ utf8_ok m = true
           /\ PrimFloat.is_nan t = false)
       /\ dumps_error nesting_limit (entry_content u row) = None
       /\ utf8_ok (json_dumps (entry_content u row)) = true
       /\ id_left d hrows = true
       /\ rec = (merged u row ++ [("updated_at", PStr (utc_stamp now))])%list
       /\ d' = {| state_table :=
                    Some (updated_rows rows e h (stored_real t) m
                            (utc_stamp now));
                  history_table :=
                    Some (hrows ++
                          [mk_history_row (next_id d hrows) "state" None
                             (json_dumps (entry_content u row))
                             (utc_stamp now)])%list;
                  history_seq := next_id d hrows |}.
Proof.
  rewrite update_state_in_db_run.
  destruct (state_table d) as [rows|] eqn:Hst; [|discriminate].
  destruct (find is_row_1 rows) as [row|] eqn:Hrow; [|discriminate].
  destruct (utf8_ok (st_mood row)) eqn:Hmood; [|discriminate].
  cbv zeta. cbn [negb].
  destruct (update_error _ _ _ _) eqn:Hu; [discriminate|].
  destruct (dumps_error _ _) eqn:Hd; [discriminate|].
  destruct (history_table d) as [hrows|] eqn:Hh; [|discriminate].
  destruct (insert_error _ _ _ _ _) eqn:Hi; [discriminate|].
  apply update_error_none in Hu.
  apply insert_error_none in Hi as (_ & _ & Htext & Hid).
  intros H. exists rows, row, hrows.
  split; [reflexivity|]. split; [exact Hrow|]. split; [reflexivity|].
  split; [exact Hmood|]. split; [exact Hu|]. split; [exact Hd|].
  split; [exact Htext|]. split; [exact Hid|].
  split; congruence.
Qed.

(** What the stored record and the returned record have in common. *)
Lemma merged_stored_get u row k :
  k <> "temperature" ->
  dict_get (merged_stored u row) k = dict_get (merged u row) k.
Proof.
  intros Hk. unfold merged_stored, merged. cbn -[String.eqb].
  case_keys k; try reflexivity. now contradiction Hk.
Qed.

(** C2: the update and its history entry are written together.  A call of
    [update_state_in_db] on the dict of a request body that raises (in
    particular when the state row is missing) leaves the whole file as it
    was.  A call that returns has returned the merged record (each field
    supplied by the body, else read from the row) and has written it to the
    state row, so that [GET /state] then returns it, the temperature as
    SQLite keeps it: equal as a number, a negative zero stored as zero.  It
    has also appended exactly one history row, of type state, whose content
    is [json.dumps] of [{"changed": <the dict given>, "state": <the merged
    record>}].  Neither of the two statements changes what is committed:
    both are published by the one [commit] that follows them. *)
Theorem update_state_in_db_atomic (now : datetime) (d : db) :
  (forall u e d',
     update_state_in_db now (StateUpdate_dict u) d = (inl e, d') -> d' = d)
  /\ (forall changed rows,
        state_table d = Some rows -> find is_row_1 rows = None ->
        update_state_in_db now changed d =
        (inl (RuntimeError "State missing"), d))
  /\ (forall u rec d',
        update_state_in_db now (StateUpdate_dict u) d = (inr rec, d') ->
        exists rows row hrows entry,
          state_table d = Some rows
          /\ find is_row_1 rows = Some row
          /\ rec = (merged u row
                    ++ [("updated_at", PStr (isoformat now ++ "Z"))])%list
          /\ state_table d'
             = Some (updated_rows rows
                       (or_else (energy u) (st_energy row))
                       (or_else (heart_rate u) (st_heart_rate row))
                       (stored_real
                          (or_else (temperature u) (st_temperature row)))
                       (or_else (mood u) (st_mood row))
                       (isoformat now ++ "Z"))
          /\ get_state d'
             = (inr (merged_stored u row
                     ++ [("updated_at", PStr (isoformat now ++ "Z"))])%list,
                d')
          /\ PrimFloat.eqb (or_else (temperature u) (st_temperature row))
               (stored_real (or_else (temperature u) (st_temperature row)))
             = true
          /\ history_table d = Some hrows
          /\ history_table d' = Some (hrows ++ [entry])%list
          /\ h_type entry = "state"
          /\ h_content entry =
             json_dumps (PDict [("changed", PDict (StateUpdate_dict u));
                                ("state", PDict (merged u row))]))
  /\ (forall e h t m u c,
        disk (snd (sql_update_state e h t m u c)) = disk c)
  /\ (forall ty w content ts c,
        disk (snd (sql_insert_history ty w content ts c)) = disk c).
Proof.
  split; [|split; [|split; [|split]]].
  - intros u e d'. apply update_state_in_db_failure.
  - intros changed rows Hst Hrow.
    unfold update_state_in_db, with_conn, bind, sql_select_state, get_view.
    run_step. rewrite Hst. run_step. rewrite Hrow. reflexivity.
  - intros u rec d' H.
    apply update_state_in_db_success in H
      as (rows & row & hrows & Hst & Hrow & Hh & H).
    cbv zeta in H.
    destruct H as (_ & (_ & _ & Hm & Hnan) & _ & _ & _ & Hrec & Hd').
    subst rec d'.
    eexists rows, row, hrows, _. split; [exact Hst|]. split; [exact Hrow|].
    split; [reflexivity|]. split; [reflexivity|].
    split.
    { apply (get_state_after_update rows row); [exact Hrow | exact Hm |].
      apply utf8_ok_utc_stamp. }
    split; [now apply stored_real_eqb|].
    split; [exact Hh|]. split; [reflexivity|]. split; reflexivity.
  - apply sql_update_state_keeps_disk.
  - apply sql_insert_history_keeps_disk.
Qed.

(** C9: the history entry of an update.  When [update_state_in_db] returns
    on the dict of a request body, the row it appended to the history has
    type state and who NULL; the state snapshot in its content has exactly
    the keys energy, heart_rate, temperature and mood, so no updated_at; and
    its ts is the stamp that the same call wrote to the state row and
    returned as updated_at. *)
Theorem update_state_history_entry (now : datetime) (u : StateUpdate)
    (d : db) (rec : dict) (d' : db) :
  update_state_in_db now (StateUpdate_dict u) d = (inr rec, d') ->
  exists hrows entry state rows' row',
    history_table d = Some hrows
    /\ history_table d' = Some (hrows ++ [entry])%list
    /\ h_type entry = "state"
    /\ h_who entry = None
    /\ h_content entry =
       json_dumps (PDict [("changed", PDict (StateUpdate_dict u));
                          ("state", PDict state)])
    /\ dict_keys state = ["energy"; "heart_rate"; "temperature"; "mood"]
    /\ dict_get state "updated_at" = None
    /\ (forall k, k <> "updated_at" -> dict_get state k = dict_get rec k)
    /\ dict_get rec "updated_at" = Some (PStr (h_ts entry))
    /\ state_table d' = Some rows'
    /\ find is_row_1 rows' = Some row'
    /\ st_last_updated row' = h_ts entry
    /\ h_ts entry = isoformat now ++ "Z".
Proof.
  intros H.
  apply update_state_in_db_success in H
    as (rows & row & hrows & Hst & Hrow & Hh & H).
  cbv zeta in H. destruct H as (_ & _ & _ & _ & _ & Hrec & Hd').
  subst rec d'.
  eexists hrows, _, (merged u row), _, _.
  split; [exact Hh|]. split; [reflexivity|].
  split; [reflexivity|]. split; [reflexivity|]. split; [reflexivity|].
  split; [reflexivity|]. split; [reflexivity|].
  split.
  { intros k Hk. cbn -[String.eqb]. case_keys k; try reflexivity.
    now contradiction Hk. }
  split; [reflexivity|]. split; [reflexivity|].
  split; [apply (find_updated_rows rows row); exact Hrow|].
  split; reflexivity.
Qed.

Lemma in_int64_small z : -100 <= z <= 100 -> in_int64 z = true.
Proof.
  intros H. unfold in_int64, int64_min, int64_max.
  change (2 ^ 63) with 9223372036854775808.
  apply andb_true_iff. split; apply Z.leb_le; lia.
Qed.

Lemma StateUpdate_validate_ok u :
  StateUpdate_validate u = inr u <->
  energy_ok u = true /\ heart_rate_ok u = true.
Proof.
  unfold StateUpdate_validate.
  destruct (energy_ok u), (heart_rate_ok u); simpl; split;
    try (intros H; discriminate H); try (intros [H1 H2]; discriminate);
    auto.
Qed.

(** The encoder accepts the content of the entry of an update whose
    integers fit in 64 bits, with room for two containers. *)
Lemma entry_content_dumps u row :
  in_int64 (or_else (energy u) (st_energy row)) = true ->
  in_int64 (or_else (heart_rate u) (st_heart_rate row)) = true ->
  (2 <= nesting_limit)%nat ->
  dumps_error nesting_limit (entry_content u row) = None.
Proof.
  intros He Hh Hn. apply in_int64_str_ok in He, Hh.
  destruct nesting_limit as [|[|n]]; [lia | lia |].
  unfold entry_content, merged.
  destruct u as [[e|] [h|] [t|] [m|]]; cbn -[int_str_ok] in *;
    rewrite ?He, ?Hh; reflexivity.
Qed.

(** Its text can be bound, when the mood can. *)
Lemma entry_content_utf8 u row :
  float_repr_ascii ->
  utf8_ok (or_else (mood u) (st_mood row)) = true ->
  utf8_ok (json_dumps (entry_content u row)) = true.
Proof.
  intros Hf Hm. apply utf8_ok_dumps; [exact Hf|].
  unfold entry_content, merged.
  destruct u as [[e|] [h|] [t|] [m|]]; cbn -[utf8_ok] in *;
    rewrite ?Hm; reflexivity.
Qed.

Lemma insert_error_state text d rows :
  utf8_ok text = true -> id_left d rows = true ->
  insert_error "state" None text d rows = None.
Proof. intros Ht Hid. unfold insert_error. now rewrite Ht, Hid. Qed.

(** C1, as the code has it.  On a file that satisfies the schema and holds
    the state row, with text that decodes, and the history table, with an
    id left; with room for two containers in the interpreter and float text
    that is ASCII; for a request body that passes validation, whose
    heart_rate (when supplied) fits in 64 bits, whose temperature (when
    supplied) is not NaN and whose mood (when supplied) can be bound:
    [update_state_in_db] returns the full record, with the five keys; every
    supplied field has the supplied value and every other field the value
    that [GET /state] returned before the call; updated_at is the stamp of
    the clock reading of the call, whatever the previous one was; and
    [GET /state] returns that record afterwards, the temperature as SQLite
    keeps it: equal as a number, a negative zero stored as zero. *)
Theorem update_state_in_db_merge (now : datetime) (u : StateUpdate) (d : db)
    (rows : list state_row) (row : state_row) (hrows : list history_row) :
  wf_db d = true ->
  state_table d = Some rows ->
  find is_row_1 rows = Some row ->
  state_row_decodes true row = true ->
  history_table d = Some hrows ->
  id_left d hrows = true ->
  (2 <= nesting_limit)%nat ->
  float_repr_ascii ->
  StateUpdate_validate u = inr u ->
  (forall h, heart_rate u = Some h -> in_int64 h = true) ->
  (forall t, temperature u = Some t -> PrimFloat.is_nan t = false) ->
  (forall m, mood u = Some m -> utf8_ok m = true) ->
  exists prior rec d' stored,
    get_state d = (inr prior, d)
    /\ update_state_in_db now (StateUpdate_dict u) d = (inr rec, d')
    /\ dict_keys rec =
       ["energy"; "heart_rate"; "temperature"; "mood"; "updated_at"]
    /\ (forall k v, dict_get (StateUpdate_dict u) k = Some v ->
        dict_get rec k = Some v)
    /\ (forall k, dict_get (StateUpdate_dict u) k = None ->
        k <> "updated_at" -> dict_get rec k = dict_get prior k)
    /\ dict_get rec "updated_at" = Some (PStr (isoformat now ++ "Z"))
    /\ get_state d' = (inr stored, d')
    /\ (forall k, k <> "temperature" -> dict_get stored k = dict_get rec k)
    /\ (exists t,
          dict_get rec "temperature" = Some (PFloat t)
          /\ dict_get stored "temperature" = Some (PFloat (stored_real t))
          /\ PrimFloat.eqb t (stored_real t) = true).
Proof.
  intros Hwf Hst Hrow Hdec Hh Hid Hn Hf Hval Hhr Htemp Hmood.
  apply StateUpdate_validate_ok in Hval as [He _].
  assert (state_row_ok row = true) as Hok.
  { destruct (wf_state_rows d rows Hwf Hst) as [->|[r [-> Hr]]];
      [discriminate|].
    simpl in Hrow. destruct (is_row_1 r); [|discriminate].
    now inversion Hrow; subst r. }
  unfold state_row_ok in Hok.
  apply andb_true_iff in Hok as [Hok Hnan].
  apply andb_true_iff in Hok as [Hok Hrh].
  apply andb_true_iff in Hok as [_ Hre].
  apply negb_true_iff in Hnan.
  pose proof Hdec as Hdec'. unfold state_row_decodes in Hdec'.
  apply andb_true_iff in Hdec' as [Hrm _].
  assert (in_int64 (or_else (energy u) (st_energy row)) = true) as E1.
  { unfold energy_ok in He. destruct (energy u) as [e|]; simpl; [|exact Hre].
    apply andb_true_iff in He as [H0 H100].
    apply Z.leb_le in H0, H100. apply in_int64_small. lia. }
  assert (in_int64 (or_else (heart_rate u) (st_heart_rate row)) = true) as E2.
  { destruct (heart_rate u) as [h|] eqn:Eh; simpl; [now apply Hhr | exact Hrh]. }
  assert (PrimFloat.is_nan (or_else (temperature u) (st_temperature row))
          = false) as E3.
  { destruct (temperature u) as [t|] eqn:Et; simpl; [now apply Htemp | exact Hnan]. }
  assert (utf8_ok (or_else (mood u) (st_mood row)) = true) as E4.
  { destruct (mood u) as [m|] eqn:Em; simpl; [now apply Hmood | exact Hrm]. }
  unfold get_state at 1.
  rewrite (get_state_from_db_ok d rows row Hst Hrow Hdec).
  rewrite update_state_in_db_run, Hst, Hrow, Hrm. cbv zeta. cbn [negb].
  rewrite (proj2 (update_error_none _ _ _ _) (conj E1 (conj E2 (conj E4 E3)))).
  rewrite (entry_content_dumps u row E1 E2 Hn), Hh.
  rewrite (insert_error_state _ d hrows (entry_content_utf8 u row Hf E4) Hid).
  eexists _, _, _, _. split; [reflexivity|]. split; [reflexivity|].
  split; [reflexivity|].
  split.
  { intros k v. destruct u as [[e|] [h|] [t|] [m|]];
      cbn -[String.eqb]; case_keys k; intros H;
      first [exact H | discriminate H]. }
  split.
  { intros k. destruct u as [[e|] [h|] [t|] [m|]];
      cbn -[String.eqb]; case_keys k; intros H Hk;
      first [reflexivity | discriminate H | now contradiction Hk]. }
  split; [reflexivity|].
  split.
  { apply (get_state_after_update rows row);
      [exact Hrow | exact E4 | apply utf8_ok_utc_stamp]. }
  split.
  { intros k Hk. cbn -[String.eqb]. case_keys k; try reflexivity.
    now contradiction Hk. }
  eexists. split; [reflexivity|]. split; [reflexivity|].
  now apply stored_real_eqb.
Qed.

(** ** [POST /state] *)

Lemma energy_ok_range body :
  energy_ok body = true <->
  (forall e, energy body = Some e -> 0 <= e <= 100).
Proof.
  unfold energy_ok. destruct (energy body) as [e|]; split.
  - intros H e' E. inversion E; subst e'.
    apply andb_true_iff in H as [H0 H1]. apply Z.leb_le in H0, H1. lia.
  - intros H. specialize (H e eq_refl).
    apply andb_true_iff. split; apply Z.leb_le; lia.
  - discriminate.
  - reflexivity.
Qed.

Lemma heart_rate_ok_range body :
  heart_rate_ok body = true <->
  (forall h, heart_rate body = Some h -> 0 <= h).
Proof.
  unfold heart_rate_ok. destruct (heart_rate body) as [h|]; split.
  - intros H h' E. inversion E; subst h'. now apply Z.leb_le.
  - intros H. apply Z.leb_le. now apply H.
  - discriminate.
  - reflexivity.
Qed.

(** Every exception of the model but the two of the handlers and of the
    validation is answered with status 500. *)
Lemma update_error_status e h t m err :
  update_error e h t m = Some err -> http_status err = 500.
Proof.
  unfold update_error.
  destruct (negb (in_int64 e) || negb (in_int64 h));
    [intros H; inversion H; reflexivity|].
  destruct (negb (utf8_ok m)); [intros H; inversion H; reflexivity|].
  destruct (PrimFloat.is_nan t); intros H; inversion H; reflexivity.
Qed.

Lemma insert_error_status rec_type who text d rows err :
  insert_error rec_type who text d rows = Some err -> http_status err = 500.
Proof.
  unfold insert_error.
  repeat match goal with
         | |- context [if ?b then _ else _] => destruct b
         end; intros H; inversion H; reflexivity.
Qed.

Lemma dumps_error_status room v err :
  dumps_error room v = Some err -> err = int_too_long \/ err = too_deep.
Proof.
  revert room.
  induction v as [| b | z | f | s | l IHl | d IHd] using pyval_nested_ind;
    intros room; try discriminate.
  - cbn. destruct (int_str_ok z); [discriminate|].
    intros H; inversion H; now left.
  - rewrite dumps_error_list. destruct room as [|inner];
      [intros H; inversion H; now right|].
    induction IHl as [|x l Hx _ IH]; [discriminate|].
    cbn [elems_error]. destruct (dumps_error inner x) eqn:E.
    + intros H; inversion H; subst. now apply (Hx inner).
    + exact IH.
  - rewrite dumps_error_dict. destruct room as [|inner];
      [intros H; inversion H; now right|].
    induction IHd as [|kv d Hx _ IH]; [discriminate|].
    cbn [members_error]. destruct (dumps_error inner (snd kv)) eqn:E.
    + intros H; inversion H; subst. now apply (Hx inner).
    + exact IH.
Qed.

(** No exception of [update_state_in_db] is answered as a client error. *)
Lemma update_state_in_db_server_error now u d e d' :
  update_state_in_db now (StateUpdate_dict u) d = (inl e, d') ->
  http_status e = 500.
Proof.
  rewrite update_state_in_db_run.
  destruct (state_table d) as [rows|];
    [|intros H; inversion H; reflexivity].
  destruct (find is_row_1 rows) as [row|];
    [|intros H; inversion H; reflexivity].
  destruct (negb (utf8_ok (st_mood row)));
    [intros H; inversion H; reflexivity|].
  cbv zeta.
  destruct (update_error _ _ _ _) eqn:Hu;
    [intros H; inversion H; subst; now apply update_error_status in Hu|].
  destruct (dumps_error _ _) eqn:Hd.
  { intros H; inversion H; subst.
    apply dumps_error_status in Hd as [-> | ->]; reflexivity. }
  destruct (history_table d) as [hrows|];
    [|intros H; inversion H; reflexivity].
  destruct (insert_error _ _ _ _ _) eqn:Hi;
    intros H; inversion H; subst. now apply insert_error_status in Hi.
Qed.

(** C5: validation of [POST /state].  A body with no field at all, or with
    an energy below 0 or above 100, or with a negative heart_rate, is
    rejected with a client error and the file is left as it was: the empty
    body with [HTTPException(400)] by the handler, the out-of-range body
    with the validation error of the request model (status 422).  So the
    bodies [{energy: -1}], [{energy: 101}] and [{heart_rate: -1}] are
    rejected.  A non-empty body whose energy (when supplied) lies in
    [0, 100] and whose heart_rate (when supplied) is not negative passes
    validation and is handed to [update_state_in_db]; whatever happens
    there is not answered as a client error. *)
Theorem post_state_validation (now : datetime) (body : StateUpdate) (d : db) :
  ((energy body = None /\ heart_rate body = None
    /\ temperature body = None /\ mood body = None)
   \/ (exists e, energy body = Some e /\ (e < 0 \/ 100 < e))
   \/ (exists h, heart_rate body = Some h /\ h < 0) ->
   exists e,
     post_state now body d = (inl e, d)
     /\ is_client_error e = true
     /\ ((exists detail, e = HTTPException 400 detail)
         \/ (exists fields, e = RequestValidationError fields)))
  /\ post_state now (mk_StateUpdate (Some (-1)) None None None) d
     = (inl (RequestValidationError ["energy"]), d)
  /\ post_state now (mk_StateUpdate (Some 101) None None None) d
     = (inl (RequestValidationError ["energy"]), d)
  /\ post_state now (mk_StateUpdate None (Some (-1)) None None) d
     = (inl (RequestValidationError ["heart_rate"]), d)
  /\ ((forall e, energy body = Some e -> 0 <= e <= 100) ->
      (forall h, heart_rate body = Some h -> 0 <= h) ->
      StateUpdate_dict body <> [] ->
      StateUpdate_validate body = inr body
      /\ post_state now body d
         = update_state_in_db now (StateUpdate_dict body) d
      /\ (forall e d', post_state now body d = (inl e, d') ->
          is_client_error e = false)).
Proof.
  split; [|split; [|split; [|split]]]; try reflexivity.
  - intros [Hempty | [[e [He Hr]] | [h [Hh Hr]]]].
    + destruct Hempty as (E1 & E2 & E3 & E4).
      destruct body as [e h t m]; simpl in *; subst.
      eexists. split; [reflexivity|]. split; [reflexivity|].
      left. eexists. reflexivity.
    + assert (energy_ok body = false) as Hbad.
      { unfold energy_ok. rewrite He.
        apply andb_false_iff. destruct Hr; [left; apply Z.leb_gt | right; apply Z.leb_gt]; lia. }
      unfold post_state, StateUpdate_validate. rewrite Hbad.
      destruct (heart_rate_ok body); simpl;
        (eexists; split; [reflexivity|]; split; [reflexivity|];
         right; eexists; reflexivity).
    + assert (heart_rate_ok body = false) as Hbad.
      { unfold heart_rate_ok. rewrite Hh. apply Z.leb_gt. lia. }
      unfold post_state, StateUpdate_validate. rewrite Hbad.
      destruct (energy_ok body); simpl;
        (eexists; split; [reflexivity|]; split; [reflexivity|];
         right; eexists; reflexivity).
  - intros He Hh Hne.
    apply energy_ok_range in He. apply heart_rate_ok_range in Hh.
    assert (StateUpdate_validate body = inr body) as Hv
      by (apply StateUpdate_validate_ok; now split).
    assert (post_state now body d
            = update_state_in_db now (StateUpdate_dict body) d) as Hp.
    { unfold post_state. rewrite Hv. unfold update_state.
      destruct (StateUpdate_dict body); [contradiction|reflexivity]. }
    split; [exact Hv|]. split; [exact Hp|].
    intros e d' H. rewrite Hp in H.
    apply update_state_in_db_server_error in H.
    unfold is_client_error. rewrite H. reflexivity.
Qed.

(** ** The schema is kept, and the handlers stay within the model *)

Lemma distinct_app_fresh ids i :
  distinct ids = true -> (forall j, In j ids -> j < i) ->
  distinct (ids ++ [i]) = true.
Proof.
  induction ids as [|a rest IH]; intros Hd Hlt; [reflexivity|].
  cbn in Hd |- *. apply andb_true_iff in Hd as [Ha Hd].
  apply andb_true_iff. split.
  - rewrite existsb_app. cbn. apply negb_true_iff in Ha. rewrite Ha. cbn.
    assert ((a =? i) = false) as ->; [|reflexivity].
    apply Z.eqb_neq. specialize (Hlt a (or_introl eq_refl)). lia.
  - apply IH; [exact Hd|]. intros j Hj. apply Hlt. now right.
Qed.

Lemma append_history_record_wf now rec_type who content d :
  wf_db d = true ->
  wf_db (snd (append_history_record now rec_type who content d)) = true.
Proof.
  intros Hwf. destruct (history_table d) as [rows|] eqn:Hh.
  - rewrite (append_history_record_run now rec_type who content d rows Hh).
    destruct (dumps_error _ _); [exact Hwf|].
    destruct (insert_error _ _ _ _ _); [exact Hwf|].
    cbv zeta. unfold wf_db in *. cbn. rewrite Hh in Hwf.
    apply andb_true_iff in Hwf as [Hs Hd]. rewrite Hs. cbn.
    rewrite map_app. apply distinct_app_fresh; [exact Hd|].
    intros j Hj. apply in_map_iff in Hj as [r [<- Hr]].
    now apply next_id_fresh.
  - now rewrite (append_history_record_no_table now rec_type who content d Hh).
Qed.

Lemma updated_rows_ids rows e h t m ts :
  map st_id (updated_rows rows e h t m ts) = map st_id rows.
Proof.
  unfold updated_rows. rewrite map_map. apply map_ext.
  intros r. now destruct (is_row_1 r).
Qed.

Lemma updated_rows_ok rows e h t m ts :
  in_int64 e = true -> in_int64 h = true -> PrimFloat.is_nan t = false ->
  forallb state_row_ok rows = true ->
  forallb state_row_ok (updated_rows rows e h t m ts) = true.
Proof.
  intros He Hh Ht Hok. unfold updated_rows.
  rewrite forallb_forall in Hok |- *. intros r Hr.
  apply in_map_iff in Hr as [r0 [<- Hr0]].
  destruct (is_row_1 r0) eqn:H1; [|now apply Hok].
  unfold state_row_ok, is_row_1 in *. cbn. now rewrite H1, He, Hh, Ht.
Qed.

Lemma update_state_in_db_wf now u d :
  wf_db d = true ->
  wf_db (snd (update_state_in_db now (StateUpdate_dict u) d)) = true.
Proof.
  intros Hwf.
  destruct (update_state_in_db now (StateUpdate_dict u) d) as [[e|rec] d']
    eqn:Hrun.
  - apply update_state_in_db_failure in Hrun. now subst d'.
  - apply update_state_in_db_success in Hrun
      as (rows & row & hrows & Hst & Hrow & Hh & H).
    cbv zeta in H.
    destruct H as (_ & (E1 & E2 & _ & E3) & _ & _ & _ & _ & ->).
    unfold wf_db in *. cbn. rewrite Hst, Hh in Hwf.
    apply andb_true_iff in Hwf as [Hs Hd].
    apply andb_true_iff in Hs as [Hids Hok].
    rewrite updated_rows_ids, Hids,
      (updated_rows_ok _ _ _ _ _ _ E1 E2 (stored_real_not_nan _ E3) Hok).
    cbn. rewrite map_app. apply distinct_app_fresh; [exact Hd|].
    intros j Hj. apply in_map_iff in Hj as [r [<- Hr]].
    now apply next_id_fresh.
Qed.

(** Every outcome of [read_history]. *)
Lemma read_history_cases limit types d :
  read_history limit types d =
  match history_table d with
  | None => (inl (no_such_table "history"), d)
  | Some rows =>
      if negb (types_ok types) then (inl surrogates_not_allowed, d)
      else
        match limit with
        | Some n =>
            if (n =? 0) || in_int64 n
            then (fetched (selected limit types rows), d)
            else (inl (OverflowError
                         "Python int too large to convert to SQLite INTEGER"),
                  d)
        | None => (fetched (selected limit types rows), d)
        end
  end.
Proof.
  destruct (history_table d) as [rows|] eqn:Hh.
  - destruct (types_ok types) eqn:Ht; cbn [negb].
    + destruct limit as [n|].
      * destruct (n =? 0) eqn:H0.
        -- apply Z.eqb_eq in H0. subst n.
           rewrite (read_history_run (Some 0) types d rows Hh eq_refl).
           unfold query_result. now rewrite Ht.
        -- destruct (in_int64 n) eqn:Hn; cbn [orb].
           ++ rewrite (read_history_run (Some n) types d rows Hh Hn).
              unfold query_result. now rewrite Ht.
           ++ apply Z.eqb_neq in H0.
              now apply read_history_overflow with (rows := rows).
      * rewrite (read_history_run None types d rows Hh eq_refl).
        unfold query_result. now rewrite Ht.
    + unfold read_history, with_conn, sql_select_history, bind, lift,
        get_view.
      cbn -[fetchall bind_types]. rewrite Hh. cbn -[fetchall bind_types].
      destruct types as [[|t ts]|]; try discriminate Ht.
      cbn -[fetchall bind_types forallb] in *.
      rewrite bind_types_ok, Ht. reflexivity.
  - unfold read_history, with_conn, sql_select_history, bind. cbn.
    rewrite Hh. reflexivity.
Qed.

Lemma read_history_keeps_file limit types d :
  snd (read_history limit types d) = d.
Proof.
  rewrite read_history_cases.
  destruct (history_table d); [|reflexivity].
  destruct (negb (types_ok types)); [reflexivity|].
  destruct limit as [n|]; [|reflexivity].
  now destruct ((n =? 0) || in_int64 n).
Qed.

Lemma get_state_keeps_file d : snd (get_state d) = d.
Proof.
  unfold get_state. destruct (state_table d) as [rows|] eqn:Hst.
  - now rewrite (get_state_from_db_run d rows Hst).
  - unfold get_state_from_db, with_conn, sql_select_state, bind. cbn.
    now rewrite Hst.
Qed.

Lemma history_keeps_file limit kind d : snd (history limit kind d) = d.
Proof.
  unfold history.
  destruct kind as [k|].
  - destruct (String.eqb k ""); [|destruct (negb _); [reflexivity|]].
    + pose proof (read_history_keeps_file limit None d) as Hr.
      destruct (read_history limit None d) as [[e|items] d']; exact Hr.
    + pose proof (read_history_keeps_file limit (Some [k]) d) as Hr.
      destruct (read_history limit (Some [k]) d) as [[e|items] d']; exact Hr.
  - pose proof (read_history_keeps_file limit None d) as Hr.
    destruct (read_history limit None d) as [[e|items] d']; exact Hr.
Qed.

(** The schema is an invariant of the service: it holds of the file of a
    first start once [init_db] has run, and every handler keeps it. *)
Lemma handlers_keep_schema now d :
  wf_db d = true ->
  wf_db (snd (init_db now d)) = true
  /\ wf_db (snd (get_state d)) = true
  /\ (forall body, wf_db (snd (post_state now body d)) = true)
  /\ (forall req who, wf_db (snd (post_comm now req who d)) = true)
  /\ (forall limit kind, wf_db (snd (history limit kind d)) = true).
Proof.
  intros Hwf. split; [now apply init_db_wf|]. split; [|split; [|split]].
  - now rewrite get_state_keeps_file.
  - intros body. unfold post_state.
    destruct (StateUpdate_validate body) as [e|payload]; [exact Hwf|].
    unfold update_state.
    destruct (StateUpdate_dict payload) as [|kv rest] eqn:E; [exact Hwf|].
    rewrite <- E. now apply update_state_in_db_wf.
  - intros req who. unfold post_comm, comm.
    destruct (negb _); [exact Hwf|].
    pose proof (append_history_record_wf now "comm"
                  (Some (if match who with Some w => w | None => 1 end =? 0
                         then "krzys" else "user"))
                  [("message", PStr (message req))] d Hwf) as H.
    destruct (append_history_record _ _ _ _ d) as [[e|ts] d']; exact H.
  - intros limit kind. now rewrite history_keeps_file.
Qed.

Lemma fetch_row_modelled r e : fetch_row r = inl e -> modelled e = true.
Proof.
  unfold fetch_row.
  repeat match goal with
         | |- context [if ?b then _ else _] => destruct b
         end; intros H; inversion H; reflexivity.
Qed.

Lemma fetched_modelled sel e : fetched sel = inl e -> modelled e = true.
Proof.
  unfold fetched. induction sel as [|r rest IH]; [discriminate|].
  cbn. destruct (fetch_row r) as [e1|r1] eqn:E.
  - intros H; inversion H; subst. now apply fetch_row_modelled in E.
  - destruct (fetchall rest) as [e2|rest']; [|discriminate].
    intros H; inversion H; subst. now apply IH.
Qed.

(** No handler raises [Unmodelled]: the values that reach a column have the
    storage class of its declared type. *)
Lemma handlers_within_model now d :
  within_model (init_db now d)
  /\ within_model (get_state d)
  /\ (forall body, within_model (post_state now body d))
  /\ (forall req who, within_model (post_comm now req who d))
  /\ (forall limit kind, within_model (history limit kind d)).
Proof.
  unfold within_model. split; [now rewrite init_db_run|].
  split; [|split; [|split]].
  - unfold get_state. destruct (state_table d) as [rows|] eqn:Hst.
    + rewrite (get_state_from_db_run d rows Hst).
      destruct (find is_row_1 rows) as [row|]; [|reflexivity].
      destruct (negb (utf8_ok (st_mood row))); [reflexivity|].
      now destruct (negb (utf8_ok (st_last_updated row))).
    + unfold get_state_from_db, with_conn, sql_select_state, bind. cbn.
      now rewrite Hst.
  - intros body. unfold post_state.
    destruct (StateUpdate_validate body) as [e|payload] eqn:Hv.
    + unfold StateUpdate_validate in Hv.
      destruct (energy_ok body), (heart_rate_ok body); cbn in Hv;
        inversion Hv; reflexivity.
    + unfold update_state.
      destruct (StateUpdate_dict payload) as [|kv rest] eqn:E; [reflexivity|].
      rewrite <- E.
      destruct (update_state_in_db now (StateUpdate_dict payload) d)
        as [[e|rec] d'] eqn:Hu; [|exact I].
      cbn. revert Hu. rewrite update_state_in_db_run.
      destruct (state_table d) as [rows|];
        [|intros H; inversion H; reflexivity].
      destruct (find is_row_1 rows) as [row|];
        [|intros H; inversion H; reflexivity].
      destruct (negb (utf8_ok (st_mood row)));
        [intros H; inversion H; reflexivity|].
      cbv zeta.
      destruct (update_error _ _ _ _) eqn:Hu.
      { intros H; inversion H; subst. unfold update_error in Hu.
        repeat match type of Hu with
               | context [if ?b then _ else _] => destruct b
               end; inversion Hu; reflexivity. }
      destruct (dumps_error _ _) eqn:Hd.
      { intros H; inversion H; subst.
        apply dumps_error_status in Hd as [-> | ->]; reflexivity. }
      destruct (history_table d) as [hrows|];
        [|intros H; inversion H; reflexivity].
      destruct (insert_error _ _ _ _ _) eqn:Hi;
        intros H; inversion H; subst. unfold insert_error in Hi.
      repeat match type of Hi with
             | context [if ?b then _ else _] => destruct b
             end; inversion Hi; reflexivity.
  - intros req who. rewrite post_comm_cases. cbv zeta.
    destruct (negb _); [reflexivity|].
    destruct (dumps_error _ _) eqn:Hd.
    { cbn. apply dumps_error_status in Hd as [-> | ->]; reflexivity. }
    destruct (history_table d) as [rows|]; [|reflexivity].
    destruct (insert_error _ _ _ _ _) eqn:Hi; [|exact I].
    cbn. unfold insert_error in Hi.
    repeat match type of Hi with
           | context [if ?b then _ else _] => destruct b
           end; inversion Hi; reflexivity.
  - intros limit kind. unfold history.
    assert (forall types,
              match fst (read_history limit types d) with
              | inl e => modelled e = true
              | inr _ => True
              end) as Hr.
    { intros types. rewrite read_history_cases.
      destruct (history_table d); [|reflexivity].
      destruct (negb (types_ok types)); [reflexivity|].
      assert (forall sel, match fst (fetched sel, d) with
                          | inl e => modelled e = true
                          | inr _ => True
                          end) as Hf.
      { intros sel. cbn. destruct (fetched sel) eqn:E; [|exact I].
        now apply fetched_modelled in E. }
      destruct limit as [n|]; [|apply Hf].
      destruct ((n =? 0) || in_int64 n); [apply Hf | reflexivity]. }
    destruct kind as [k|].
    + destruct (String.eqb k ""); [|destruct (negb _); [reflexivity|]].
      * specialize (Hr None).
        now destruct (read_history limit None d) as [[e|items] d'].
      * specialize (Hr (Some [k])).
        now destruct (read_history limit (Some [k]) d) as [[e|items] d'].
    + specialize (Hr None).
      now destruct (read_history limit None d) as [[e|items] d'].
Qed.

(** * Further properties of the service *)

(** ** Outcomes of the handlers *)

Lemma get_state_cases d :
  get_state d =
  match state_table d with
  | None => (inl (no_such_table "state"), d)
  | Some rows =>
      (match find is_row_1 rows with
       | Some row =>
           if negb (utf8_ok (st_mood row)) then inl (decode_failed "mood")
           else if negb (utf8_ok (st_last_updated row))
           then inl (decode_failed "last_updated")
           else
             inr [("energy", PInt (st_energy row));
                  ("heart_rate", PInt (st_heart_rate row));
                  ("temperature", PFloat (st_temperature row));
                  ("mood", PStr (st_mood row));
                  ("updated_at", PStr (st_last_updated row))]
       | None => inl (RuntimeError "State missing")
       end, d)
  end.
Proof.
  unfold get_state. destruct (state_table d) as [rows|] eqn:Hst.
  - now apply get_state_from_db_run.
  - unfold get_state_from_db, with_conn, sql_select_state, bind. cbn.
    now rewrite Hst.
Qed.

Lemma history_cases limit kind d :
  history limit kind d =
  match kind with
  | Some k =>
      if negb (String.eqb k "")
         && negb (String.eqb k "state" || String.eqb k "comm")
      then (inl (HTTPException 400 "kind musi być 'state' lub 'comm'"), d)
      else
        match read_history limit (kind_types kind) d with
        | (inr items, d') =>
            (inr [("count", PInt (Z.of_nat (List.length items)));
                  ("items", PList (map PDict items))], d')
        | (inl e, d') => (inl e, d')
        end
  | None =>
      match read_history limit None d with
      | (inr items, d') =>
          (inr [("count", PInt (Z.of_nat (List.length items)));
                ("items", PList (map PDict items))], d')
      | (inl e, d') => (inl e, d')
      end
  end.
Proof.
  unfold history, kind_types. destruct kind as [k|]; [|reflexivity].
  destruct (String.eqb k ""); cbn [negb andb]; [reflexivity|].
  destruct (negb (String.eqb k "state" || String.eqb k "comm")); reflexivity.
Qed.

(** Every outcome of [POST /state]. *)
Lemma post_state_cases now body d :
  post_state now body d =
  match StateUpdate_validate body with
  | inl e => (inl e, d)
  | inr payload =>
      match StateUpdate_dict payload with
      | [] => (inl (HTTPException 400 "Brak pól do zaktualizowania"), d)
      | _ :: _ => update_state_in_db now (StateUpdate_dict payload) d
      end
  end.
Proof.
  unfold post_state, update_state.
  destruct (StateUpdate_validate body) as [e|payload]; [reflexivity|].
  now destruct (StateUpdate_dict payload).
Qed.

(** ** One request *)

(** A [POST /state] that is answered is a body that passed validation,
    not empty, handled by [update_state_in_db]. *)
Lemma post_state_inr now body d rec d' :
  post_state now body d = (inr rec, d') ->
  StateUpdate_validate body = inr body
  /\ StateUpdate_dict body <> []
  /\ update_state_in_db now (StateUpdate_dict body) d = (inr rec, d').
Proof.
  rewrite post_state_cases.
  destruct (StateUpdate_validate body) as [e|payload] eqn:Hv; [discriminate|].
  assert (payload = body) as ->.
  { unfold StateUpdate_validate in Hv.
    destruct (_ ++ _)%list; [now inversion Hv | discriminate]. }
  destruct (StateUpdate_dict body) as [|kv rest] eqn:E; [discriminate|].
  intros H. split; [reflexivity|]. split; [discriminate | exact H].
Qed.

Lemma post_state_run now body d :
  StateUpdate_validate body = inr body -> StateUpdate_dict body <> [] ->
  post_state now body d = update_state_in_db now (StateUpdate_dict body) d.
Proof.
  intros Hv Hn. rewrite post_state_cases, Hv.
  destruct (StateUpdate_dict body); [now contradiction Hn | reflexivity].
Qed.

Lemma post_state_failure now body d e d' :
  post_state now body d = (inl e, d') -> d' = d.
Proof.
  rewrite post_state_cases.
  destruct (StateUpdate_validate body) as [e0|payload];
    [intros H; now inversion H|].
  destruct (StateUpdate_dict payload) as [|kv rest] eqn:E;
    [intros H; now inversion H|].
  rewrite <- E. apply update_state_in_db_failure.
Qed.

Lemma post_comm_failure now req who d e d' :
  post_comm now req who d = (inl e, d') -> d' = d.
Proof.
  rewrite post_comm_cases. cbv zeta.
  destruct (negb _); [intros H; now inversion H|].
  destruct (dumps_error _ _); [intros H; now inversion H|].
  destruct (history_table d); [|intros H; now inversion H].
  destruct (insert_error _ _ _ _ _); intros H; now inversion H.
Qed.

Lemma unsaved_keeps_file (r : request) (d : db) :
  saved r d = false -> snd (serve r d) = d.
Proof.
  unfold saved. destruct r as [|now body|now req who|limit kind]; cbn [serve].
  - intros _. apply get_state_keeps_file.
  - destruct (post_state now body d) as [[e|rec] d'] eqn:H; [|discriminate].
    intros _. cbn. now apply post_state_failure in H.
  - destruct (post_comm now req who d) as [[e|rec] d'] eqn:H; [|discriminate].
    intros _. cbn. now apply post_comm_failure in H.
  - intros _. apply history_keeps_file.
Qed.

(** X1: a request changes the file only when it is a [POST] that is
    answered without an exception.  Both [GET] handlers, whatever they
    return, and every handler that raises, whatever it raises, leave the
    whole file as it was. *)
Theorem serve_unsaved_keeps_file (r : request) (d : db) :
  saved r d = false -> snd (serve r d) = d.
Proof. exact (unsaved_keeps_file r d). Qed.

Lemma entry_ok_comm id w content ts :
  w = "krzys" \/ w = "user" ->
  entry_ok (mk_history_row id "comm" (Some w) content ts) = true.
Proof. intros [-> | ->]; reflexivity. Qed.

(** What a request that writes has written. *)
Lemma serve_saved r d :
  saved r d = true ->
  exists rows x,
    history_table d = Some rows
    /\ history_table (snd (serve r d)) = Some (rows ++ [x])%list
    /\ history_seq (snd (serve r d)) = next_id d rows
    /\ h_id x = next_id d rows
    /\ entry_ok x = true
    /\ row_decodes x = true
    /\ ((exists now req who,
           r = PostComm now req who
           /\ state_table (snd (serve r d)) = state_table d
           /\ h_type x = "comm")
        \/ (exists now body rows0 row,
              r = PostState now body
              /\ state_table d = Some rows0
              /\ find is_row_1 rows0 = Some row
              /\ state_table (snd (serve r d)) =
                 Some (updated_rows rows0
                         (or_else (energy body) (st_energy row))
                         (or_else (heart_rate body) (st_heart_rate row))
                         (stored_real
                            (or_else (temperature body) (st_temperature row)))
                         (or_else (mood body) (st_mood row))
                         (utc_stamp now))
              /\ in_int64 (or_else (energy body) (st_energy row)) = true
              /\ in_int64 (or_else (heart_rate body) (st_heart_rate row))
                 = true
              /\ PrimFloat.is_nan
                   (or_else (temperature body) (st_temperature row)) = false
              /\ utf8_ok (or_else (mood body) (st_mood row)) = true
              /\ h_type x = "state"
              /\ h_ts x = utc_stamp now)).
Proof.
  unfold saved. destruct r as [|now body|now req who|limit kind]; cbn [serve];
    try discriminate.
  - destruct (post_state now body d) as [[e|rec] d'] eqn:H; [discriminate|].
    intros _. apply post_state_inr in H as (_ & _ & H).
    apply update_state_in_db_success in H
      as (rows & row & hrows & Hst & Hrow & Hh & H).
    cbv zeta in H.
    destruct H as (_ & (E1 & E2 & E4 & E3) & _ & Htext & _ & _ & ->).
    eexists hrows, _. cbn [snd history_table history_seq state_table].
    split; [exact Hh|]. split; [reflexivity|]. split; [reflexivity|].
    split; [reflexivity|]. split; [reflexivity|].
    split.
    { unfold row_decodes. cbn [h_type h_who h_content h_ts].
      now rewrite Htext, utf8_ok_utc_stamp. }
    right. exists now, body, rows, row.
    repeat split; assumption.
  - rewrite post_comm_cases. cbv zeta.
    destruct (negb _); [discriminate|].
    destruct (dumps_error _ _); [discriminate|].
    destruct (history_table d) as [rows|] eqn:Hh; [|discriminate].
    destruct (insert_error _ _ _ _ _) eqn:Hi; [discriminate|].
    apply insert_error_none in Hi as (_ & Hw & Htext & _).
    intros _. eexists rows, _.
    cbn [fst snd history_table history_seq state_table set_history_table].
    split; [reflexivity|]. split; [reflexivity|]. split; [reflexivity|].
    split; [reflexivity|].
    split.
    { apply entry_ok_comm. destruct (_ =? 0); auto. }
    split.
    { unfold row_decodes. cbn [h_type h_who h_content h_ts].
      now rewrite Hw, Htext, utf8_ok_utc_stamp. }
    left. exists now, req, who. repeat split.
Qed.

(** ** Sequences of requests *)

Lemma serve_all_app rs1 rs2 d :
  serve_all (rs1 ++ rs2) d = serve_all rs2 (serve_all rs1 d).
Proof.
  revert d. induction rs1 as [|r rs1 IH]; intros d; cbn; [reflexivity|].
  apply IH.
Qed.

Lemma history_appended (rs : list request) (d : db)
    (rows : list history_row) :
  history_table d = Some rows ->
  exists added,
    history_table (serve_all rs d) = Some (rows ++ added)%list
    /\ List.length added = saves rs d
    /\ StronglySorted Z.lt (map h_id added)
    /\ (forall x y, In x added -> In y rows -> h_id y < h_id x).
Proof.
  revert d rows. induction rs as [|r rs IH]; intros d rows Hh.
  - exists []. cbn. rewrite app_nil_r.
    repeat split; [exact Hh | constructor | intros x y []].
  - cbn [serve_all saves]. destruct (saved r d) eqn:Hs.
    + destruct (serve_saved r d Hs)
        as (rows' & x & Hh' & Hh1 & _ & Hid & _).
      rewrite Hh in Hh'. inversion Hh'; subst rows'.
      destruct (IH _ _ Hh1) as (added & Ha & Hlen & Hsorted & Hgt).
      exists (x :: added). rewrite Ha, <- app_assoc. cbn.
      split; [reflexivity|]. split; [now rewrite Hlen|].
      split.
      * constructor; [exact Hsorted|].
        apply Forall_forall. intros i Hi.
        apply in_map_iff in Hi as [z [<- Hz]].
        apply Hgt; [exact Hz|]. apply in_or_app. right. now left.
      * intros z y [<-|Hz] Hy.
        -- rewrite Hid. now apply next_id_fresh.
        -- apply Hgt; [exact Hz|]. apply in_or_app. now left.
    + rewrite (unsaved_keeps_file r d Hs).
      destruct (IH d rows Hh) as (added & Ha & Hlen & Hsorted & Hgt).
      exists added. repeat split; assumption.
Qed.

(** X2: the history is append-only.  Whatever requests are served, the rows
    that the history table held before are still there afterwards,
    unchanged and in the same places; one row has been added for each
    [POST] that was answered without an exception and none otherwise; and
    the ids of the added rows increase in the order of insertion and exceed
    every id that was there before. *)
Theorem serve_all_appends (rs : list request) (d : db)
    (rows : list history_row) :
  history_table d = Some rows ->
  exists added,
    history_table (serve_all rs d) = Some (rows ++ added)%list
    /\ List.length added = saves rs d
    /\ StronglySorted Z.lt (map h_id added)
    /\ (forall x y, In x added -> In y rows -> h_id y < h_id x).
Proof. exact (history_appended rs d rows). Qed.

(** ** A service that has started *)

Lemma updated_rows_decode rows e h t m ts :
  utf8_ok m = true -> utf8_ok ts = true ->
  forallb (state_row_decodes true) rows = true ->
  forallb (state_row_decodes true) (updated_rows rows e h t m ts) = true.
Proof.
  intros Hm Hts Hok. unfold updated_rows.
  rewrite forallb_forall in Hok |- *. intros r Hr.
  apply in_map_iff in Hr as [r0 [<- Hr0]].
  destruct (is_row_1 r0); [|now apply Hok].
  unfold state_row_decodes. cbn. now rewrite Hm, Hts.
Qed.

(** What [sqlite3] writes into the file decodes. *)
Lemma serve_text_ok r d : db_text_ok d = true -> db_text_ok (snd (serve r d)) = true.
Proof.
  intros Hok. destruct (saved r d) eqn:Hs.
  - destruct (serve_saved r d Hs)
      as (rows & x & Hh & Hh1 & _ & _ & _ & Hx & Hcase).
    unfold db_text_ok in *. rewrite Hh in Hok. rewrite Hh1.
    apply andb_true_iff in Hok as [Hst Hrows].
    rewrite forallb_app, Hrows. cbn [forallb]. rewrite Hx. cbn [andb].
    rewrite andb_true_r.
    destruct Hcase as [(now & req & who & _ & Hst' & _)
                      |(now & body & rows0 & row0 & _ & Hst0 & _ & Hst'
                        & _ & _ & _ & Hm & _)].
    + now rewrite Hst'.
    + rewrite Hst'. rewrite Hst0 in Hst.
      apply updated_rows_decode;
        [exact Hm | apply utf8_ok_utc_stamp | exact Hst].
  - now rewrite (unsaved_keeps_file r d Hs).
Qed.

Lemma started_text_ok now d0 :
  db_text_ok d0 = true -> db_text_ok (started now d0) = true.
Proof.
  intros Hok. unfold started. rewrite init_db_run.
  unfold db_text_ok in *. cbn [snd state_table history_table].
  apply andb_true_iff in Hok as [Hs Hh]. apply andb_true_iff. split.
  - destruct (state_table d0) as [[|r rows]|]; [|exact Hs|];
      unfold default_row, state_row_decodes;
      cbn [forallb st_mood st_last_updated negb orb];
      now rewrite utf8_ok_utc_stamp.
  - now destruct (history_table d0).
Qed.

Lemma started_ready now d0 :
  wf_db d0 = true -> db_text_ok d0 = true -> ready (started now d0).
Proof.
  intros Hwf Hok. unfold ready. split; [now apply init_db_wf|].
  split; [now apply started_text_ok|].
  unfold started. rewrite init_db_run. cbn. split; [|eauto].
  destruct (state_table d0) as [rows|] eqn:Hst; [|eauto].
  destruct (wf_state_rows d0 rows Hwf Hst) as [->|[r [-> _]]]; eauto.
Qed.

Lemma ready_row d r :
  wf_db d = true -> state_table d = Some [r] ->
  find is_row_1 [r] = Some r /\ state_row_ok r = true.
Proof.
  intros Hwf Hst.
  destruct (wf_state_rows d [r] Hwf Hst) as [H|[r' [H Hok]]];
    [discriminate|].
  inversion H; subst r'. split; [|exact Hok].
  cbn. now rewrite (state_row_ok_id r Hok).
Qed.

Lemma ready_decodes d r :
  db_text_ok d = true -> state_table d = Some [r] ->
  state_row_decodes true r = true.
Proof.
  unfold db_text_ok. intros H Hst. rewrite Hst in H.
  apply andb_true_iff in H as [H _]. cbn in H.
  now apply andb_true_iff in H as [H _].
Qed.

Lemma ready_history d rows :
  db_text_ok d = true -> history_table d = Some rows ->
  forallb row_decodes rows = true.
Proof.
  unfold db_text_ok. intros H Hh. rewrite Hh in H.
  now apply andb_true_iff in H as [_ H].
Qed.

Lemma serve_wf r d : wf_db d = true -> wf_db (snd (serve r d)) = true.
Proof.
  intros Hwf. destruct r as [|now body|now req who|limit kind]; cbn [serve].
  - now rewrite get_state_keeps_file.
  - apply (handlers_keep_schema now d Hwf).
  - apply (handlers_keep_schema now d Hwf).
  - now rewrite history_keeps_file.
Qed.

Lemma serve_ready r d : ready d -> ready (snd (serve r d)).
Proof.
  intros (Hwf & Hok & [row Hst] & [rows Hh]).
  split; [now apply serve_wf|]. split; [now apply serve_text_ok|].
  destruct (saved r d) eqn:Hs.
  - destruct (serve_saved r d Hs)
      as (rows' & x & _ & Hh1 & _ & _ & _ & _ & Hcase).
    split; [|eauto].
    destruct Hcase as [(now & req & who & _ & Hst' & _)
                      |(now & body & rows0 & row0 & _ & Hst0 & _ & Hst' & _)].
    + rewrite Hst', Hst. eauto.
    + rewrite Hst in Hst0. inversion Hst0; subst rows0.
      rewrite Hst'. unfold updated_rows. cbn. eauto.
  - rewrite (unsaved_keeps_file r d Hs). split; eauto.
Qed.

Lemma serve_all_ready rs d : ready d -> ready (serve_all rs d).
Proof.
  revert d. induction rs as [|r rs IH]; intros d H; [exact H|].
  cbn. apply IH. now apply serve_ready.
Qed.

(** With integers of 64 bits, the encoder can only fail for want of room. *)
Lemma entry_content_dumps_cases u row err :
  in_int64 (or_else (energy u) (st_energy row)) = true ->
  in_int64 (or_else (heart_rate u) (st_heart_rate row)) = true ->
  dumps_error nesting_limit (entry_content u row) = Some err ->
  err = too_deep.
Proof.
  intros He Hh.
  destruct (le_lt_dec 2 nesting_limit) as [Hn|Hn].
  - now rewrite (entry_content_dumps u row He Hh Hn).
  - unfold entry_content. rewrite dumps_error_dict.
    destruct nesting_limit as [|[|n]]; [| |lia].
    + intros H. now inversion H.
    + cbn [members_error snd]. rewrite dumps_error_dict.
      intros H. now inversion H.
Qed.

Lemma comm_content_dumps_cases m err :
  dumps_error nesting_limit (PDict [("message", PStr m)]) = Some err ->
  err = too_deep.
Proof.
  destruct nesting_limit; [|discriminate]. intros H. now inversion H.
Qed.

Lemma insert_error_cases rec_type who text d rows err :
  insert_error rec_type who text d rows = Some err ->
  err = surrogates_not_allowed \/ err = database_full.
Proof.
  unfold insert_error.
  repeat match goal with
         | |- context [if ?b then _ else _] => destruct b
         end; intros H; inversion H; auto.
Qed.

(** The exceptions of one request to a service that is ready. *)
Lemma serve_ready_errors r d e d' :
  ready d -> serve r d = (inl e, d') -> expected_error e.
Proof.
  intros (Hwf & Hok & [row Hst] & [rows Hh]).
  destruct (ready_row d row Hwf Hst) as [Hfind Hrowok].
  pose proof (ready_decodes d row Hok Hst) as Hdec.
  pose proof (ready_history d rows Hok Hh) as Hrows.
  unfold expected_error.
  destruct r as [|now body|now req who|limit kind]; cbn [serve].
  - unfold get_state.
    rewrite (get_state_from_db_ok d [row] row Hst Hfind Hdec). discriminate.
  - rewrite post_state_cases.
    destruct (StateUpdate_validate body) as [e0|payload] eqn:Hv.
    + intros H. inversion H; subst e0 d'. right. left.
      unfold StateUpdate_validate in Hv.
      destruct (_ ++ _)%list; [discriminate|]. inversion Hv. eauto.
    + destruct (StateUpdate_dict payload) as [|kv rest] eqn:E.
      { intros H. inversion H. left. eauto. }
      rewrite <- E, update_state_in_db_run, Hst, Hfind, Hh. cbv zeta.
      unfold state_row_decodes in Hdec.
      apply andb_true_iff in Hdec as [Hm _]. rewrite Hm. cbn [negb].
      destruct (update_error _ _ _ _) eqn:Hu.
      { intros H. inversion H; subst. unfold update_error in Hu.
        destruct (negb _ || negb _);
          [inversion Hu; right; right; now left|].
        destruct (negb (utf8_ok _));
          [inversion Hu; do 4 right; now left|].
        destruct (PrimFloat.is_nan _); inversion Hu.
        do 3 right. now left. }
      apply update_error_none in Hu as (E1 & E2 & _ & _).
      destruct (dumps_error _ _) eqn:Hd.
      { intros H. inversion H; subst.
        apply entry_content_dumps_cases in Hd; [|assumption..].
        do 5 right. now left. }
      destruct (insert_error _ _ _ _ _) eqn:Hi; [|discriminate].
      intros H. inversion H; subst.
      apply insert_error_cases in Hi as [-> | ->];
        [do 4 right; now left | do 6 right; reflexivity].
  - rewrite post_comm_cases, Hh. cbv zeta.
    destruct (negb _); [intros H; inversion H; left; eauto|].
    destruct (dumps_error _ _) eqn:Hd.
    { intros H. inversion H; subst.
      apply comm_content_dumps_cases in Hd. do 5 right. now left. }
    destruct (insert_error _ _ _ _ _) eqn:Hi; [|discriminate].
    intros H. inversion H; subst.
    apply insert_error_cases in Hi as [-> | ->];
      [do 4 right; now left | do 6 right; reflexivity].
  - rewrite history_cases.
    assert (forall types e0 d0,
              types_ok types = true ->
              read_history limit types d = (inl e0, d0) ->
              e0 = OverflowError
                     "Python int too large to convert to SQLite INTEGER")
      as Hr.
    { intros types e0 d0 Hty. rewrite read_history_cases, Hh, Hty.
      cbn [negb].
      rewrite (fetched_decodes _ (selected_decodes limit types rows Hrows)).
      destruct limit as [n|]; [|discriminate].
      destruct ((n =? 0) || in_int64 n); [discriminate|].
      intros H. now inversion H. }
    destruct kind as [k|].
    + destruct (negb (String.eqb k "") && _) eqn:Hk.
      { intros H. inversion H. left. eauto. }
      destruct (read_history limit (kind_types (Some k)) d)
        as [[e0|items] d0] eqn:Hread; [|discriminate].
      intros H. inversion H; subst e0 d0. right. right. left.
      apply (Hr (kind_types (Some k)) e d'); [|exact Hread].
      unfold kind_types. destruct (String.eqb_spec k ""); [reflexivity|].
      cbn [negb andb] in Hk. apply negb_false_iff in Hk.
      apply orb_true_iff in Hk as [Hk|Hk]; apply String.eqb_eq in Hk;
        subst k; reflexivity.
    + destruct (read_history limit None d) as [[e0|items] d0] eqn:Hread;
        [|discriminate].
      intros H. inversion H; subst e0 d0. right. right. left.
      now apply (Hr None e d' eq_refl).
Qed.

(** X3: once started, the service stays ready.  After [init_db] on a file
    that satisfies the schema and whose text decodes, and after any sequence
    of requests, the schema still holds, every text still decodes, the state
    table holds exactly one row and the history table exists; so
    [GET /state] returns a record with the five keys, and the only
    exceptions that a request can still raise are the 400 of a handler, the
    validation error of a request body, the [OverflowError] of an integer
    beyond 64 bits, the [IntegrityError] of a NaN temperature, the
    [UnicodeEncodeError] of a [str] with a lone surrogate, the
    [RecursionError] of an interpreter without room for the containers of
    an entry, and the [OperationalError] of a history whose ids are used
    up: never "State missing", never a missing table, never text that does
    not decode. *)
Theorem service_stays_ready (now : datetime) (d0 : db) (rs : list request) :
  wf_db d0 = true ->
  db_text_ok d0 = true ->
  let d := serve_all rs (started now d0) in
  wf_db d = true
  /\ db_text_ok d = true
  /\ (exists row, state_table d = Some [row])
  /\ (exists rows, history_table d = Some rows)
  /\ (exists rec,
        get_state d = (inr rec, d)
        /\ dict_keys rec =
           ["energy"; "heart_rate"; "temperature"; "mood"; "updated_at"])
  /\ (forall r e d', serve r d = (inl e, d') -> expected_error e).
Proof.
  intros Hwf Hok d.
  assert (ready d) as Hready
    by (apply serve_all_ready; now apply started_ready).
  destruct Hready as (Hwf' & Hok' & [row Hst] & [rows Hh]).
  split; [exact Hwf'|]. split; [exact Hok'|].
  split; [eauto|]. split; [eauto|].
  split.
  - destruct (ready_row d row Hwf' Hst) as [Hfind _].
    unfold get_state.
    rewrite (get_state_from_db_ok d [row] row Hst Hfind
               (ready_decodes d row Hok' Hst)).
    eexists. split; reflexivity.
  - intros r e d' H. apply (serve_ready_errors r d e d'); [|exact H].
    repeat split; eauto.
Qed.

(** ** The log of a service that started on a new file *)

Lemma ids_upto_S n : ids_upto (S n) = (ids_upto n ++ [Z.of_nat (S n)])%list.
Proof.
  unfold ids_upto. rewrite seq_S, map_app. reflexivity.
Qed.

Lemma ids_upto_bound n i : In i (ids_upto n) -> 1 <= i <= Z.of_nat n.
Proof.
  unfold ids_upto. intros H. apply in_map_iff in H as [k [<- Hk]].
  apply in_seq in Hk. lia.
Qed.

Lemma max_id_upto rows n :
  map h_id rows = ids_upto n -> max_id rows <= Z.of_nat n.
Proof.
  intros H.
  assert (forall r, In r rows -> h_id r <= Z.of_nat n) as Hb.
  { intros r Hr. apply (in_map h_id) in Hr. rewrite H in Hr.
    apply ids_upto_bound in Hr. lia. }
  clear H. unfold max_id. induction rows as [|r rest IH]; cbn; [lia|].
  assert (h_id r <= Z.of_nat n) by (apply Hb; now left).
  assert (fold_right Z.max 0 (map h_id rest) <= Z.of_nat n)
    by (apply IH; intros r' Hr'; apply Hb; now right).
  lia.
Qed.

Lemma started_fresh_log_ok now : log_ok (started now fresh_db).
Proof.
  exists []. unfold started. rewrite init_db_run. cbn. repeat split.
Qed.

Lemma serve_log_ok r d : log_ok d -> log_ok (snd (serve r d)).
Proof.
  intros (rows & Hh & Hids & Hseq & Hok & Hdec).
  destruct (saved r d) eqn:Hs.
  - destruct (serve_saved r d Hs)
      as (rows' & x & Hh' & Hh1 & Hseq1 & Hid & Hx & Hxd & _).
    rewrite Hh in Hh'. inversion Hh'; subst rows'.
    assert (next_id d rows = Z.of_nat (S (List.length rows))) as Hnext.
    { unfold next_id. rewrite Hseq.
      pose proof (max_id_upto rows _ Hids). lia. }
    exists (rows ++ [x])%list. split; [exact Hh1|].
    rewrite length_app. cbn [List.length]. rewrite Nat.add_1_r.
    split; [|split; [|split]].
    + rewrite map_app, ids_upto_S, Hids. cbn. now rewrite Hid, Hnext.
    + now rewrite Hseq1, Hnext.
    + rewrite forallb_app, Hok. cbn. now rewrite Hx.
    + rewrite forallb_app, Hdec. cbn. now rewrite Hxd.
  - rewrite (unsaved_keeps_file r d Hs). exists rows.
    repeat split; assumption.
Qed.

Lemma serve_all_log_ok rs d : log_ok d -> log_ok (serve_all rs d).
Proof.
  revert d. induction rs as [|r rs IH]; intros d H; [exact H|].
  cbn. apply IH. now apply serve_log_ok.
Qed.

Lemma insert_desc_smallest r rows :
  (forall x, In x rows -> h_id r < h_id x) ->
  insert_desc r rows = (rows ++ [r])%list.
Proof.
  induction rows as [|r' rest IH]; intros Hlt; cbn; [reflexivity|].
  assert ((h_id r' <=? h_id r) = false) as ->.
  { apply Z.leb_gt. apply Hlt. now left. }
  rewrite IH; [reflexivity|]. intros x Hx. apply Hlt. now right.
Qed.

(** With ids that increase in the order of insertion, newest first is the
    reverse of that order. *)
Lemma order_by_id_desc_rev rows :
  StronglySorted Z.lt (map h_id rows) -> order_by_id_desc rows = rev rows.
Proof.
  unfold order_by_id_desc.
  induction rows as [|r rest IH]; intros Hs; cbn; [reflexivity|].
  cbn in Hs. inversion Hs as [|? ? Hrest Hall]; subst.
  rewrite IH by exact Hrest. apply insert_desc_smallest.
  intros x Hx. apply in_rev in Hx. rewrite Forall_forall in Hall.
  apply Hall. now apply in_map.
Qed.

Lemma ids_upto_sorted n : StronglySorted Z.lt (ids_upto n).
Proof.
  induction n as [|n IH]; [constructor|].
  rewrite ids_upto_S.
  assert (forall l i, StronglySorted Z.lt l -> (forall j, In j l -> j < i) ->
                      StronglySorted Z.lt (l ++ [i])) as Happ.
  { induction l as [|a l IHl]; intros i Hs Hlt; cbn.
    - repeat constructor.
    - inversion Hs as [|? ? Hl Hall]; subst. constructor.
      + apply IHl; [exact Hl|]. intros j Hj. apply Hlt. now right.
      + apply Forall_app. split; [exact Hall|].
        constructor; [apply Hlt; now left | constructor]. }
  apply Happ; [exact IH|]. intros j Hj. apply ids_upto_bound in Hj. lia.
Qed.

(** X4: the log of a service that started on a new file.  After [init_db]
    on a file without tables and after any sequence of requests, the history
    holds one entry for each [POST] that was answered without an exception,
    their ids are 1, 2, ..., n in the order of insertion, and [GET /history]
    without parameters answers with that count and with the entries newest
    first, which is the reverse of the order of insertion. *)
Theorem log_of_new_service (now : datetime) (rs : list request) :
  let d0 := started now fresh_db in
  let d := serve_all rs d0 in
  exists rows,
    history_table d = Some rows
    /\ List.length rows = saves rs d0
    /\ map h_id rows = ids_upto (saves rs d0)
    /\ history None None d =
       (inr [("count", PInt (Z.of_nat (saves rs d0)));
             ("items", PList (map PDict (map history_item (rev rows))))],
        d).
Proof.
  intros d0 d.
  destruct (serve_all_log_ok rs d0 (started_fresh_log_ok now))
    as (rows & Hh & Hids & _ & _ & Hdec).
  fold d in Hh.
  assert (history_table d0 = Some []) as Hh0.
  { unfold d0, started. now rewrite init_db_run. }
  destruct (history_appended rs d0 [] Hh0) as (added & Ha & Hlen & _).
  fold d in Ha. rewrite Hh in Ha. cbn in Ha. inversion Ha; subst added.
  exists rows. split; [exact Hh|]. split; [exact Hlen|].
  split; [now rewrite <- Hlen|].
  rewrite history_cases.
  rewrite (read_history_ok None None d rows Hh eq_refl eq_refl
             (selected_decodes None None rows Hdec)).
  unfold selected. rewrite order_by_id_desc_rev.
  - now rewrite length_map, length_rev, Hlen.
  - rewrite Hids. apply ids_upto_sorted.
Qed.

Lemma entry_ok_type r :
  entry_ok r = true ->
  (h_type r = "state" /\ h_who r = None)
  \/ (h_type r = "comm" /\ (h_who r = Some "krzys" \/ h_who r = Some "user")).
Proof.
  unfold entry_ok. intros H. apply orb_true_iff in H as [H|H];
    apply andb_true_iff in H as [Ht Hw]; apply String.eqb_eq in Ht.
  - left. split; [exact Ht|]. now destruct (h_who r).
  - right. split; [exact Ht|]. destruct (h_who r) as [w|]; [|discriminate].
    apply orb_true_iff in Hw as [Hw|Hw]; apply String.eqb_eq in Hw;
      subst w; auto.
Qed.

Lemma filter_partition {A} (p q : A -> bool) l :
  (forall x, In x l -> p x = negb (q x)) ->
  (List.length (filter p l) + List.length (filter q l) = List.length l)%nat.
Proof.
  induction l as [|a l IH]; intros H; cbn; [reflexivity|].
  rewrite (H a (or_introl eq_refl)).
  specialize (IH (fun x Hx => H x (or_intror Hx))).
  destruct (q a); cbn; lia.
Qed.

(** X5: the two kinds partition the log.  On a file whose history is that
    of a service started on a new file, and after any further requests,
    every stored entry is either of type state with who NULL or of type comm
    with who "krzys" or "user"; so the count that [GET /history] answers
    without a kind is the sum of the counts that it answers for the kinds
    state and comm. *)
Theorem history_kinds_partition (rs : list request) (d0 : db) :
  log_ok d0 ->
  let d := serve_all rs d0 in
  exists rows ns nc items_s items_c items,
    history_table d = Some rows
    /\ (forall r, In r rows ->
        (h_type r = "state" /\ h_who r = None)
        \/ (h_type r = "comm"
            /\ (h_who r = Some "krzys" \/ h_who r = Some "user")))
    /\ history None (Some "state") d =
       (inr [("count", PInt (Z.of_nat ns)); ("items", items_s)], d)
    /\ history None (Some "comm") d =
       (inr [("count", PInt (Z.of_nat nc)); ("items", items_c)], d)
    /\ history None None d =
       (inr [("count", PInt (Z.of_nat (ns + nc))); ("items", items)], d).
Proof.
  intros H0 d.
  destruct (serve_all_log_ok rs d0 H0) as (rows & Hh & _ & _ & Hok & Hdec).
  fold d in Hh. rewrite forallb_forall in Hok.
  exists rows. eexists _, _, _, _, _.
  split; [exact Hh|].
  split; [intros r Hr; apply entry_ok_type; now apply Hok|].
  rewrite !history_cases. cbn [String.eqb negb andb orb kind_types].
  rewrite (read_history_ok None (Some ["state"]) d rows Hh eq_refl eq_refl
             (selected_decodes _ _ rows Hdec)).
  rewrite (read_history_ok None (Some ["comm"]) d rows Hh eq_refl eq_refl
             (selected_decodes _ _ rows Hdec)).
  rewrite (read_history_ok None None d rows Hh eq_refl eq_refl
             (selected_decodes _ _ rows Hdec)).
  unfold selected.
  rewrite !length_map, !order_by_id_desc_length.
  split; [reflexivity|]. split; [reflexivity|].
  rewrite filter_partition; [reflexivity|].
  intros r Hr. destruct (entry_ok_type r (Hok r Hr)) as [[Ht _]|[Ht _]];
    unfold type_in; cbn; rewrite Ht; reflexivity.
Qed.

(** ** The stamp of the state row *)

Lemma latest_state_ts_app rows x :
  latest_state_ts (rows ++ [x]) =
  if String.eqb (h_type x) "state" then Some (h_ts x)
  else latest_state_ts rows.
Proof.
  unfold latest_state_ts. rewrite rev_app_distr. cbn.
  now destruct (String.eqb (h_type x) "state").
Qed.

Lemma serve_stamp_ok seed r d :
  stamp_ok seed d -> stamp_ok seed (snd (serve r d)).
Proof.
  intros (row & rows & Hst & Hh & Hstamp).
  destruct (saved r d) eqn:Hs.
  - destruct (serve_saved r d Hs)
      as (rows' & x & Hh' & Hh1 & _ & _ & _ & _ & Hcase).
    rewrite Hh in Hh'. inversion Hh'; subst rows'.
    destruct Hcase as [(now & req & who & _ & Hst' & Hty)
                      |(now & body & rows0 & row0 & _ & Hst0 & Hfind & Hst'
                        & _ & _ & _ & _ & Hty & Hts)].
    + exists row, (rows ++ [x])%list. rewrite Hst', Hst.
      split; [reflexivity|]. split; [exact Hh1|].
      now rewrite latest_state_ts_app, Hty.
    + rewrite Hst in Hst0. inversion Hst0; subst rows0.
      cbn in Hfind. destruct (is_row_1 row) eqn:H1; [|discriminate].
      inversion Hfind; subst row0.
      eexists _, (rows ++ [x])%list. rewrite Hst'. unfold updated_rows.
      cbn. rewrite H1. split; [reflexivity|]. split; [exact Hh1|].
      cbn. now rewrite latest_state_ts_app, Hty, Hts.
  - rewrite (unsaved_keeps_file r d Hs). exists row, rows.
    repeat split; assumption.
Qed.

Lemma serve_all_stamp_ok seed rs d :
  stamp_ok seed d -> stamp_ok seed (serve_all rs d).
Proof.
  revert d. induction rs as [|r rs IH]; intros d H; [exact H|].
  cbn. apply IH. now apply serve_stamp_ok.
Qed.

(** X6: the state and its history agree on the time of the last update.
    After [init_db] at the clock reading [now] on a file without tables and
    after any sequence of requests, the updated_at that [GET /state] returns
    is the ts of the newest history entry of type state, and the stamp of
    [now] as long as no update has been recorded. *)
Theorem updated_at_is_newest_state_ts (now : datetime) (rs : list request) :
  let d := serve_all rs (started now fresh_db) in
  exists rec rows,
    get_state d = (inr rec, d)
    /\ history_table d = Some rows
    /\ dict_get rec "updated_at"
       = Some (PStr (or_else (latest_state_ts rows) (isoformat now ++ "Z"))).
Proof.
  intros d.
  assert (stamp_ok (utc_stamp now) (started now fresh_db)) as H0.
  { exists (default_row now), []. unfold started. rewrite init_db_run.
    repeat split. }
  destruct (serve_all_stamp_ok _ rs _ H0) as (row & rows & Hst & Hh & Hstamp).
  fold d in Hst, Hh.
  assert (ready d) as (Hwf & Hok & _ & _)
    by (apply serve_all_ready; now apply started_ready).
  destruct (ready_row d row Hwf Hst) as [Hfind _].
  unfold get_state.
  rewrite (get_state_from_db_ok d [row] row Hst Hfind
             (ready_decodes d row Hok Hst)).
  eexists _, rows. split; [reflexivity|]. split; [exact Hh|].
  cbn. now rewrite Hstamp.
Qed.

(** X7: only [POST /state] changes the state.  Any other request, whatever
    its outcome, leaves the state table as it was, so [GET /state] answers
    after it what it answered before. *)
Theorem serve_keeps_state (r : request) (d : db) :
  (forall now body, r <> PostState now body) ->
  state_table (snd (serve r d)) = state_table d
  /\ fst (get_state (snd (serve r d))) = fst (get_state d).
Proof.
  intros Hr.
  assert (state_table (snd (serve r d)) = state_table d) as Hst.
  { destruct (saved r d) eqn:Hs.
    - destruct (serve_saved r d Hs)
        as (rows & x & _ & _ & _ & _ & _ & _ & Hcase).
      destruct Hcase as [(now & req & who & _ & Hst' & _)
                        |(now & body & rows0 & row0 & E & _)].
      + exact Hst'.
      + now contradiction (Hr now body).
    - now rewrite (unsaved_keeps_file r d Hs). }
  split; [exact Hst|].
  rewrite !get_state_cases, Hst. now destruct (state_table d).
Qed.

(** ** Two updates in a row *)

Lemma or_else_over {A} (later earlier : option A) (a : A) :
  or_else match later with Some x => Some x | None => earlier end a
  = or_else later (or_else earlier a).
Proof. now destruct later. Qed.

Lemma updated_rows_twice rows e1 h1 t1 m1 ts1 e2 h2 t2 m2 ts2 :
  updated_rows (updated_rows rows e1 h1 t1 m1 ts1) e2 h2 t2 m2 ts2
  = updated_rows rows e2 h2 t2 m2 ts2.
Proof.
  unfold updated_rows. rewrite map_map. apply map_ext. intros r.
  destruct (is_row_1 r) eqn:H1; [|now rewrite H1].
  unfold is_row_1 in *. cbn. now rewrite H1.
Qed.

Lemma StateUpdate_over_valid later earlier :
  StateUpdate_validate later = inr later ->
  StateUpdate_validate earlier = inr earlier ->
  StateUpdate_validate (StateUpdate_over later earlier)
  = inr (StateUpdate_over later earlier).
Proof.
  rewrite !StateUpdate_validate_ok. intros [E2 H2] [E1 H1].
  unfold energy_ok, heart_rate_ok, StateUpdate_over in *. cbn.
  split; [destruct (energy later) | destruct (heart_rate later)]; assumption.
Qed.

Lemma StateUpdate_over_nonempty later earlier :
  StateUpdate_dict later <> [] ->
  StateUpdate_dict (StateUpdate_over later earlier) <> [].
Proof.
  destruct later as [[e|] [h|] [t|] [m|]],
           earlier as [[e'|] [h'|] [t'|] [m'|]]; cbn; intros H;
    first [discriminate | now contradiction H].
Qed.

Lemma over_energy later earlier a :
  or_else (energy (StateUpdate_over later earlier)) a
  = or_else (energy later) (or_else (energy earlier) a).
Proof. apply or_else_over. Qed.

Lemma over_heart_rate later earlier a :
  or_else (heart_rate (StateUpdate_over later earlier)) a
  = or_else (heart_rate later) (or_else (heart_rate earlier) a).
Proof. apply or_else_over. Qed.

Lemma over_temperature later earlier a :
  or_else (temperature (StateUpdate_over later earlier)) a
  = or_else (temperature later) (or_else (temperature earlier) a).
Proof. apply or_else_over. Qed.

Lemma over_mood later earlier a :
  or_else (mood (StateUpdate_over later earlier)) a
  = or_else (mood later) (or_else (mood earlier) a).
Proof. apply or_else_over. Qed.

(** An entry that was encoded had room for its two containers. *)
Lemma entry_content_room u row :
  dumps_error nesting_limit (entry_content u row) = None ->
  (2 <= nesting_limit)%nat.
Proof.
  unfold entry_content. rewrite dumps_error_dict.
  destruct nesting_limit as [|[|n]]; [discriminate | | lia].
  cbn [members_error snd]. rewrite dumps_error_dict. discriminate.
Qed.

(** X8: two updates in a row amount to one.  When [POST /state] with the
    body [u1] is answered with a record and [POST /state] with the body
    [u2] is then answered with a record, a single [POST /state] with [u2]
    laid over [u1], made on the first file at the time of the second
    request, is answered too (float text being ASCII) and leaves the same
    state table, so [GET /state] answers the same after both: for each
    field the later body wins, then the earlier, then the stored value.
    The record of the single request agrees with the last record of the two
    on every key but temperature; there the second request of the two has
    read what SQLite stored, so when [u2] gives no temperature its record
    holds [stored_real] of the temperature in the record of the single
    request (0.0 where that one holds -0.0), and the same float when [u2]
    gives one.  (The two requests leave two history entries, the single one
    leaves one.) *)
Theorem post_state_twice (now1 now2 : datetime) (u1 u2 : StateUpdate)
    (d d1 d2 : db) (rec1 rec2 : dict) :
  float_repr_ascii ->
  post_state now1 u1 d = (inr rec1, d1) ->
  post_state now2 u2 d1 = (inr rec2, d2) ->
  exists rec' d',
    post_state now2 (StateUpdate_over u2 u1) d = (inr rec', d')
    /\ state_table d' = state_table d2
    /\ fst (get_state d') = fst (get_state d2)
    /\ (forall k, k <> "temperature" -> dict_get rec' k = dict_get rec2 k)
    /\ (exists t' t2,
          dict_get rec' "temperature" = Some (PFloat t')
          /\ dict_get rec2 "temperature" = Some (PFloat t2)
          /\ t2 = match temperature u2 with
                  | Some _ => t'
                  | None => stored_real t'
                  end)
    /\ (forall k v, dict_get (StateUpdate_dict u2) k = Some v ->
        dict_get rec' k = Some v /\ dict_get rec2 k = Some v)
    /\ (forall k v, dict_get (StateUpdate_dict u2) k = None ->
        dict_get (StateUpdate_dict u1) k = Some v ->
        dict_get rec' k = Some v).
Proof.
  intros Hascii H1 H2.
  apply post_state_inr in H1 as (Hv1 & Hn1 & H1).
  apply post_state_inr in H2 as (Hv2 & Hn2 & H2).
  apply update_state_in_db_success in H1
    as (rows & row & hrows & Hst & Hrow & Hh & H1).
  cbv zeta in H1.
  destruct H1 as (Hmood & (A1 & A2 & A3 & A4) & Hroom & _ & Hid & -> & ->).
  apply entry_content_room in Hroom.
  apply update_state_in_db_success in H2
    as (rows1 & row1 & hrows1 & Hst1 & Hrow1 & Hh1 & H2).
  cbn [state_table history_table] in Hst1, Hh1.
  inversion Hst1; subst rows1. clear Hst1.
  rewrite (find_updated_rows rows row _ _ _ _ _ Hrow) in Hrow1.
  inversion Hrow1; subst row1. clear Hrow1.
  cbv zeta in H2.
  cbn [st_energy st_heart_rate st_temperature st_mood] in H2.
  destruct H2 as (_ & (B1 & B2 & B3 & B4) & _ & _ & _ & -> & ->).
  assert (PrimFloat.is_nan
            (or_else (temperature u2)
               (or_else (temperature u1) (st_temperature row))) = false)
    as B4'.
  { destruct (temperature u2); [exact B4 | exact A4]. }
  assert (stored_real
            (or_else (temperature u2)
               (or_else (temperature u1) (st_temperature row)))
          = stored_real
              (or_else (temperature u2)
                 (stored_real
                    (or_else (temperature u1) (st_temperature row)))))
    as Hstored.
  { destruct (temperature u2); cbn [or_else];
      [reflexivity | now rewrite stored_real_twice]. }
  rewrite (post_state_run now2 _ d (StateUpdate_over_valid u2 u1 Hv2 Hv1)
             (StateUpdate_over_nonempty u2 u1 Hn2)).
  rewrite update_state_in_db_run, Hst, Hrow, Hh, Hmood. cbv zeta.
  cbn [negb].
  rewrite !over_energy, !over_heart_rate, !over_temperature, !over_mood.
  rewrite (proj2 (update_error_none _ _ _ _)) by (repeat split; assumption).
  rewrite entry_content_dumps
    by (rewrite ?over_energy, ?over_heart_rate; assumption).
  rewrite insert_error_state;
    [|apply entry_content_utf8; [exact Hascii | now rewrite over_mood]
     |exact Hid].
  eexists _, _. split; [reflexivity|]. cbn [state_table].
  split; [now rewrite updated_rows_twice, Hstored|].
  split.
  { rewrite !get_state_cases. cbn [state_table fst].
    rewrite updated_rows_twice, Hstored.
    now destruct (find _ _). }
  unfold merged.
  rewrite !over_energy, !over_heart_rate, !over_temperature, !over_mood.
  cbn [st_energy st_heart_rate st_temperature st_mood].
  split.
  { intros k Hk. cbn -[String.eqb].
    destruct (String.eqb_spec "temperature" k) as [<-|_];
      [now contradiction Hk | reflexivity]. }
  split.
  { eexists _, _. split; [reflexivity|]. split; [reflexivity|].
    destruct (temperature u2) as [t|]; reflexivity. }
  split.
  - intros k v. destruct u2 as [[e|] [h|] [t|] [m|]];
      cbn -[String.eqb]; case_keys k; intros H;
      first [split; exact H | discriminate H].
  - intros k v.
    destruct u2 as [[e2|] [h2|] [t2|] [m2|]],
             u1 as [[e1|] [h1|] [t1|] [m1|]];
      cbn -[String.eqb]; case_keys k; intros H H';
      first [exact H' | discriminate H | discriminate H'].
Qed.

(** ** [GET /history] *)

(** X9: the handler of [GET /history].  A kind that is neither empty nor
    "state" nor "comm" is refused with [HTTPException(400)] before the store
    is read; an empty kind is handled as no kind.  Otherwise, with the
    history table present and a limit that SQLite can bind, the handler
    fetches the rows that [read_history] selects for the limit and the
    kind: it raises the [OperationalError] of the first value that does not
    decode, and else answers with the items of those rows and with [count],
    their number; with the kind "state" or "comm" every selected row is of
    that type.  The file is never changed. *)
Theorem history_handler (limit : option Z) (kind : option string) (d : db) :
  (forall k, kind = Some k -> k <> "" -> k <> "state" -> k <> "comm" ->
   exists detail,
     history limit kind d = (inl (HTTPException 400 detail), d))
  /\ history limit (Some "") d = history limit None d
  /\ snd (history limit kind d) = d
  /\ (forall rows,
        history_table d = Some rows ->
        limit_ok limit = true ->
        kind = None \/ kind = Some "" \/ kind = Some "state"
        \/ kind = Some "comm" ->
        let sel := selected limit (kind_types kind) rows in
        history limit kind d =
        (match fetched sel with
         | inr items =>
             inr [("count", PInt (Z.of_nat (List.length items)));
                  ("items", PList (map PDict items))]
         | inl e => inl e
         end, d)
        /\ (forallb row_decodes sel = true ->
            history limit kind d =
            (inr [("count", PInt (Z.of_nat (List.length sel)));
                  ("items", PList (map PDict (map history_item sel)))], d))
        /\ (forall r, In r sel -> In r rows)
        /\ (forall k, kind = Some k -> k <> "" ->
            forall r, In r sel -> h_type r = k)).
Proof.
  split; [|split; [|split]].
  - intros k -> H0 Hs Hc. rewrite history_cases.
    apply String.eqb_neq in H0, Hs, Hc. rewrite H0, Hs, Hc. cbn. eauto.
  - rewrite !history_cases. reflexivity.
  - apply history_keeps_file.
  - intros rows Hh Hl Hkind sel.
    assert (history limit kind d =
            (match fetched sel with
             | inr items =>
                 inr [("count", PInt (Z.of_nat (List.length items)));
                      ("items", PList (map PDict items))]
             | inl e => inl e
             end, d)) as Hrun.
    { rewrite history_cases. unfold sel.
      destruct Hkind as [->|[->|[->| ->]]];
        cbn [String.eqb Ascii.eqb Bool.eqb negb andb orb kind_types];
        rewrite (read_history_run limit _ d rows Hh Hl);
        unfold query_result; cbn [types_ok forallb andb];
        rewrite ?utf8_ok_ascii by reflexivity;
        now destruct (fetched _). }
    split; [exact Hrun|]. split; [|split].
    + intros Hdec. rewrite Hrun, (fetched_decodes _ Hdec).
      now rewrite length_map.
    + intros r Hr. now apply (selected_In limit (kind_types kind) rows r).
    + intros k -> Hk r Hr. unfold sel, kind_types in Hr.
      apply String.eqb_neq in Hk. rewrite Hk in Hr.
      destruct (proj2 (selected_In limit (Some [k]) rows r Hr) k [] eq_refl)
        as [E|[]].
      now symmetry.
Qed.

(** ** What is written reads back *)

Lemma json_ok_StateUpdate_dict u :
  (forall t, temperature u = Some t -> float_text_ok t) ->
  json_ok (PDict (StateUpdate_dict u)).
Proof.
  intros Ht. apply json_ok_dict.
  destruct u as [[e|] [h|] [t|] [m|]]; cbn; split;
    repeat match goal with
      | |- NoDup _ => constructor
      | |- Forall _ _ => constructor
      | |- ~ In _ _ => cbn; intuition discriminate
      | |- float_text_ok _ => now apply Ht
      | |- json_ok _ => exact I
      | |- _ => progress cbn
      | |- True => exact I
      end.
Qed.

(** X10: an entry reads back as it was written.  On a file with the
    history table, [append_history_record(rec_type, who, content)] raises
    what [json.dumps] raises for the content, or else what SQLite raises
    for the row - a text that cannot be bound, no id left - and then leaves
    the file as it was; it raises nothing when the content has room in the
    interpreter, no integer beyond the digit limit and only strings that
    can be encoded (float text being ASCII), the type and the who can be
    bound, and an id is left.  It then returns its stamp, and the
    [read_history(limit=1, ...)] that follows, without type filter or
    filtered on that type, returns exactly one item: the new id, the type,
    the who, the stamp, and as content the dict that was given, for every
    dict whose floats have a text that reads back - every such string, with
    quotes, backslashes and control characters, every such integer, every
    nesting of lists and dicts that has room. *)
Theorem history_round_trip (now : datetime) (rec_type : string)
    (who : option string) (content : dict) (d : db)
    (rows : list history_row) (types : option (list string)) :
  history_table d = Some rows ->
  json_ok (PDict content) ->
  types = None \/ types = Some [rec_type] ->
  (forall e, dumps_error nesting_limit (PDict content) = Some e ->
   append_history_record now rec_type who content d = (inl e, d))
  /\ (forall e,
        dumps_error nesting_limit (PDict content) = None ->
        insert_error rec_type who (json_dumps (PDict content)) d rows
        = Some e ->
        append_history_record now rec_type who content d = (inl e, d))
  /\ (dumps_error nesting_limit (PDict content) = None ->
      utf8_ok rec_type = true ->
      match who with Some w => utf8_ok w | None => true end = true ->
      float_repr_ascii -> strs_ok (PDict content) = true ->
      id_left d rows = true ->
      exists d',
        append_history_record now rec_type who content d
        = (inr (utc_stamp now), d')
        /\ read_history (Some 1) types d'
           = (inr [[("id", PInt (next_id d rows)); ("type", PStr rec_type);
                    ("who", opt_str who); ("content", PDict content);
                    ("ts", PStr (utc_stamp now))]], d')).
Proof.
  intros Hh Hok Hty.
  rewrite (append_history_record_run now rec_type who content d rows Hh).
  split; [intros e ->; reflexivity|].
  split; [intros e -> ->; reflexivity|].
  intros Hroom Hrt Hw Hascii Hstrs Hid.
  pose proof (utf8_ok_dumps _ Hascii Hstrs) as Htext.
  rewrite Hroom, (proj2 (insert_error_none _ _ _ _ _))
    by (repeat split; assumption).
  cbv zeta. eexists. split; [reflexivity|].
  set (x := mk_history_row (next_id d rows) rec_type who
              (json_dumps (PDict content)) (utc_stamp now)).
  change (next_id d rows) with (h_id x) at 1.
  rewrite read_history_newest.
  - unfold x. now rewrite history_item_dumps.
  - intros r Hr. now apply next_id_fresh.
  - destruct Hty as [-> | ->]; [reflexivity|].
    cbn. now rewrite String.eqb_refl.
  - destruct Hty as [-> | ->]; [reflexivity|].
    cbn. now rewrite Hrt.
  - unfold row_decodes, x. cbn [h_type h_who h_content h_ts].
    now rewrite Hrt, Hw, Htext, utf8_ok_utc_stamp.
Qed.

(** X11: every message that can be stored reads back.  On a file whose
    history table has an id left, and with room for one container in the
    interpreter, after a [POST /comm] with [who] omitted, 0 or 1 and a
    message without lone surrogate, [GET /history?kind=comm&limit=1]
    answers with count 1 and one item of type comm whose content is
    [{"message": <the text sent>}] and whose who and ts are the ones that
    [POST /comm] answered. *)
Theorem post_comm_reads_back (now : datetime) (req : CommRequest)
    (who : option Z) (d : db) (rows : list history_row) :
  history_table d = Some rows ->
  id_left d rows = true ->
  (1 <= nesting_limit)%nat ->
  utf8_ok (message req) = true ->
  who = None \/ who = Some 0 \/ who = Some 1 ->
  exists answer d' item,
    post_comm now req who d = (inr answer, d')
    /\ history (Some 1) (Some "comm") d'
       = (inr [("count", PInt 1); ("items", PList [PDict item])], d')
    /\ dict_get item "type" = Some (PStr "comm")
    /\ dict_get item "content"
       = Some (PDict [("message", PStr (message req))])
    /\ dict_get item "who" = dict_get answer "who"
    /\ dict_get item "ts" = dict_get answer "ts".
Proof.
  intros Hh Hid Hn Hm Hwho.
  rewrite post_comm_cases. cbv zeta.
  assert (negb (((match who with Some w => w | None => 1 end) =? 0)
                || ((match who with Some w => w | None => 1 end) =? 1))
          = false) as ->
    by (destruct Hwho as [-> | [-> | ->]]; reflexivity).
  rewrite (comm_content_dumps _ Hn), Hh.
  set (label := if (match who with Some w => w | None => 1 end) =? 0
                then "krzys" else "user").
  assert (label = "krzys" \/ label = "user") as Hlabel
    by (unfold label; destruct (_ =? 0); auto).
  rewrite (insert_error_comm _ _ _ _ Hlabel Hm Hid).
  set (x := mk_history_row (next_id d rows) "comm" (Some label)
              (json_dumps (PDict [("message", PStr (message req))]))
              (utc_stamp now)).
  eexists _, _, (history_item x). split; [reflexivity|].
  rewrite history_cases.
  cbn [String.eqb Ascii.eqb Bool.eqb negb andb orb kind_types].
  change (next_id d rows) with (h_id x).
  rewrite read_history_newest.
  - split; [reflexivity|]. unfold x.
    rewrite history_item_dumps;
      [|apply json_ok_dict; split;
        [repeat constructor; cbn; tauto | repeat constructor]
       |now apply comm_content_dumps].
    repeat split.
  - intros r Hr. now apply next_id_fresh.
  - reflexivity.
  - reflexivity.
  - unfold row_decodes, x. cbn [h_type h_who h_content h_ts].
    rewrite (comm_content_utf8 _ Hm), utf8_ok_utc_stamp.
    destruct Hlabel as [-> | ->]; reflexivity.
Qed.

(** X12: every update reads back.  After a [POST /state] that succeeded,
    [GET /history?kind=state&limit=1] answers with count 1 and one item of
    type state, without who, whose ts is the updated_at of the answer and
    whose content is [{"changed": <the fields sent>, "state": <the answer
    without updated_at>}], provided the text of the temperature in the
    answer reads back. *)
Theorem post_state_reads_back (now : datetime) (body : StateUpdate) (d : db)
    (rec : dict) (d' : db) :
  post_state now body d = (inr rec, d') ->
  (forall t, dict_get rec "temperature" = Some (PFloat t) ->
             float_text_ok t) ->
  exists item state,
    history (Some 1) (Some "state") d'
    = (inr [("count", PInt 1); ("items", PList [PDict item])], d')
    /\ dict_get item "type" = Some (PStr "state")
    /\ dict_get item "who" = Some PNone
    /\ dict_get item "ts" = dict_get rec "updated_at"
    /\ dict_get item "content"
       = Some (PDict [("changed", PDict (StateUpdate_dict body));
                      ("state", PDict state)])
    /\ rec = (state ++ [("updated_at", PStr (utc_stamp now))])%list.
Proof.
  intros H Hfloat.
  apply post_state_inr in H as (_ & _ & H).
  apply update_state_in_db_success in H
    as (rows & row & hrows & Hst & Hrow & Hh & H).
  cbv zeta in H. destruct H as (_ & _ & Hroom & Htext & _ & -> & ->).
  specialize (Hfloat _ eq_refl).
  unfold entry_content, merged in *.
  set (e := or_else (energy body) (st_energy row)) in *.
  set (h := or_else (heart_rate body) (st_heart_rate row)) in *.
  set (t := or_else (temperature body) (st_temperature row)) in *.
  set (m := or_else (mood body) (st_mood row)) in *.
  set (state := [("energy", PInt e); ("heart_rate", PInt h);
                 ("temperature", PFloat t); ("mood", PStr m)]) in *.
  set (content := [("changed", PDict (StateUpdate_dict body));
                   ("state", PDict state)]) in *.
  set (x := mk_history_row (next_id d hrows) "state" None
              (json_dumps (PDict content)) (utc_stamp now)).
  assert (Hok : json_ok (PDict content)).
  { apply json_ok_dict.
    split; [repeat constructor; cbn; intuition discriminate|].
    constructor; [|constructor; [|constructor]].
    - apply json_ok_StateUpdate_dict. intros t' Ht'.
      subst t. rewrite Ht' in Hfloat. exact Hfloat.
    - apply json_ok_dict. split;
        [repeat constructor; cbn; intuition discriminate|].
      repeat constructor. exact Hfloat. }
  exists (history_item x), state.
  rewrite history_cases.
  cbn [String.eqb Ascii.eqb Bool.eqb negb andb orb kind_types].
  change {| state_table := ?s; history_table := Some (hrows ++ [x])%list;
            history_seq := next_id d hrows |}
    with (set_history_table
            {| state_table := s; history_table := history_table d;
               history_seq := history_seq d |} (hrows ++ [x]) (h_id x)).
  rewrite read_history_newest.
  - split; [reflexivity|]. unfold x.
    rewrite history_item_dumps by assumption.
    repeat split.
  - intros r Hr. now apply next_id_fresh.
  - reflexivity.
  - reflexivity.
  - unfold row_decodes, x. cbn [h_type h_who h_content h_ts].
    now rewrite Htext, utf8_ok_utc_stamp.
Qed.

End FloatText.

(** * Closed examples

    The theorems above applied to concrete files, clock readings and
    requests, and the inputs at which a property of the specification does
    not hold of the code. *)

(** C7 at the file of a first start: two calls leave the one default row,
    stamped by the first. *)
Lemma init_db_idempotent_witness :
  wf_db fresh_db = true
  /\ state_table (snd (init_db clock_1 (snd (init_db clock_0 fresh_db))))
     = Some [mk_state_row 1 100 2 (-5.5)%float "neutral"
               "2025-01-01T00:00:00Z"].
Proof.
  split; [reflexivity|].
  destruct (init_db_idempotent clock_0 clock_1 fresh_db eq_refl)
    as (_ & _ & H2 & H3 & _).
  rewrite H2. simpl. apply H3. now left.
Defined.

(** C4 fails as stated: with the state row missing, the error of
    [GET /state] is not answered with 404, nor with any client error. *)
Lemma get_state_missing_row_not_404 :
  ~ (exists e, fst (get_state db_without_row) = inl e /\ http_status e = 404)
  /\ ~ (exists e, fst (get_state db_without_row) = inl e
                  /\ is_client_error e = true).
Proof.
  split; intros [e [He Hs]]; vm_compute in He; inversion He; subst e;
    vm_compute in Hs; discriminate.
Qed.

Lemma get_state_missing_row_witness :
  state_table db_without_row = Some []
  /\ find is_row_1 [] = None
  /\ get_state db_without_row
     = (inl (RuntimeError "State missing"), db_without_row).
Proof.
  split; [reflexivity|]. split; [reflexivity|].
  exact (proj1 (get_state_missing_row db_without_row [] eq_refl eq_refl)).
Defined.

(** C1 fails as stated, at four inputs.  (1) The clock has been set back
    by one second between the seeding and the update: the record returned
    carries a smaller updated_at than the one before.  (2) A heart_rate of
    2^63 passes validation, and the update raises [OverflowError] instead
    of returning a record.  (3) A temperature NaN passes validation, and the
    update raises [IntegrityError].  (4) A mood that is a lone surrogate
    passes validation, and the update raises [UnicodeEncodeError]. *)
Lemma update_state_in_db_not_monotone :
  (fst (get_state (db_seeded clock_1))
   = inr [("energy", PInt 100); ("heart_rate", PInt 2);
          ("temperature", PFloat (-5.5)%float); ("mood", PStr "neutral");
          ("updated_at", PStr "2025-01-01T00:00:01Z")]
   /\ fst (update_state_in_db example_float_repr example_nesting_limit
             clock_0 (StateUpdate_dict mood_happy) (db_seeded clock_1))
      = inr [("energy", PInt 100); ("heart_rate", PInt 2);
             ("temperature", PFloat (-5.5)%float); ("mood", PStr "happy");
             ("updated_at", PStr "2025-01-01T00:00:00Z")]
   /\ String.ltb "2025-01-01T00:00:00Z" "2025-01-01T00:00:01Z" = true)
  /\ (StateUpdate_validate (mk_StateUpdate None (Some (2 ^ 63)) None None)
      = inr (mk_StateUpdate None (Some (2 ^ 63)) None None)
      /\ update_state_in_db example_float_repr example_nesting_limit clock_1
           (StateUpdate_dict (mk_StateUpdate None (Some (2 ^ 63)) None None))
           (db_seeded clock_0)
         = (inl (OverflowError
                   "Python int too large to convert to SQLite INTEGER"),
            db_seeded clock_0))
  /\ (StateUpdate_validate (mk_StateUpdate None None (Some PrimFloat.nan) None)
      = inr (mk_StateUpdate None None (Some PrimFloat.nan) None)
      /\ update_state_in_db example_float_repr example_nesting_limit clock_1
           (StateUpdate_dict
              (mk_StateUpdate None None (Some PrimFloat.nan) None))
           (db_seeded clock_0)
         = (inl (IntegrityError
                   "NOT NULL constraint failed: state.temperature"),
            db_seeded clock_0))
  /\ (StateUpdate_validate
        (mk_StateUpdate None None None (Some lone_surrogate))
      = inr (mk_StateUpdate None None None (Some lone_surrogate))
      /\ update_state_in_db example_float_repr example_nesting_limit clock_1
           (StateUpdate_dict
              (mk_StateUpdate None None None (Some lone_surrogate)))
           (db_seeded clock_0)
         = (inl surrogates_not_allowed, db_seeded clock_0)).
Proof.
  repeat split; vm_compute; reflexivity.
Qed.

(** Even a clock that only advances can make the stamp smaller as text:
    one microsecond after a whole second, [isoformat] starts to print the
    fraction, and a point sorts before the letter Z. *)
Lemma utc_stamp_text_order :
  utc_stamp clock_0 = "2025-01-01T00:00:00Z"
  /\ utc_stamp clock_0_000001 = "2025-01-01T00:00:00.000001Z"
  /\ String.ltb (utc_stamp clock_0_000001) (utc_stamp clock_0) = true.
Proof.
  repeat split.
Qed.

(** The float text of the examples is ASCII. *)
Lemma example_float_repr_ascii : float_repr_ascii example_float_repr.
Proof.
  intros f. unfold example_float_repr.
  destruct (PrimFloat.eqb f (-5.5)%float); [reflexivity|].
  destruct (PrimFloat.eqb f 36.5%float); reflexivity.
Defined.

(** C1 as amended, at the seeded file: the mood changes, the other fields
    keep their values, updated_at is the stamp of the call, and
    [GET /state] returns the record afterwards. *)
Lemma update_state_in_db_merge_witness :
  wf_db (db_seeded clock_0) = true
  /\ id_left (db_seeded clock_0) [] = true
  /\ StateUpdate_validate mood_happy = inr mood_happy
  /\ exists prior rec d' stored,
       get_state (db_seeded clock_0) = (inr prior, db_seeded clock_0)
       /\ update_state_in_db example_float_repr example_nesting_limit clock_1
            (StateUpdate_dict mood_happy) (db_seeded clock_0) = (inr rec, d')
       /\ dict_get rec "mood" = Some (PStr "happy")
       /\ dict_get rec "energy" = dict_get prior "energy"
       /\ dict_get rec "updated_at" = Some (PStr "2025-01-01T00:00:01Z")
       /\ get_state d' = (inr stored, d')
       /\ dict_get stored "mood" = dict_get rec "mood".
Proof.
  split; [reflexivity|]. split; [reflexivity|]. split; [reflexivity|].
  destruct (update_state_in_db_merge example_float_repr example_nesting_limit
              clock_1 mood_happy
              (db_seeded clock_0) [default_row clock_0] (default_row clock_0)
              [] eq_refl eq_refl eq_refl eq_refl eq_refl eq_refl)
    as (prior & rec & d' & stored & H1 & H2 & _ & H4 & H5 & H6 & H7 & H8 & _).
  - unfold example_nesting_limit. lia.
  - exact example_float_repr_ascii.
  - reflexivity.
  - intros h E. discriminate E.
  - intros t E. discriminate E.
  - intros m E. injection E as <-. reflexivity.
  - exists prior, rec, d', stored. split; [exact H1|]. split; [exact H2|].
    split; [apply H4; reflexivity|].
    split; [apply H5; [reflexivity | discriminate]|].
    split; [exact H6|]. split; [exact H7|].
    apply H8. discriminate.
Defined.

(** C2 at the seeded file and at the file without the state row. *)
Lemma update_state_in_db_atomic_witness :
  (exists rec d',
     update_state_in_db example_float_repr example_nesting_limit clock_1
       (StateUpdate_dict mood_happy) (db_seeded clock_0) = (inr rec, d')
     /\ get_state d' = (inr rec, d')
     /\ history_table d' =
        Some [mk_history_row 1 "state" None
                (json_dumps example_float_repr
                   (PDict [("changed", PDict [("mood", PStr "happy")]);
                           ("state",
                            PDict [("energy", PInt 100);
                                   ("heart_rate", PInt 2);
                                   ("temperature", PFloat (-5.5)%float);
                                   ("mood", PStr "happy")])]))
                "2025-01-01T00:00:01Z"])
  /\ update_state_in_db example_float_repr example_nesting_limit clock_1
       (StateUpdate_dict mood_happy) db_without_row
     = (inl (RuntimeError "State missing"), db_without_row).
Proof.
  pose proof (update_state_in_db_atomic example_float_repr
                example_nesting_limit clock_1 (db_seeded clock_0))
    as (_ & _ & Hok & _).
  pose proof (update_state_in_db_atomic example_float_repr
                example_nesting_limit clock_1 db_without_row)
    as (_ & Hmiss & _).
  split.
  - destruct (update_state_in_db example_float_repr example_nesting_limit
                clock_1 (StateUpdate_dict mood_happy) (db_seeded clock_0))
      as [[e|rec] d'] eqn:E; [vm_compute in E; discriminate E|].
    destruct (Hok mood_happy rec d' E)
      as (rows & row & hrows & entry & Hst & Hfind & Hrec & _ & Hget & _).
    cbn in Hst. inversion Hst; subst rows.
    cbn in Hfind. inversion Hfind; subst row.
    exists rec, d'. split; [reflexivity|].
    split; [rewrite Hget, Hrec; reflexivity|].
    vm_compute in E. inversion E. reflexivity.
  - exact (Hmiss (StateUpdate_dict mood_happy) [] eq_refl eq_refl).
Defined.

(** C3 fails as stated, at two inputs, on the history of five entries.
    (1) With the empty list as filter, no entry has a type in the set, and
    all five entries are returned.  (2) With the limit -2^63 - 1, which is
    not positive, the query raises [OverflowError] instead of returning all
    rows. *)
Lemma read_history_empty_types_not_filtered :
  (exists items,
     fst (read_history example_float_of_literal example_nesting_limit None (Some []) db_five)
     = inr items
     /\ item_ids items = [Some (PInt 5); Some (PInt 4); Some (PInt 3);
                          Some (PInt 2); Some (PInt 1)]
     /\ map (fun item => dict_get item "type") items
        = [Some (PStr "state"); Some (PStr "comm"); Some (PStr "state");
           Some (PStr "comm"); Some (PStr "state")])
  /\ fst (read_history example_float_of_literal example_nesting_limit (Some (- 2 ^ 63 - 1)) None
            db_five)
     = inl (OverflowError "Python int too large to convert to SQLite INTEGER").
Proof.
  split.
  - eexists. split; [vm_compute; reflexivity|]. split; reflexivity.
  - vm_compute. reflexivity.
Qed.

(** C3 as amended, on the history of five entries: the two newest entries
    of type comm. *)
Lemma read_history_query_witness :
  history_table db_five
  = Some (five_entries
            (fun id => if id =? 2 then Some "krzys"
                       else if id =? 4 then Some "user" else None)
            (fun id => if id =? 3 then "{not json" else comm_content id)
            (fun id => utc_stamp clock_0))
  /\ wf_db db_five = true
  /\ limit_ok (Some 2) = true
  /\ exists sel,
       read_history example_float_of_literal example_nesting_limit (Some 2)
         (Some ["comm"]) db_five
       = (inr (map (history_item example_float_of_literal
                      example_nesting_limit) sel), db_five)
       /\ StronglySorted desc sel
       /\ (forall r, In r sel -> In (h_type r) ["comm"])
       /\ (List.length sel <= 2)%nat.
Proof.
  split; [reflexivity|]. split; [reflexivity|]. split; [reflexivity|].
  destruct (read_history_query example_float_of_literal example_nesting_limit
              (Some 2) (Some ["comm"]) db_five _ eq_refl eq_refl eq_refl)
    as (sel & H1 & H2 & _ & H3 & H4 & H5 & H6 & _).
  exists sel. split.
  - rewrite H1. f_equal. apply H2; [reflexivity|].
    apply forallb_forall. intros r Hr. apply H4 in Hr.
    assert (forallb row_decodes
              (five_entries
                 (fun id => if id =? 2 then Some "krzys"
                            else if id =? 4 then Some "user" else None)
                 (fun id => if id =? 3 then "{not json" else comm_content id)
                 (fun id => utc_stamp clock_0)) = true) as Hall
      by reflexivity.
    rewrite forallb_forall in Hall. now apply Hall.
  - split; [exact H3|].
    split; [exact (H5 "comm" [] eq_refl)|].
    exact (proj2 (H6 2 eq_refl eq_refl)).
Defined.



(** C8 at the seeded file. *)
Lemma comm_round_trip_witness :
  history_table (db_seeded clock_0) = Some []
  /\ id_left (db_seeded clock_0) [] = true
  /\ (1 <= example_nesting_limit)%nat
  /\ exists ts d' item,
       append_history_record example_float_repr example_nesting_limit clock_1
         "comm" (Some "user") [("message", PStr "hi")] (db_seeded clock_0)
       = (inr ts, d')
       /\ read_history example_float_of_literal example_nesting_limit
            (Some 1) (Some ["comm"]) d'
          = (inr [item], d')
       /\ dict_get item "content" = Some (PDict [("message", PStr "hi")])
       /\ dict_get item "who" = Some (PStr "user").
Proof.
  assert (1 <= example_nesting_limit)%nat as Hroom
    by (unfold example_nesting_limit; lia).
  split; [reflexivity|]. split; [reflexivity|]. split; [exact Hroom|].
  exact (proj1 (comm_round_trip example_float_repr example_float_of_literal
                  example_nesting_limit clock_1 (mk_CommRequest "hi")
                  (db_seeded clock_0) [] eq_refl eq_refl Hroom)).
Defined.

(** C9 at the seeded file. *)
Lemma update_state_history_entry_witness :
  exists rec d' entry,
    update_state_in_db example_float_repr example_nesting_limit clock_1
      (StateUpdate_dict mood_happy) (db_seeded clock_0) = (inr rec, d')
    /\ history_table d' = Some [entry]
    /\ h_who entry = None
    /\ h_ts entry = "2025-01-01T00:00:01Z"
    /\ dict_get rec "updated_at" = Some (PStr (h_ts entry)).
Proof.
  destruct (update_state_in_db example_float_repr example_nesting_limit clock_1
              (StateUpdate_dict mood_happy) (db_seeded clock_0))
    as [[e|rec] d'] eqn:E; [vm_compute in E; discriminate E|].
  destruct (update_state_history_entry example_float_repr example_nesting_limit clock_1 mood_happy
              (db_seeded clock_0) rec d' E)
    as (hrows & entry & state & rows' & row' & Hh & Hh' & _ & Hwho & _ & _
        & _ & _ & Hrec & _ & _ & _ & Hts).
  exists rec, d', entry. split; [reflexivity|].
  inversion Hh; subst hrows.
  split; [exact Hh'|]. split; [exact Hwho|]. split; [exact Hts|]. exact Hrec.
Defined.


(** C5 at the seeded file: an empty body, and a body in range. *)
Lemma post_state_validation_witness :
  (exists e,
     post_state example_float_repr example_nesting_limit clock_1
       (mk_StateUpdate None None None None) (db_seeded clock_0)
     = (inl e, db_seeded clock_0)
     /\ is_client_error e = true)
  /\ post_state example_float_repr example_nesting_limit clock_1 mood_happy (db_seeded clock_0)
     = update_state_in_db example_float_repr example_nesting_limit clock_1
         (StateUpdate_dict mood_happy) (db_seeded clock_0).
Proof.
  pose proof (post_state_validation example_float_repr example_nesting_limit clock_1
                (mk_StateUpdate None None None None) (db_seeded clock_0))
    as (Hrej & _).
  pose proof (post_state_validation example_float_repr example_nesting_limit clock_1 mood_happy
                (db_seeded clock_0)) as (_ & _ & _ & _ & Hacc).
  split.
  - destruct Hrej as (e & H1 & H2 & _).
    + left. repeat split.
    + exists e. split; [exact H1 | exact H2].
  - apply Hacc.
    + intros e E. discriminate E.
    + intros h E. discriminate E.
    + discriminate.
Defined.

(** The scenario of a first session: the service starts on a new file,
    [GET /state] returns the defaults, [POST /state] with [{"mood":
    "happy"}] returns the record with the new mood and a newer stamp, and
    [GET /history?kind=state&limit=1] returns the one entry of that update,
    whose content holds the change and the snapshot of the four fields. *)
Lemma first_session :
  let d0 := snd (init_db clock_0 fresh_db) in
  let d1 := snd (post_state example_float_repr example_nesting_limit clock_1 mood_happy d0) in
  wf_db d1 = true
  /\ fst (get_state d0)
     = inr [("energy", PInt 100); ("heart_rate", PInt 2);
            ("temperature", PFloat (-5.5)%float); ("mood", PStr "neutral");
            ("updated_at", PStr "2025-01-01T00:00:00Z")]
  /\ fst (post_state example_float_repr example_nesting_limit clock_1 mood_happy d0)
     = inr [("energy", PInt 100); ("heart_rate", PInt 2);
            ("temperature", PFloat (-5.5)%float); ("mood", PStr "happy");
            ("updated_at", PStr "2025-01-01T00:00:01Z")]
  /\ fst (history example_float_of_literal example_nesting_limit (Some 1) (Some "state") d1)
     = inr [("count", PInt 1);
            ("items",
             PList
               [PDict
                  [("id", PInt 1); ("type", PStr "state"); ("who", PNone);
                   ("content",
                    PDict
                      [("changed", PDict [("mood", PStr "happy")]);
                       ("state",
                        PDict [("energy", PInt 100); ("heart_rate", PInt 2);
                               ("temperature", PFloat (-5.5)%float);
                               ("mood", PStr "happy")])]);
                   ("ts", PStr "2025-01-01T00:00:01Z")]])].
Proof.
  cbv zeta. repeat split; vm_compute; reflexivity.
Qed.
(** ** The further properties at concrete inputs *)

(** The text of 36.5 reads back with the tables of the examples. *)
Lemma example_float_text_ok :
  float_text_ok example_float_repr example_float_of_literal 36.5%float.
Proof.
  intros rest Hrest. destruct rest as [|c r]; [reflexivity|].
  unfold tail_ok in Hrest. apply negb_true_iff in Hrest.
  apply orb_false_iff in Hrest as [Hrest H69].
  apply orb_false_iff in Hrest as [Hrest H101].
  apply orb_false_iff in Hrest as [Hdigit H46].
  unfold scan_constant, scan_number. cbn.
  rewrite Hdigit. cbn. rewrite H101, H69. reflexivity.
Qed.

(** X1 at a read of the history and at a refused update. *)
Lemma serve_unsaved_keeps_file_witness :
  saved example_float_repr example_float_of_literal example_nesting_limit
    (GetHistory None None) db_five = false
  /\ snd (serve example_float_repr example_float_of_literal
            example_nesting_limit (GetHistory None None) db_five) = db_five.
Proof.
  split; [reflexivity|].
  apply (serve_unsaved_keeps_file example_float_repr example_float_of_literal
           example_nesting_limit (GetHistory None None) db_five).
  reflexivity.
Defined.

(** X2 at the seeded file: the session adds two rows. *)
Lemma serve_all_appends_witness :
  history_table (db_seeded clock_0) = Some []
  /\ exists added,
       history_table (serve_all example_float_repr example_float_of_literal
                        example_nesting_limit session (db_seeded clock_0))
       = Some added
       /\ List.length added = 2%nat
       /\ StronglySorted Z.lt (map h_id added).
Proof.
  split; [reflexivity|].
  destruct (serve_all_appends example_float_repr example_float_of_literal
              example_nesting_limit session (db_seeded clock_0) [] eq_refl)
    as (added & H1 & H2 & H3 & _).
  exists added. split; [exact H1|]. split; [exact H2 | exact H3].
Defined.

(** X3 on a new file, after the session. *)
Lemma service_stays_ready_witness :
  wf_db fresh_db = true
  /\ db_text_ok fresh_db = true
  /\ wf_db (serve_all example_float_repr example_float_of_literal
              example_nesting_limit session (started clock_0 fresh_db)) = true
  /\ (forall r e d',
        serve example_float_repr example_float_of_literal
          example_nesting_limit r
          (serve_all example_float_repr example_float_of_literal
             example_nesting_limit session (started clock_0 fresh_db))
        = (inl e, d') ->
        expected_error e).
Proof.
  split; [reflexivity|]. split; [reflexivity|].
  destruct (service_stays_ready example_float_repr example_float_of_literal
              example_nesting_limit clock_0 fresh_db session eq_refl eq_refl)
    as (H1 & _ & _ & _ & _ & H5).
  split; [exact H1 | exact H5].
Defined.

(** X5 at the seeded file, whose history is empty. *)
Lemma history_kinds_partition_witness :
  log_ok (db_seeded clock_0)
  /\ exists ns nc items_s items_c items,
       fst (history example_float_of_literal example_nesting_limit None
              (Some "state")
              (serve_all example_float_repr example_float_of_literal
                 example_nesting_limit session (db_seeded clock_0)))
       = inr [("count", PInt (Z.of_nat ns)); ("items", items_s)]
       /\ fst (history example_float_of_literal example_nesting_limit None
                 (Some "comm")
                 (serve_all example_float_repr example_float_of_literal
                    example_nesting_limit session (db_seeded clock_0)))
          = inr [("count", PInt (Z.of_nat nc)); ("items", items_c)]
       /\ fst (history example_float_of_literal example_nesting_limit None
                 None
                 (serve_all example_float_repr example_float_of_literal
                    example_nesting_limit session (db_seeded clock_0)))
          = inr [("count", PInt (Z.of_nat (ns + nc))); ("items", items)].
Proof.
  assert (Hlog : log_ok (db_seeded clock_0)).
  { exists []. repeat split. }
  split; [exact Hlog|].
  destruct (history_kinds_partition example_float_repr
              example_float_of_literal example_nesting_limit session
              (db_seeded clock_0) Hlog)
    as (rows & ns & nc & items_s & items_c & items & _ & _ & Hs & Hc & Ha).
  exists ns, nc, items_s, items_c, items.
  rewrite Hs, Hc, Ha. repeat split.
Defined.

(** X7 at a message: the state table and the answer of [GET /state] are
    as before. *)
Lemma serve_keeps_state_witness :
  (forall now body, PostComm clock_1 say_hi None <> PostState now body)
  /\ state_table
       (snd (serve example_float_repr example_float_of_literal
               example_nesting_limit (PostComm clock_1 say_hi None)
               (db_seeded clock_0)))
     = Some [default_row clock_0].
Proof.
  assert (H : forall now body,
             PostComm clock_1 say_hi None <> PostState now body)
    by (intros now body E; discriminate E).
  split; [exact H|].
  exact (proj1 (serve_keeps_state example_float_repr example_float_of_literal
                  example_nesting_limit (PostComm clock_1 say_hi None)
                  (db_seeded clock_0) H)).
Defined.

(** X8 at the seeded file: the mood, then the energy. *)
Lemma post_state_twice_witness :
  float_repr_ascii example_float_repr
  /\ exists rec' d',
       post_state example_float_repr example_nesting_limit clock_1
         (StateUpdate_over energy_50 mood_happy) (db_seeded clock_0)
       = (inr rec', d')
       /\ dict_get rec' "energy" = Some (PInt 50)
       /\ dict_get rec' "mood" = Some (PStr "happy")
       /\ state_table d'
          = Some [mk_state_row 1 50 2 (-5.5)%float "happy"
                    "2025-01-01T00:00:01Z"].
Proof.
  split; [exact example_float_repr_ascii|].
  destruct (post_state_twice example_float_repr example_nesting_limit
              clock_0 clock_1
              mood_happy energy_50 (db_seeded clock_0)
              (snd (post_state example_float_repr example_nesting_limit
                      clock_0 mood_happy (db_seeded clock_0)))
              (snd (post_state example_float_repr example_nesting_limit
                      clock_1 energy_50
                      (snd (post_state example_float_repr
                              example_nesting_limit clock_0 mood_happy
                              (db_seeded clock_0)))))
              [("energy", PInt 100); ("heart_rate", PInt 2);
               ("temperature", PFloat (-5.5)%float); ("mood", PStr "happy");
               ("updated_at", PStr "2025-01-01T00:00:00Z")]
              [("energy", PInt 50); ("heart_rate", PInt 2);
               ("temperature", PFloat (-5.5)%float); ("mood", PStr "happy");
               ("updated_at", PStr "2025-01-01T00:00:01Z")]
              example_float_repr_ascii eq_refl eq_refl)
    as (rec' & d' & H & Hst & _ & _ & _ & H2 & H1).
  exists rec', d'. split; [exact H|].
  split; [exact (proj1 (H2 "energy" (PInt 50) eq_refl))|].
  split; [exact (H1 "mood" (PStr "happy") eq_refl eq_refl)|].
  rewrite Hst. reflexivity.
Defined.

(** X9 at the history of five entries: an unknown kind, and the two newest
    messages. *)
Lemma history_handler_witness :
  (exists detail,
     history example_float_of_literal example_nesting_limit (Some 2)
       (Some "other") db_five
     = (inl (HTTPException 400 detail), db_five))
  /\ exists a b,
       history example_float_of_literal example_nesting_limit (Some 2)
         (Some "comm") db_five
       = (inr [("count", PInt 2); ("items", PList [PDict a; PDict b])],
          db_five)
       /\ dict_get a "id" = Some (PInt 4)
       /\ dict_get b "id" = Some (PInt 2).
Proof.
  split.
  - apply (proj1 (history_handler example_float_of_literal
                    example_nesting_limit (Some 2)
                    (Some "other") db_five) "other" eq_refl);
      intros E; discriminate E.
  - destruct (history_handler example_float_of_literal example_nesting_limit
                (Some 2) (Some "comm") db_five) as (_ & _ & _ & H).
    destruct (H _ eq_refl eq_refl (or_intror (or_intror (or_intror eq_refl))))
      as (_ & Hrun & _).
    cbv zeta in Hrun. specialize (Hrun eq_refl).
    eexists _, _. split; [exact Hrun|].
    split; reflexivity.
Defined.

(** X10 at the history of five entries: strings, an integer, a float, a
    list and a nested dict. *)
Lemma history_round_trip_witness :
  exists d',
    append_history_record example_float_repr example_nesting_limit clock_1
      "comm" (Some "user")
      [("message", PStr (message say_hi)); ("n", PInt (-3));
       ("t", PFloat 36.5%float);
       ("l", PList [PNone; PBool true; PDict [("k", PList [])]])] db_five
    = (inr "2025-01-01T00:00:01Z", d')
    /\ read_history example_float_of_literal example_nesting_limit (Some 1)
         (Some ["comm"]) d'
       = (inr [[("id", PInt 6); ("type", PStr "comm"); ("who", PStr "user");
                ("content",
                 PDict [("message", PStr (message say_hi)); ("n", PInt (-3));
                        ("t", PFloat 36.5%float);
                        ("l", PList [PNone; PBool true;
                                     PDict [("k", PList [])]])]);
                ("ts", PStr "2025-01-01T00:00:01Z")]], d').
Proof.
  refine (proj2 (proj2
            (history_round_trip example_float_repr example_float_of_literal
               example_nesting_limit clock_1 "comm" (Some "user")
               [("message", PStr (message say_hi)); ("n", PInt (-3));
                ("t", PFloat 36.5%float);
                ("l", PList [PNone; PBool true; PDict [("k", PList [])]])]
               db_five _ (Some ["comm"]) eq_refl _ (or_intror eq_refl)))
            eq_refl eq_refl eq_refl example_float_repr_ascii eq_refl eq_refl).
  cbn. repeat split; try exact example_float_text_ok.
  - repeat constructor; cbn; intuition discriminate.
  - repeat constructor; cbn; intuition discriminate.
Defined.

(** X11 at the message with quotes, a line feed and a backslash. *)
Lemma post_comm_reads_back_witness :
  exists answer d' item,
    post_comm example_float_repr example_nesting_limit clock_1 say_hi
      (Some 0) db_five
    = (inr answer, d')
    /\ history example_float_of_literal example_nesting_limit (Some 1)
         (Some "comm") d'
       = (inr [("count", PInt 1); ("items", PList [PDict item])], d')
    /\ dict_get item "content"
       = Some (PDict [("message", PStr (message say_hi))])
    /\ dict_get item "who" = Some (PStr "krzys").
Proof.
  assert (1 <= example_nesting_limit)%nat as Hroom
    by (unfold example_nesting_limit; lia).
  destruct (post_comm_reads_back example_float_repr example_float_of_literal
              example_nesting_limit clock_1 say_hi (Some 0) db_five _
              eq_refl eq_refl Hroom eq_refl (or_intror (or_introl eq_refl)))
    as (answer & d' & item & H1 & H2 & _ & H4 & H5 & _).
  exists answer, d', item. split; [exact H1|]. split; [exact H2|].
  split; [exact H4|]. rewrite H5. vm_compute in H1. inversion H1. reflexivity.
Defined.

(** X12 at the seeded file: a temperature of 36.5. *)
Lemma post_state_reads_back_witness :
  exists item,
    history example_float_of_literal example_nesting_limit (Some 1)
      (Some "state")
      (snd (post_state example_float_repr example_nesting_limit clock_1
              temperature_36_5 (db_seeded clock_0)))
    = (inr [("count", PInt 1); ("items", PList [PDict item])],
       snd (post_state example_float_repr example_nesting_limit clock_1
              temperature_36_5 (db_seeded clock_0)))
    /\ dict_get item "content"
       = Some (PDict [("changed", PDict [("temperature", PFloat 36.5%float)]);
                      ("state",
                       PDict [("energy", PInt 100); ("heart_rate", PInt 2);
                              ("temperature", PFloat 36.5%float);
                              ("mood", PStr "neutral")])]).
Proof.
  destruct (post_state_reads_back example_float_repr example_float_of_literal
              example_nesting_limit clock_1 temperature_36_5
              (db_seeded clock_0)
              [("energy", PInt 100); ("heart_rate", PInt 2);
               ("temperature", PFloat 36.5%float); ("mood", PStr "neutral");
               ("updated_at", PStr "2025-01-01T00:00:01Z")]
              (snd (post_state example_float_repr example_nesting_limit
                      clock_1 temperature_36_5 (db_seeded clock_0)))
              eq_refl)
    as (item & state & H1 & _ & _ & _ & H5 & H6).
  - intros t E. injection E as <-. exact example_float_text_ok.
  - exists item. split; [exact H1|]. rewrite H5.
    apply (app_inj_tail
             [("energy", PInt 100); ("heart_rate", PInt 2);
              ("temperature", PFloat 36.5%float); ("mood", PStr "neutral")]
             state) in H6.
    destruct H6 as [<- _]. reflexivity.
Defined.
